(** * ratemyprof_api: the record model and the extraction engine

    A shallow embedding of [ratemyprof_api/professor.py] and
    [ratemyprof_api/ratemyprof_api.py].

    The program is dynamically typed Python that walks a JSON object graph, so
    the embedding keeps Python's dynamic values ([pyval]) and makes every
    operation that can raise return an [outcome].  Dictionaries are
    insertion-ordered association lists, because the program iterates over
    them and breaks at the first hit.  The Professor objects a session keeps
    live in an object heap and are handed out by address, because
    [get_professor_by_id] returns the stored object itself and
    [write_ratings_to_csv] mutates it in place.

    What is taken as given, as fields of [runtime] and [network]: the library
    functions [json.loads], [float] on text, [str] on a float, list or dict,
    [str.lower] and [str.split], which follow the Unicode tables, and
    [requests.get], which is taken to return a response.  Text is a
    [string], a sequence of characters ordered by code.  Printing to the
    console, [os.mkdir], opening the file and the csv module's quoting are
    not modelled; what [csv.DictWriter] checks of a row is. *)

From Stdlib Require Import ZArith String Ascii List Lia Bool DecimalString.
From Stdlib Require Import Floats.SpecFloat Sorting.Sorted Sorting.Permutation.
Import ListNotations.
Local Open Scope string_scope.
Local Open Scope Z_scope.
Set Warnings "-register-all".

(** ** Exceptions and outcomes *)

Inductive exn : Type :=
| AttributeError
| TypeError
| KeyError
| ValueError
| OverflowError
| JSONDecodeError
| RecursionError.

Inductive outcome (A : Type) : Type :=
| Ok (a : A)
| Raise (e : exn).
Arguments Ok {A} a.
Arguments Raise {A} e.

Definition bind {A B : Type} (m : outcome A) (k : A -> outcome B) : outcome B :=
  match m with
  | Ok a => k a
  | Raise e => Raise e
  end.

Notation "x <- m ;; k" := (bind m (fun x => k))
  (at level 61, m at next level, right associativity).

Definition raises {A : Type} (m : outcome A) : bool :=
  match m with
  | Ok _ => false
  | Raise _ => true
  end.

(** ** Python values

    What [json.loads] can produce: [None], booleans, integers, floats (IEEE
    binary64, as [spec_float]), text, lists, and dicts with text keys. *)

Inductive pyval : Type :=
| PNone
| PBool (b : bool)
| PInt (z : Z)
| PFloat (f : spec_float)
| PStr (s : string)
| PList (l : list pyval)
| PDict (d : list (string * pyval)).

(** A dict decoded from JSON: text keys, in insertion order. *)
Definition jdict : Type := list (string * pyval).

(** The object store of a page (the Relay store). *)
Definition store : Type := jdict.

(** [bool(v)]: Python's truth value. *)
Definition truthy (v : pyval) : bool :=
  match v with
  | PNone => false
  | PBool b => b
  | PInt z => negb (z =? 0)
  | PFloat (S754_zero _) => false
  | PFloat _ => true
  | PStr s => negb (s =? "")%string
  | PList l => match l with [] => false | _ => true end
  | PDict d => match d with [] => false | _ => true end
  end.

(** [v == s] for a text [s]: only the same text is equal to it. *)
Definition py_eq_str (v : pyval) (s : string) : bool :=
  match v with
  | PStr t => (t =? s)%string
  | _ => false
  end.

(** Lists and dicts are unhashable: using one as a dict key raises. *)
Definition is_hashable (v : pyval) : bool :=
  match v with
  | PList _ | PDict _ => false
  | _ => true
  end.

(** *** Text *)

(** [strip_prefix pat s]: what follows [pat] when [s] starts with it. *)
Fixpoint strip_prefix (pat s : string) : option string :=
  match pat with
  | EmptyString => Some s
  | String a pat' =>
      match s with
      | EmptyString => None
      | String b s' => if Ascii.eqb a b then strip_prefix pat' s' else None
      end
  end.

(** [find_sub pat s]: the text before and after the leftmost occurrence of
    [pat] in [s]. *)
Fixpoint find_sub (pat s : string) : option (string * string) :=
  match strip_prefix pat s with
  | Some after => Some (EmptyString, after)
  | None =>
      match s with
      | EmptyString => None
      | String c s' =>
          match find_sub pat s' with
          | Some (before, after) => Some (String c before, after)
          | None => None
          end
      end
  end.

(** [pat in s] on text. *)
Definition is_substring (pat s : string) : bool :=
  match find_sub pat s with
  | Some _ => true
  | None => false
  end.

(** [s.replace(old, new)] where [old] is one character. *)
Fixpoint replace_char (old : ascii) (new : string) (s : string) : string :=
  match s with
  | EmptyString => EmptyString
  | String c s' =>
      if Ascii.eqb c old then new ++ replace_char old new s'
      else String c (replace_char old new s')
  end.

(** [s.lower()] and [s.split()] as they are on ASCII text: what the runtime
    of the worked inputs takes for [str_lower] and [str_split]. *)
Definition lower_char (c : ascii) : ascii :=
  let n := nat_of_ascii c in
  if (andb (Nat.leb 65 n) (Nat.leb n 90)) then ascii_of_nat (n + 32) else c.

Fixpoint ascii_lower (s : string) : string :=
  match s with
  | EmptyString => EmptyString
  | String c s' => String (lower_char c) (ascii_lower s')
  end.

(** The ASCII characters [str.split()] treats as separators. *)
Definition is_space (c : ascii) : bool :=
  let n := nat_of_ascii c in
  orb (Nat.eqb n 32) (orb (andb (Nat.leb 9 n) (Nat.leb n 13)) (andb (Nat.leb 28 n) (Nat.leb n 31))).

(** The maximal runs of non-separators, in order.  [cur] is the run being
    read, reversed. *)
Fixpoint split_ws_aux (s : string) (cur : list ascii) : list string :=
  let flush (k : list string) :=
    match cur with
    | [] => k
    | _ => string_of_list_ascii (rev cur) :: k
    end in
  match s with
  | EmptyString => flush []
  | String c s' =>
      if is_space c then flush (split_ws_aux s' [])
      else split_ws_aux s' (c :: cur)
  end.

Definition ascii_split (s : string) : list string := split_ws_aux s [].

(** The characters of a text, each as a text of length one (iterating over a
    [str]). *)
Fixpoint str_chars (s : string) : list string :=
  match s with
  | EmptyString => []
  | String c s' => String c EmptyString :: str_chars s'
  end.

(** *** Dicts decoded from JSON *)

Fixpoint jdict_lookup (k : string) (d : jdict) : option pyval :=
  match d with
  | [] => None
  | (k', v) :: d' => if (k' =? k)%string then Some v else jdict_lookup k d'
  end.

(** [d.get(k, default)] on a dict. *)
Definition jdict_get (d : jdict) (k : string) (default : pyval) : pyval :=
  match jdict_lookup k d with
  | Some v => v
  | None => default
  end.

(** [k in v]: key membership on a dict, element membership on a list,
    substring on text; anything else is not a container. *)
Definition py_contains (k : string) (v : pyval) : outcome bool :=
  match v with
  | PDict d => Ok (match jdict_lookup k d with Some _ => true | None => false end)
  | PList l => Ok (existsb (fun x => py_eq_str x k) l)
  | PStr s => Ok (is_substring k s)
  | _ => Raise TypeError
  end.

(** [v[k]] with a text [k]: only a dict can be indexed by text. *)
Definition py_getitem (v : pyval) (k : string) : outcome pyval :=
  match v with
  | PDict d =>
      match jdict_lookup k d with
      | Some x => Ok x
      | None => Raise KeyError
      end
  | _ => Raise TypeError
  end.

(** [v.get(k, default)]: only a dict has the method. *)
Definition py_get (v : pyval) (k : string) (default : pyval) : outcome pyval :=
  match v with
  | PDict d => Ok (jdict_get d k default)
  | _ => Raise AttributeError
  end.

(** [relay_data.get(ref, default)] with an arbitrary value as the key: an
    unhashable key raises, a key that is not text is never found. *)
Definition store_get (relay_data : store) (ref : pyval) (default : pyval) : outcome pyval :=
  match ref with
  | PStr k => Ok (jdict_get relay_data k default)
  | PList _ | PDict _ => Raise TypeError
  | _ => Ok default
  end.

(** [for x in v]: the items a [for] loop visits. *)
Definition py_iter (v : pyval) : outcome (list pyval) :=
  match v with
  | PList l => Ok l
  | PStr s => Ok (map PStr (str_chars s))
  | PDict d => Ok (map (fun kv => PStr (fst kv)) d)
  | _ => Raise TypeError
  end.

(** *** Numbers

    Python compares and hashes [bool], [int] and [float] by exact value. *)

Inductive num : Type :=
| NNaN
| NInf (negative : bool)
| NFin (n e : Z).   (* n * 2^e *)

Definition num_of (v : pyval) : option num :=
  match v with
  | PBool b => Some (NFin (if b then 1 else 0) 0)
  | PInt z => Some (NFin z 0)
  | PFloat (S754_zero _) => Some (NFin 0 0)
  | PFloat (S754_infinity s) => Some (NInf s)
  | PFloat S754_nan => Some NNaN
  | PFloat (S754_finite s m e) => Some (NFin (if s then Z.neg m else Z.pos m) e)
  | _ => None
  end.

(** Exact comparison; [None] when unordered (a NaN is involved). *)
Definition num_compare (a b : num) : option comparison :=
  match a, b with
  | NNaN, _ | _, NNaN => None
  | NInf s1, NInf s2 =>
      Some (match s1, s2 with
            | true, false => Lt
            | false, true => Gt
            | _, _ => Eq
            end)
  | NInf s, NFin _ _ => Some (if s then Lt else Gt)
  | NFin _ _, NInf s => Some (if s then Gt else Lt)
  | NFin n1 e1, NFin n2 e2 =>
      let e := Z.min e1 e2 in
      Some (Z.compare (n1 * 2 ^ (e1 - e)) (n2 * 2 ^ (e2 - e)))
  end.

(** [v < z] for an integer [z]. *)
Definition py_lt_int (v : pyval) (z : Z) : outcome bool :=
  match num_of v with
  | Some n => Ok (match num_compare n (NFin z 0) with Some Lt => true | _ => false end)
  | None => Raise TypeError
  end.

(** [v >= z] for an integer [z]. *)
Definition py_ge_int (v : pyval) (z : Z) : outcome bool :=
  match num_of v with
  | Some n => Ok (match num_compare n (NFin z 0) with Some (Gt | Eq) => true | _ => false end)
  | None => Raise TypeError
  end.

(** Equality of dict keys.  Every NaN is taken to be an object of its own, so
    a NaN key is equal to no key. *)
Definition py_key_eq (a b : pyval) : bool :=
  match a, b with
  | PNone, PNone => true
  | PStr s, PStr t => (s =? t)%string
  | _, _ =>
      match num_of a, num_of b with
      | Some x, Some y => match num_compare x y with Some Eq => true | _ => false end
      | _, _ => false
      end
  end.

(** *** Dicts keyed by Python values

    The professor mapping is keyed by whatever the page gave as [legacyId].
    Assigning under a key equal to a key already there keeps the old key and
    its place and replaces the value; a new key goes to the end. *)

Definition pydict (V : Type) : Type := list (pyval * V).

Fixpoint pydict_lookup {V : Type} (k : pyval) (d : pydict V) : option V :=
  match d with
  | [] => None
  | (k', v) :: d' => if py_key_eq k' k then Some v else pydict_lookup k d'
  end.

Fixpoint pydict_set {V : Type} (k : pyval) (v : V) (d : pydict V) : pydict V :=
  match d with
  | [] => [(k, v)]
  | (k', v') :: d' =>
      if py_key_eq k' k then (k', v) :: d' else (k', v') :: pydict_set k v d'
  end.

(** [d[k] = v]. *)
Definition pydict_setitem {V : Type} (k : pyval) (v : V) (d : pydict V) : outcome (pydict V) :=
  if is_hashable k then Ok (pydict_set k v d) else Raise TypeError.

(** [d.values()], in insertion order. *)
Definition pydict_values {V : Type} (d : pydict V) : list V := map snd d.

(** [d.update(other)]. *)
Definition pydict_update {V : Type} (d other : pydict V) : pydict V :=
  fold_left (fun acc kv => pydict_set (fst kv) (snd kv) acc) other d.

(** ** The Python runtime and the network, as given *)

Record runtime : Type := {
  (** [json.loads] on a payload that starts with an opening brace: the dict it
      decodes to, or the exception it raises ([JSONDecodeError] for text that
      is not JSON). *)
  json_loads : string -> outcome store;
  (** [float(s)] on text; [None] stands for [ValueError]. *)
  float_of_str : string -> option spec_float;
  (** [str(v)] for a float, a list or a dict. *)
  str_of_other : pyval -> string;
  (** [s.lower()]: the lowercase form of a text. *)
  str_lower : string -> string;
  (** [s.split()]: the runs of a text between whitespace, in order. *)
  str_split : string -> list string
}.

(** An HTTP response: status code and body. *)
Record response : Type := { status_code : Z; text : string }.

(** [requests.get]: the response to a URL, given how many requests the
    session has made before. *)
Definition network : Type := nat -> string -> response.

(** [str(v)], as an f-string formats a value. *)
Definition py_str (rt : runtime) (v : pyval) : string :=
  match v with
  | PNone => "None"
  | PBool true => "True"
  | PBool false => "False"
  | PInt z => NilZero.string_of_int (Z.to_int z)
  | PStr s => s
  | _ => str_of_other rt v
  end.

(** [float(v)]. *)
Definition py_float (rt : runtime) (v : pyval) : outcome spec_float :=
  match v with
  | PBool b => Ok (binary_normalize 53 1024 (if b then 1 else 0) 0 false)
  | PInt z =>
      match binary_normalize 53 1024 z 0 false with
      | S754_infinity _ => Raise OverflowError
      | f => Ok f
      end
  | PFloat f => Ok f
  | PStr s =>
      match float_of_str rt s with
      | Some f => Ok f
      | None => Raise ValueError
      end
  | _ => Raise TypeError
  end.

(** ** professor.py: the record model *)

(** A rating: the dict [_extract_ratings] builds, with its eleven keys. *)
Definition rating : Type := jdict.

Record Professor : Type := {
  ratemyprof_id : pyval;
  name : string;
  first_name : pyval;
  last_name : pyval;
  num_of_ratings : pyval;
  overall_rating : pyval;
  department : pyval;
  would_take_again_percent : pyval;
  difficulty : pyval;
  ratings : list rating
}.

(** [Professor.__init__]. *)
Definition Professor_init (rt : runtime)
    (ratemyprof_id first_name last_name num_of_ratings overall_rating : pyval)
    : outcome Professor :=
  let name := (py_str rt first_name ++ " " ++ py_str rt last_name)%string in
  no_ratings <- py_lt_int num_of_ratings 1 ;;
  rating_value <-
    (if no_ratings then Ok (PInt 0)
     else if truthy overall_rating
          then (f <- py_float rt overall_rating ;; Ok (PFloat f))
          else Ok (PInt 0)) ;;
  Ok {| ratemyprof_id := ratemyprof_id;
        name := name;
        first_name := first_name;
        last_name := last_name;
        num_of_ratings := num_of_ratings;
        overall_rating := rating_value;
        department := PStr "";
        would_take_again_percent := PInt 0;
        difficulty := PInt 0;
        ratings := [] |}.

(** [Professor.__str__]. *)
Definition Professor_str (rt : runtime) (p : Professor) : string :=
  (name p ++ " (ID: " ++ py_str rt (ratemyprof_id p) ++ ", Rating: "
   ++ py_str rt (overall_rating p) ++ ")")%string.

(** Assignments to the attributes that are filled in after construction. *)
Definition set_details (p : Professor) (dep wta diff : pyval) : Professor :=
  {| ratemyprof_id := ratemyprof_id p;
     name := name p;
     first_name := first_name p;
     last_name := last_name p;
     num_of_ratings := num_of_ratings p;
     overall_rating := overall_rating p;
     department := dep;
     would_take_again_percent := wta;
     difficulty := diff;
     ratings := ratings p |}.

Definition set_ratings (p : Professor) (rs : list rating) : Professor :=
  {| ratemyprof_id := ratemyprof_id p;
     name := name p;
     first_name := first_name p;
     last_name := last_name p;
     num_of_ratings := num_of_ratings p;
     overall_rating := overall_rating p;
     department := department p;
     would_take_again_percent := would_take_again_percent p;
     difficulty := difficulty p;
     ratings := rs |}.

(** ** ratemyprof_api.py: the extraction engine *)

(** The loop
    [for key, value in relay_data.items():
       if key.startswith(p) and "__typename" in value and value["__typename"] == t:
         found = value; break]
    which the program writes three times (school, search connection, teacher):
    the first accepted value, or [None]. *)
Fixpoint find_typed (key_prefix typename : string) (items : jdict) : outcome pyval :=
  match items with
  | [] => Ok PNone
  | (key, value) :: rest =>
      if prefix key_prefix key then
        has_type <- py_contains "__typename" value ;;
        if has_type then
          t <- py_getitem value "__typename" ;;
          if py_eq_str t typename then Ok value
          else find_typed key_prefix typename rest
        else find_typed key_prefix typename rest
      else find_typed key_prefix typename rest
  end.

(** The text between the leftmost [opening] and the first [closing] after
    it: how a lazy [.*?] between two literals matches. *)
Definition find_between (opening closing s : string) : option string :=
  match find_sub opening s with
  | None => None
  | Some (_, rest) =>
      match find_sub closing rest with
      | None => None
      | Some (body, _) => Some body
      end
  end.

(** [_extract_relay_data]'s pattern,
    [re.search(r'window\.__RELAY_STORE__ = ({.*?});', html, re.DOTALL)]:
    group 1 of the leftmost match, the opening brace up to the first closing
    brace that a semicolon follows. *)
Definition relay_store_match (html_content : string) : option string :=
  match find_between "window.__RELAY_STORE__ = {" "};" html_content with
  | None => None
  | Some body => Some ("{" ++ body ++ "}")%string
  end.

(** [_extract_relay_data]: only [JSONDecodeError] is caught. *)
Definition _extract_relay_data (rt : runtime) (html_content : string) : outcome store :=
  match relay_store_match html_content with
  | Some payload =>
      match json_loads rt payload with
      | Ok relay_data => Ok relay_data
      | Raise JSONDecodeError => Ok []
      | Raise e => Raise e
      end
  | None => Ok []
  end.

(** The head of both edge loops: resolve edge reference -> edge -> node ->
    record and check the record's type tag.  [None] is [continue]. *)
Definition resolve_edge (typename : string) (relay_data : store) (edge_ref : pyval)
    : outcome (option pyval) :=
  edge <- store_get relay_data edge_ref PNone ;;
  if negb (truthy edge) then Ok None else
  has_node <- py_contains "node" edge ;;
  if negb has_node then Ok None else
  node <- py_getitem edge "node" ;;
  node_ref <- py_get node "__ref" PNone ;;
  if negb (truthy node_ref) then Ok None else
  data <- store_get relay_data node_ref PNone ;;
  if negb (truthy data) then Ok None else
  has_type <- py_contains "__typename" data ;;
  if negb has_type then Ok None else
  t <- py_getitem data "__typename" ;;
  if negb (py_eq_str t typename) then Ok None else Ok (Some data).

(** From a teacher record to a Professor: the school lookup (whose result is
    not used), the [legacyId] test, the constructor and the three detail
    fields.  [_process_professor_search_data] and [get_professor_by_id] both
    contain this text; [None] is where the one continues and the other
    returns [None]. *)
Definition professor_of_record (rt : runtime) (relay_data : store) (prof_data : pyval)
    : outcome (option Professor) :=
  school <- py_get prof_data "school" (PDict []) ;;
  school_ref <- py_get school "__ref" PNone ;;
  school_data <- store_get relay_data school_ref (PDict []) ;;
  prof_id <- py_get prof_data "legacyId" PNone ;;
  if negb (truthy prof_id) then Ok None else
  first_name <- py_get prof_data "firstName" (PStr "") ;;
  last_name <- py_get prof_data "lastName" (PStr "") ;;
  num_ratings <- py_get prof_data "numRatings" (PInt 0) ;;
  overall_rating <- py_get prof_data "avgRating" (PInt 0) ;;
  professor <- Professor_init rt prof_id first_name last_name num_ratings overall_rating ;;
  dep <- py_get prof_data "department" (PStr "") ;;
  wta <- py_get prof_data "wouldTakeAgainPercent" (PInt 0) ;;
  diff <- py_get prof_data "avgDifficulty" (PInt 0) ;;
  Ok (Some (set_details professor dep wta diff)).

(** The body of the search loop, over the remaining edge references, with
    the mapping built so far.  The new Professor is entered under [prof_id],
    the [legacyId] read from the record, as in
    [professors[prof_id] = professor]. *)
Fixpoint process_edges (rt : runtime) (relay_data : store) (edge_refs : list pyval)
    (professors : pydict Professor) : outcome (pydict Professor) :=
  match edge_refs with
  | [] => Ok professors
  | edge_ref :: rest =>
      resolved <- resolve_edge "Teacher" relay_data edge_ref ;;
      match resolved with
      | None => process_edges rt relay_data rest professors
      | Some prof_data =>
          made <- professor_of_record rt relay_data prof_data ;;
          match made with
          | None => process_edges rt relay_data rest professors
          | Some professor =>
              prof_id <- py_get prof_data "legacyId" PNone ;;
              professors' <- pydict_setitem prof_id professor professors ;;
              process_edges rt relay_data rest professors'
          end
      end
  end.

(** The edge references of a connection: [conn["edges"].get("__refs", [])],
    as the [for] loop visits them. *)
Definition edge_refs_of (connection : pyval) : outcome (list pyval) :=
  edges <- py_getitem connection "edges" ;;
  refs <- py_get edges "__refs" (PList []) ;;
  py_iter refs.

(** [_process_professor_search_data]. *)
Definition _process_professor_search_data (rt : runtime) (relay_data : store)
    : outcome (pydict Professor) :=
  search_results <-
    find_typed "client:root:newSearch:teachers" "TeacherSearchConnectionConnection" relay_data ;;
  if negb (truthy search_results) then Ok [] else
  has_edges <- py_contains "edges" search_results ;;
  if negb has_edges then Ok [] else
  edge_refs <- edge_refs_of search_results ;;
  process_edges rt relay_data edge_refs [].

(** The dict [_extract_ratings] builds from a rating record. *)
Definition rating_of_record (rating_data : pyval) : outcome rating :=
  id <- py_get rating_data "legacyId" PNone ;;
  class <- py_get rating_data "class" (PStr "") ;;
  comment <- py_get rating_data "comment" (PStr "") ;;
  date <- py_get rating_data "date" (PStr "") ;;
  helpful <- py_get rating_data "helpfulRating" (PInt 0) ;;
  clarity <- py_get rating_data "clarityRating" (PInt 0) ;;
  difficulty_rating <- py_get rating_data "difficultyRating" (PInt 0) ;;
  would_take_again <- py_get rating_data "wouldTakeAgain" (PInt 0) ;;
  grade <- py_get rating_data "grade" (PStr "") ;;
  tags <- py_get rating_data "ratingTags" (PStr "") ;;
  online <- py_get rating_data "isForOnlineClass" (PBool false) ;;
  Ok [("id", id); ("class", class); ("comment", comment); ("date", date);
      ("helpful_rating", helpful); ("clarity_rating", clarity);
      ("difficulty_rating", difficulty_rating); ("would_take_again", would_take_again);
      ("grade", grade); ("tags", tags); ("is_for_online_class", online)].

(** The body of the rating loop, over the remaining edge references, with the
    list built so far. *)
Fixpoint extract_rating_edges (relay_data : store) (edge_refs : list pyval)
    (ratings : list rating) : outcome (list rating) :=
  match edge_refs with
  | [] => Ok ratings
  | edge_ref :: rest =>
      resolved <- resolve_edge "Rating" relay_data edge_ref ;;
      match resolved with
      | None => extract_rating_edges relay_data rest ratings
      | Some rating_data =>
          r <- rating_of_record rating_data ;;
          extract_rating_edges relay_data rest (ratings ++ [r])
      end
  end.

(** [_extract_ratings]. *)
Definition _extract_ratings (relay_data : store) (prof_data : pyval) : outcome (list rating) :=
  connection_ref <- py_get prof_data "ratings(first:20)" (PDict []) ;;
  ratings_ref <- py_get connection_ref "__ref" PNone ;;
  if negb (truthy ratings_ref) then Ok [] else
  ratings_connection <- store_get relay_data ratings_ref PNone ;;
  if negb (truthy ratings_connection) then Ok [] else
  has_edges <- py_contains "edges" ratings_connection ;;
  if negb has_edges then Ok [] else
  edge_refs <- edge_refs_of ratings_connection ;;
  extract_rating_edges relay_data edge_refs [].

(** ** ratemyprof_api.py: the session

    [RateMyProfApi] holds the professor mapping.  The Professor objects the
    mapping refers to live in [objects], addressed by position; [requested]
    is the list of URLs fetched so far. *)

Record RateMyProfApi : Type := {
  school_id : string;
  professors : pydict nat;
  objects : list Professor;
  school_name : pyval;
  school_city : pyval;
  school_state : pyval;
  requested : list string
}.

Definition base_url : string := "https://www.ratemyprofessors.com".

(** [requests.get(url, headers=self.headers)]. *)
Definition fetch (net : network) (url : string) (self : RateMyProfApi)
    : response * RateMyProfApi :=
  (net (length (requested self)) url,
   {| school_id := school_id self;
      professors := professors self;
      objects := objects self;
      school_name := school_name self;
      school_city := school_city self;
      school_state := school_state self;
      requested := requested self ++ [url] |}).

Definition set_school (self : RateMyProfApi) (n c st : pyval) : RateMyProfApi :=
  {| school_id := school_id self;
     professors := professors self;
     objects := objects self;
     school_name := n;
     school_city := c;
     school_state := st;
     requested := requested self |}.

Definition set_professors (self : RateMyProfApi) (d : pydict nat) (h : list Professor)
    : RateMyProfApi :=
  {| school_id := school_id self;
     professors := d;
     objects := h;
     school_name := school_name self;
     school_city := school_city self;
     school_state := school_state self;
     requested := requested self |}.

(** [self.professors[k] = p] for a fresh object [p]: the object gets the next
    address. *)
Definition store_professor (self : RateMyProfApi) (k : pyval) (p : Professor)
    : outcome RateMyProfApi :=
  d <- pydict_setitem k (length (objects self)) (professors self) ;;
  Ok (set_professors self d (objects self ++ [p])).

(** [self.professors = d] for a dict [d] of fresh objects. *)
Definition assign_professors (self : RateMyProfApi) (d : pydict Professor) : RateMyProfApi :=
  set_professors self
    (combine (map fst d) (seq (length (objects self)) (length d)))
    (objects self ++ map snd d).

(** [_get_school_info]. *)
Definition _get_school_info (rt : runtime) (net : network) (self : RateMyProfApi)
    : outcome unit * RateMyProfApi :=
  let url := (base_url ++ "/school/" ++ school_id self)%string in
  let '(resp, self) := fetch net url self in
  if negb (status_code resp =? 200) then (Ok tt, self) else
  match _extract_relay_data rt (text resp) with
  | Raise e => (Raise e, self)
  | Ok relay_data =>
      match relay_data with
      | [] => (Ok tt, self)
      | _ =>
          match find_typed "U2Nob29s" "School" relay_data with
          | Raise e => (Raise e, self)
          | Ok PNone => (Ok tt, self)
          | Ok value =>
              match (n <- py_get value "name" (PStr "Unknown School") ;;
                     c <- py_get value "city" (PStr "Unknown City") ;;
                     st <- py_get value "state" (PStr "Unknown State") ;;
                     Ok (set_school self n c st)) with
              | Ok self' => (Ok tt, self')
              | Raise e => (Raise e, self)
              end
          end
      end
  end.

(** [scrape_professors]: one page; pagination is a TODO in the source, so
    [testing] changes nothing. *)
Definition scrape_professors (rt : runtime) (net : network) (testing : bool)
    (self : RateMyProfApi) : outcome (pydict Professor) * RateMyProfApi :=
  let url := (base_url ++ "/search/professors/?q=*&sid=" ++ school_id self)%string in
  let '(resp, self) := fetch net url self in
  if negb (status_code resp =? 200) then (Ok [], self) else
  match _extract_relay_data rt (text resp) with
  | Raise e => (Raise e, self)
  | Ok [] => (Ok [], self)
  | Ok relay_data =>
      (found <- _process_professor_search_data rt relay_data ;;
       Ok (pydict_update [] found), self)
  end.

(** [RateMyProfApi.__init__]. *)
Definition RateMyProfApi_init (rt : runtime) (net : network) (school_id : string)
    (testing : bool) : outcome unit * RateMyProfApi :=
  let self := {| school_id := school_id;
                 professors := [];
                 objects := [];
                 school_name := PNone;
                 school_city := PNone;
                 school_state := PNone;
                 requested := [] |} in
  match _get_school_info rt net self with
  | (Raise e, self) => (Raise e, self)
  | (Ok _, self) =>
      if orb (negb testing) (match professors self with [] => true | _ => false end) then
        match scrape_professors rt net testing self with
        | (Raise e, self) => (Raise e, self)
        | (Ok d, self) => (Ok tt, assign_professors self d)
        end
      else (Ok tt, self)
  end.

(** Insertion sort by [name]: [prof_list.sort(key=lambda p: p.name)], a
    stable sort under the code-point order of text. *)
Fixpoint insert_by_name (p : Professor) (l : list Professor) : list Professor :=
  match l with
  | [] => [p]
  | q :: l' =>
      if String.leb (name p) (name q) then p :: q :: l'
      else q :: insert_by_name p l'
  end.

Definition sort_by_name (l : list Professor) : list Professor :=
  fold_right insert_by_name [] l.

(** The URL [search_professor] requests. *)
Definition search_url (query : string) : string :=
  (base_url ++ "/search/professors/?q=" ++ replace_char " " "%20" query)%string.

(** [search_professor]. *)
Definition search_professor (rt : runtime) (net : network) (query : string)
    (self : RateMyProfApi) : outcome (list Professor) * RateMyProfApi :=
  let url := search_url query in
  let '(resp, self) := fetch net url self in
  if negb (status_code resp =? 200) then (Ok [], self) else
  match _extract_relay_data rt (text resp) with
  | Raise e => (Raise e, self)
  | Ok [] => (Ok [], self)
  | Ok relay_data =>
      (found <- _process_professor_search_data rt relay_data ;;
       Ok (sort_by_name (pydict_values found)), self)
  end.

(** The second half of [get_professor_by_id], from the store of the detail
    page on: find the teacher record, build the Professor with its ratings,
    and enter it into the mapping under [prof_id], the [legacyId] read from
    the record, as in [self.professors[prof_id] = professor].  The result is
    the new object's address with the session, or [None]. *)
Definition professor_from_detail (rt : runtime) (relay_data : store) (self : RateMyProfApi)
    : outcome (option (nat * RateMyProfApi)) :=
  prof_data <- find_typed "VGVhY2hlci0" "Teacher" relay_data ;;
  if negb (truthy prof_data) then Ok None else
  made <- professor_of_record rt relay_data prof_data ;;
  match made with
  | None => Ok None
  | Some professor =>
      rs <- _extract_ratings relay_data prof_data ;;
      let professor := set_ratings professor rs in
      prof_id <- py_get prof_data "legacyId" PNone ;;
      self' <- store_professor self prof_id professor ;;
      Ok (Some (length (objects self), self'))
  end.

(** [get_professor_by_id].  The result is the address of the Professor
    object, or [None]. *)
Definition get_professor_by_id (rt : runtime) (net : network) (professor_id : pyval)
    (self : RateMyProfApi) : outcome (option nat) * RateMyProfApi :=
  if negb (is_hashable professor_id) then (Raise TypeError, self) else
  match pydict_lookup professor_id (professors self) with
  | Some address => (Ok (Some address), self)
  | None =>
      let url := (base_url ++ "/professor/" ++ py_str rt professor_id)%string in
      let '(resp, self) := fetch net url self in
      if negb (status_code resp =? 200) then (Ok None, self) else
      match _extract_relay_data rt (text resp) with
      | Raise e => (Raise e, self)
      | Ok [] => (Ok None, self)
      | Ok relay_data =>
          match professor_from_detail rt relay_data self with
          | Raise e => (Raise e, self)
          | Ok None => (Ok None, self)
          | Ok (Some (address, self')) => (Ok (Some address), self')
          end
      end
  end.

(** The candidate [get_professor_by_name] settles on, as the loop finds it:
    the first professor whose lowered first and last names are the two
    tokens.  [first_name.lower()] raises on a name that is not text; the
    last name is looked at only when the first name matched. *)
Fixpoint find_exact_match (rt : runtime) (first last : string) (profs : list Professor)
    : outcome (option Professor) :=
  match profs with
  | [] => Ok None
  | prof :: rest =>
      match first_name prof with
      | PStr f =>
          if (str_lower rt f =? first)%string then
            match last_name prof with
            | PStr l =>
                if (str_lower rt l =? last)%string then Ok (Some prof)
                else find_exact_match rt first last rest
            | _ => Raise AttributeError
            end
          else find_exact_match rt first last rest
      | _ => Raise AttributeError
      end
  end.

(** [get_professor_by_name]. *)
Definition get_professor_by_name (rt : runtime) (net : network) (query_name : string)
    (self : RateMyProfApi) : outcome (option nat) * RateMyProfApi :=
  match search_professor rt net query_name self with
  | (Raise e, self) => (Raise e, self)
  | (Ok [], self) => (Ok None, self)
  | (Ok (p0 :: ps), self) =>
      let name_parts := str_split rt (str_lower rt query_name) in
      let by_first_result := get_professor_by_id rt net (ratemyprof_id p0) self in
      if (2 <=? length name_parts)%nat then
        match find_exact_match rt (hd "" name_parts) (last name_parts "") (p0 :: ps) with
        | Raise e => (Raise e, self)
        | Ok (Some prof) => get_professor_by_id rt net (ratemyprof_id prof) self
        | Ok None => by_first_result
        end
      else by_first_result
  end.

(** [d[k] = v] on a JSON dict. *)
Fixpoint jdict_set (k : string) (v : pyval) (d : jdict) : jdict :=
  match d with
  | [] => [(k, v)]
  | (k', v') :: d' =>
      if (k' =? k)%string then (k', v) :: d' else (k', v') :: jdict_set k v d'
  end.

Definition LF : ascii := "010"%char.
Definition CR : ascii := "013"%char.

(** The clean-up [write_ratings_to_csv] applies to a rating before writing
    it: [if "comment" in rating and rating["comment"]:
           rating["comment"] = rating["comment"].replace("\n", " ").replace("\r", " ")]. *)
Definition clean_comment (r : rating) : outcome rating :=
  match jdict_lookup "comment" r with
  | None => Ok r
  | Some c =>
      if truthy c then
        match c with
        | PStr s => Ok (jdict_set "comment" (PStr (replace_char CR " " (replace_char LF " " s))) r)
        | _ => Raise AttributeError
        end
      else Ok r
  end.

(** The columns of a ratings file, as [write_ratings_to_csv] lists them. *)
Definition ratings_csv_columns : list string :=
  ["id"; "class"; "comment"; "date"; "helpful_rating"; "clarity_rating";
   "difficulty_rating"; "would_take_again"; "grade"; "tags"; "is_for_online_class"].

(** What [csv.DictWriter.writerow] checks of a row before it writes it: with
    [extrasaction] left at ["raise"], a key that is not among [fieldnames]
    raises [ValueError]; a column the row lacks is left empty. *)
Definition writerow_check (fieldnames : list string) (row : jdict) : outcome unit :=
  if forallb (fun k => existsb (String.eqb k) fieldnames) (map fst row) then Ok tt
  else Raise ValueError.

(** The loop over [professor.ratings]: the rows [writer.writerow] wrote, the
    ratings as the loop leaves them in the object, and how the loop ended.
    The comment is replaced in the rating before the row is handed to the
    writer. *)
Fixpoint write_rating_rows (rs : list rating) : list rating * list rating * outcome unit :=
  match rs with
  | [] => ([], [], Ok tt)
  | r :: rest =>
      match clean_comment r with
      | Raise e => ([], r :: rest, Raise e)
      | Ok r' =>
          match writerow_check ratings_csv_columns r' with
          | Raise e => ([], r' :: rest, Raise e)
          | Ok _ =>
              let '(rows, kept, res) := write_rating_rows rest in
              (r' :: rows, r' :: kept, res)
          end
      end
  end.

(** [objects[address] = p]: the object at an address, mutated. *)
Fixpoint heap_update (h : list Professor) (address : nat) (p : Professor) : list Professor :=
  match h, address with
  | [], _ => []
  | _ :: h', O => p :: h'
  | q :: h', S n => q :: heap_update h' n p
  end.

(** [write_ratings_to_csv]: the rows written to the file, besides the result
    and the session.  The rows are the ratings as handed to the
    [csv.DictWriter], which writes their values under the eleven columns. *)
Definition write_ratings_to_csv (rt : runtime) (net : network) (professor_id : pyval)
    (self : RateMyProfApi) : list rating * outcome unit * RateMyProfApi :=
  match get_professor_by_id rt net professor_id self with
  | (Raise e, self) => ([], Raise e, self)
  | (Ok None, self) => ([], Ok tt, self)
  | (Ok (Some address), self) =>
      match nth_error (objects self) address with
      | None => ([], Ok tt, self)
      | Some professor =>
          match ratings professor with
          | [] => ([], Ok tt, self)
          | rs =>
              let '(rows, kept, res) := write_rating_rows rs in
              (rows, res,
               set_professors self (professors self)
                 (heap_update (objects self) address (set_ratings professor kept)))
          end
      end
  end.

(** ** Notions the properties are stated with *)

(** The edge references the search loop visits: those of the search
    connection, none when the store has no search connection or the
    connection has no edges. *)
Definition search_edge_refs (relay_data : store) : outcome (list pyval) :=
  search_results <-
    find_typed "client:root:newSearch:teachers" "TeacherSearchConnectionConnection" relay_data ;;
  if negb (truthy search_results) then Ok [] else
  has_edges <- py_contains "edges" search_results ;;
  if negb has_edges then Ok [] else
  edge_refs_of search_results.

(** The edge references the rating loop visits: those of the connection the
    teacher record's [ratings(first:20)] field refers to, none when a link on
    the way is missing. *)
Definition ratings_edge_refs (relay_data : store) (prof_data : pyval) : outcome (list pyval) :=
  connection_ref <- py_get prof_data "ratings(first:20)" (PDict []) ;;
  ratings_ref <- py_get connection_ref "__ref" PNone ;;
  if negb (truthy ratings_ref) then Ok [] else
  ratings_connection <- store_get relay_data ratings_ref PNone ;;
  if negb (truthy ratings_connection) then Ok [] else
  has_edges <- py_contains "edges" ratings_connection ;;
  if negb has_edges then Ok [] else
  edge_refs_of ratings_connection.

(** What one edge reference contributes to the ratings: the rating of the
    record it resolves to, or nothing. *)
Definition rating_of_edge (relay_data : store) (edge_ref : pyval) : list rating :=
  match resolve_edge "Rating" relay_data edge_ref with
  | Ok (Some rating_data) =>
      match rating_of_record rating_data with
      | Ok r => [r]
      | Raise _ => []
      end
  | _ => []
  end.

(** A key of the professor mapping stands for an id when it is that very
    value or equal to it as a dict key. *)
Definition key_matches (k id : pyval) : Prop := k = id \/ py_key_eq k id = true.

(** The invariant of a professor mapping held by value. *)
Definition keyed_by_own_id (d : pydict Professor) : Prop :=
  forall k p, In (k, p) d -> key_matches k (ratemyprof_id p).

(** The invariant of a session's professor mapping: every key refers to an
    object whose [ratemyprof_id] the key stands for. *)
Definition mapping_ok (self : RateMyProfApi) : Prop :=
  forall k address, In (k, address) (professors self) ->
    exists p, nth_error (objects self) address = Some p
              /\ key_matches k (ratemyprof_id p).

(** No key of the mapping is equal to a later one. *)
Fixpoint distinct_keys {V : Type} (d : pydict V) : Prop :=
  match d with
  | [] => True
  | (k, _) :: d' => (forall k' v', In (k', v') d' -> py_key_eq k k' = false) /\ distinct_keys d'
  end.

(** *** Well-linked stores

    What a store has to satisfy for the extraction not to raise: the program
    guards against links that are missing, not against values of the wrong
    kind. *)

Definition field_ok (check : pyval -> bool) (k : string) (d : jdict) : bool :=
  match jdict_lookup k d with
  | Some v => check v
  | None => true
  end.

(** A link: a mapping whose [__ref], when present, is hashable. *)
Definition link_ok (v : pyval) : bool :=
  match v with
  | PDict l => field_ok is_hashable "__ref" l
  | _ => false
  end.

(** The items of a reference list, as a loop visits them, are hashable. *)
Definition refs_ok (v : pyval) : bool :=
  match v with
  | PList rs => forallb is_hashable rs
  | PStr _ | PDict _ => true
  | _ => false
  end.

(** An edge list: a mapping whose [__refs], when present, is a reference
    list. *)
Definition edges_ok (v : pyval) : bool :=
  match v with
  | PDict l => field_ok refs_ok "__refs" l
  | _ => false
  end.

Definition is_number (v : pyval) : bool :=
  match num_of v with
  | Some _ => true
  | None => false
  end.

(** A rating value the constructor accepts: falsy, or one [float] accepts. *)
Definition rating_value_ok (rt : runtime) (v : pyval) : bool :=
  negb (truthy v) || negb (raises (py_float rt v)).

Definition tagged (typename : string) (d : jdict) : bool :=
  match jdict_lookup "__typename" d with
  | Some t => py_eq_str t typename
  | None => false
  end.

(** The fields the constructor and the mapping depend on, in a record tagged
    as a teacher. *)
Definition teacher_fields_ok (rt : runtime) (d : jdict) : bool :=
  is_hashable (jdict_get d "legacyId" PNone)
  && is_number (jdict_get d "numRatings" (PInt 0))
  && rating_value_ok rt (jdict_get d "avgRating" (PInt 0)).

(** A record: a mapping whose link fields ([node], [school],
    [ratings(first:20)]) are links and whose [edges] is an edge list, when
    present; with sound teacher fields when it is tagged as a teacher. *)
Definition record_ok (rt : runtime) (v : pyval) : bool :=
  match v with
  | PDict d =>
      field_ok link_ok "node" d
      && field_ok link_ok "school" d
      && field_ok link_ok "ratings(first:20)" d
      && field_ok edges_ok "edges" d
      && (if tagged "Teacher" d then teacher_fields_ok rt d else true)
  | _ => false
  end.

Definition store_ok (rt : runtime) (relay_data : store) : bool :=
  forallb (fun kv => record_ok rt (snd kv)) relay_data.

(** *** The specification's words for two operations *)

(** Newline normalisation as the specification words it: every carriage
    return and every line feed becomes one space. *)
Fixpoint normalize_newlines (s : string) : string :=
  match s with
  | EmptyString => EmptyString
  | String c s' =>
      String (if orb (Ascii.eqb c CR) (Ascii.eqb c LF) then " "%char else c)
             (normalize_newlines s')
  end.

(** A row as the specification wants it written: the rating with its comment
    text normalised. *)
Definition normalized_row (r : rating) : rating :=
  match jdict_lookup "comment" r with
  | Some (PStr s) => jdict_set "comment" (PStr (normalize_newlines s)) r
  | _ => r
  end.

(** A rating the loop can write: its comment is absent, falsy or text, and
    it has no key outside the columns of the file. *)
Definition comment_cleanable (r : rating) : bool :=
  match jdict_lookup "comment" r with
  | Some (PStr _) => true
  | Some c => negb (truthy c)
  | None => true
  end.

Definition columns_ok (r : rating) : bool :=
  forallb (fun k => existsb (String.eqb k) ratings_csv_columns) (map fst r).

Definition writable (r : rating) : bool := comment_cleanable r && columns_ok r.

(** The items of a list before the first that does not satisfy [f]. *)
Fixpoint take_while {A : Type} (f : A -> bool) (l : list A) : list A :=
  match l with
  | [] => []
  | x :: l' => if f x then x :: take_while f l' else []
  end.

(** A name is a token of the query, ignoring case: the name is text whose
    lowercase form is the token.  The tokens are those of the query in
    lowercase. *)
Definition name_is (rt : runtime) (v : pyval) (token : string) : bool :=
  match v with
  | PStr s => (str_lower rt s =? token)%string
  | _ => false
  end.

Definition exact_match (rt : runtime) (first last : string) (p : Professor) : bool :=
  name_is rt (first_name p) first && name_is rt (last_name p) last.

(** The candidate as the specification words the policy: with two tokens or
    more, the first result whose first name is the first token and whose last
    name is the last token, ignoring case; otherwise, and when there is no
    such result, the first result. *)
Definition choose_candidate (rt : runtime) (query_name : string) (results : list Professor)
    : option Professor :=
  let tokens := str_split rt (str_lower rt query_name) in
  let exact :=
    if (2 <=? length tokens)%nat then
      find (exact_match rt (hd "" tokens) (last tokens "")) results
    else None in
  match exact with
  | Some p => Some p
  | None => hd_error results
  end.




(** Ascending order of professors by name. *)
Definition name_le (p q : Professor) : Prop := String.leb (name p) (name q) = true.

(** ** Worked inputs

    Small stores and sessions on which the definitions above are evaluated
    further down.  None of them holds a float given as text or formats a
    float, a list or a dict, so [float_of_str] and [str_of_other] of
    [example_runtime] are never consulted; all their text is ASCII, on which
    [str_lower] and [str_split] are [ascii_lower] and [ascii_split]. *)

Definition ref_to (key : string) : pyval := PDict [("__ref", PStr key)].

Definition edge_to (key : string) : pyval := PDict [("node", ref_to key)].

Definition connection (typename : string) (edge_keys : list string) : pyval :=
  PDict [("__typename", PStr typename);
         ("edges", PDict [("__refs", PList (map PStr edge_keys))])].

Definition teacher (legacy_id : pyval) (first last : string) (num_ratings : Z) : pyval :=
  PDict [("__typename", PStr "Teacher");
         ("legacyId", legacy_id);
         ("firstName", PStr first);
         ("lastName", PStr last);
         ("numRatings", PInt num_ratings);
         ("avgRating", PInt 4);
         ("department", PStr "Physics");
         ("school", ref_to "U2Nob29sLTQ0MA==")].

Definition search_key : string := "client:root:newSearch:teachers(query)".

Definition search_connection (edge_keys : list string) : pyval :=
  connection "TeacherSearchConnectionConnection" edge_keys.

(** A search page with two professors, "Amy Zed" listed before "Amy Adams". *)
Definition amy_store : store :=
  [(search_key, search_connection ["e1"; "e2"]);
   ("e1", edge_to "t1");
   ("e2", edge_to "t2");
   ("t1", teacher (PInt 11) "Amy" "Zed" 3);
   ("t2", teacher (PInt 12) "Amy" "Adams" 5)].

(** A search page with "Jon Smith", "John Smith" and "Al Smith". *)
Definition smith_store : store :=
  [(search_key, search_connection ["e1"; "e2"; "e3"]);
   ("e1", edge_to "t1");
   ("e2", edge_to "t2");
   ("e3", edge_to "t3");
   ("t1", teacher (PInt 21) "Jon" "Smith" 3);
   ("t2", teacher (PInt 22) "John" "Smith" 5);
   ("t3", teacher (PInt 23) "Al" "Smith" 0)].

(** A search page whose only teacher record carries null as first name. *)
Definition null_name_store : store :=
  [(search_key, search_connection ["e1"]);
   ("e1", edge_to "t1");
   ("t1", PDict [("__typename", PStr "Teacher");
                 ("legacyId", PInt 41);
                 ("firstName", PNone);
                 ("lastName", PStr "Smith")])].

(** Search pages that break one condition of a well-linked store each: an
    entry that is no mapping, edges that are a list, references that are a
    number, a reference that is a list, a node reference that is a list, and
    teacher records with a count that is text, a rating that is a list, and
    an id that is a list. *)
Definition broken_stores : list store :=
  [ [(search_key, PInt 1)];
    [(search_key, PDict [("__typename", PStr "TeacherSearchConnectionConnection");
                         ("edges", PList [PStr "e1"])])];
    [(search_key, PDict [("__typename", PStr "TeacherSearchConnectionConnection");
                         ("edges", PDict [("__refs", PInt 3)])])];
    [(search_key, PDict [("__typename", PStr "TeacherSearchConnectionConnection");
                         ("edges", PDict [("__refs", PList [PList [PStr "e1"]])])])];
    [(search_key, search_connection ["e1"]);
     ("e1", PDict [("node", PDict [("__ref", PList [PStr "t1"])])])];
    [(search_key, search_connection ["e1"]);
     ("e1", edge_to "t1");
     ("t1", PDict [("__typename", PStr "Teacher"); ("legacyId", PInt 1);
                   ("numRatings", PStr "many")])];
    [(search_key, search_connection ["e1"]);
     ("e1", edge_to "t1");
     ("t1", PDict [("__typename", PStr "Teacher"); ("legacyId", PInt 1);
                   ("numRatings", PInt 2); ("avgRating", PList [PInt 4])])];
    [(search_key, search_connection ["e1"]);
     ("e1", edge_to "t1");
     ("t1", PDict [("__typename", PStr "Teacher"); ("legacyId", PList [PInt 1])])] ].

(** A search page with missing links: an edge reference without an entry, an
    edge without a node, a node that refers to nothing, a node that refers to
    a school, a teacher record without [legacyId], and one sound professor
    without a school. *)
Definition sparse_store : store :=
  [(search_key, search_connection ["gone"; "e1"; "e2"; "e3"; "e4"; "e5"]);
   ("e1", PDict [("cursor", PStr "a")]);
   ("e2", edge_to "nowhere");
   ("e3", edge_to "U2Nob29sLTQ0MA==");
   ("e4", edge_to "t4");
   ("e5", edge_to "t5");
   ("U2Nob29sLTQ0MA==", PDict [("__typename", PStr "School"); ("name", PStr "Indiana University")]);
   ("t4", PDict [("__typename", PStr "Teacher"); ("firstName", PStr "No"); ("lastName", PStr "Id")]);
   ("t5", PDict [("__typename", PStr "Teacher"); ("legacyId", PInt 55); ("firstName", PStr "Eve")])].

(** A search page whose only teacher record carries [legacyId] 0. *)
Definition zero_id_store : store :=
  [(search_key, search_connection ["e1"]);
   ("e1", edge_to "t1");
   ("t1", teacher (PInt 0) "Ann" "Lee" 3)].



Definition rating_record (legacy_id : Z) (comment : string) : pyval :=
  PDict [("__typename", PStr "Rating");
         ("legacyId", PInt legacy_id);
         ("class", PStr "P221");
         ("comment", PStr comment)].

Definition decimal (n : nat) : string := NilZero.string_of_uint (Nat.to_uint n).

(** The edges and rating records numbered 1 to [n]. *)
Definition rating_entries (n : nat) : store :=
  flat_map (fun i => [(("e" ++ decimal i)%string, edge_to ("r" ++ decimal i));
                      (("r" ++ decimal i)%string, rating_record (Z.of_nat i) "ok")])
           (seq 1 n).

(** A teacher record with a ratings connection. *)
Definition rated_teacher (legacy_id : Z) : pyval :=
  PDict [("__typename", PStr "Teacher");
         ("legacyId", PInt legacy_id);
         ("firstName", PStr "Ann");
         ("lastName", PStr "Lee");
         ("numRatings", PInt 21);
         ("avgRating", PInt 4);
         ("ratings(first:20)", ref_to "conn")].

(** A detail page for the teacher with [legacyId] 9 whose ratings connection
    holds [n] edges. *)
Definition detail_store (n : nat) : store :=
  ("VGVhY2hlci05", rated_teacher 9)
  :: ("conn", connection "RatingConnection" (map (fun i => ("e" ++ decimal i)%string) (seq 1 n)))
  :: rating_entries n.


(** A text between double quotes. *)
Definition quoted (s : string) : string := String "034" (s ++ String "034" "").

(** Page bodies, and what [json.loads] makes of their payloads. *)
Definition page (payload_name : string) : string :=
  ("<script>window.__RELAY_STORE__ = {" ++ payload_name ++ "};</script>")%string.

Definition example_loads (payload : string) : outcome store :=
  if (payload =? "{amy}")%string then Ok amy_store
  else if (payload =? "{smith}")%string then Ok smith_store
  else if (payload =? "{detail}")%string then Ok (detail_store 2)
  else if (payload =? "{null name}")%string then Ok null_name_store
  else Raise JSONDecodeError.

Definition example_runtime : runtime :=
  {| json_loads := example_loads;
     float_of_str := fun _ => None;
     str_of_other := fun _ => "";
     str_lower := ascii_lower;
     str_split := ascii_split |}.

(** A network that answers every search with the Smith page and every
    professor page with the detail page of teacher 9. *)
Definition example_network : network :=
  fun _ url =>
    if prefix (base_url ++ "/search/") url then {| status_code := 200; text := page "smith" |}
    else if prefix (base_url ++ "/professor/") url then {| status_code := 200; text := page "detail" |}
    else {| status_code := 404; text := "" |}.

(** A network that answers every search with the page of the professor
    without a first name. *)
Definition null_name_network : network :=
  fun _ url =>
    if prefix (base_url ++ "/search/") url then {| status_code := 200; text := page "null name" |}
    else {| status_code := 404; text := "" |}.

(** A network that answers every search with the Amy page. *)
Definition amy_network : network :=
  fun _ url =>
    if prefix (base_url ++ "/search/") url then {| status_code := 200; text := page "amy" |}
    else {| status_code := 404; text := "" |}.


Definition new_session : RateMyProfApi :=
  {| school_id := "440";
     professors := [];
     objects := [];
     school_name := PNone;
     school_city := PNone;
     school_state := PNone;
     requested := [] |}.

(** A session that holds one professor with two ratings, the first with a
    line break in its comment. *)
Definition great_class : string :=
  ("Great class" ++ String CR (String LF "would take again"))%string.

Definition session_with_comments : RateMyProfApi :=
  {| school_id := "440";
     professors := [(PInt 9, 0%nat)];
     objects :=
       [{| ratemyprof_id := PInt 9;
           name := "Ann Lee";
           first_name := PStr "Ann";
           last_name := PStr "Lee";
           num_of_ratings := PInt 2;
           overall_rating := PInt 0;
           department := PStr "";
           would_take_again_percent := PInt 0;
           difficulty := PInt 0;
           ratings := [[("id", PInt 1); ("comment", PStr great_class)];
                       [("id", PInt 2); ("comment", PStr "fine")]] |}];
     school_name := PNone;
     school_city := PNone;
     school_state := PNone;
     requested := [] |}.

(** The session after teacher 9 was looked up once. *)
Definition session_with_9 : RateMyProfApi :=
  snd (get_professor_by_id example_runtime example_network (PInt 9) new_session).



(** What the extraction finds on the Amy page. *)
Definition amy_result : pydict Professor :=
  match _process_professor_search_data example_runtime amy_store with
  | Ok d => d
  | Raise _ => []
  end.

(** ** ratemyprof_api.py: the professors file *)

(** The columns of the professors file, as [write_professors_to_csv] lists
    them. *)
Definition professors_csv_columns : list string :=
  ["ratemyprof_id"; "first_name"; "last_name"; "name"; "department";
   "num_of_ratings"; "overall_rating"; "would_take_again_percent"; "difficulty"].

(** The row [write_professors_to_csv] builds for a professor. *)
Definition professor_row (p : Professor) : jdict :=
  [("ratemyprof_id", ratemyprof_id p);
   ("first_name", first_name p);
   ("last_name", last_name p);
   ("name", PStr (name p));
   ("department", department p);
   ("num_of_ratings", num_of_ratings p);
   ("overall_rating", overall_rating p);
   ("would_take_again_percent", would_take_again_percent p);
   ("difficulty", difficulty p)].

(** [write_professors_to_csv]: the rows handed to the csv writer, one for
    each value of the mapping, in its order. *)
Definition write_professors_to_csv (self : RateMyProfApi) : list jdict :=
  flat_map (fun entry =>
              match nth_error (objects self) (snd entry) with
              | Some professor => [professor_row professor]
              | None => []
              end)
           (professors self).

(** [sep.join(pieces)]: the pieces with [sep] between them. *)
Fixpoint join (sep : string) (pieces : list string) : string :=
  match pieces with
  | [] => ""
  | piece :: rest =>
      match rest with
      | [] => piece
      | _ => piece ++ sep ++ join sep rest
      end
  end.

(** A text without a space. *)
Definition no_space (s : string) : Prop :=
  forall c, In c (list_ascii_of_string s) -> c <> " "%char.

(** The URLs [_get_school_info] and [scrape_professors] request. *)
Definition school_url (sid : string) : string := (base_url ++ "/school/" ++ sid)%string.

Definition scrape_url (sid : string) : string :=
  (base_url ++ "/search/professors/?q=*&sid=" ++ sid)%string.

(** The URL [get_professor_by_id] requests. *)
Definition professor_url (rt : runtime) (professor_id : pyval) : string :=
  (base_url ++ "/professor/" ++ py_str rt professor_id)%string.

(** A rating carries the columns of the ratings file, each once and in the
    file's order. *)
Definition has_ratings_columns (r : rating) : Prop := map fst r = ratings_csv_columns.

(** Every rating held by an object of the session does. *)
Definition ratings_shaped (self : RateMyProfApi) : Prop :=
  forall p r, In p (objects self) -> In r (ratings p) -> has_ratings_columns r.

(** An entry the loop of [find_typed] accepts: the key starts with the
    prefix and the value is a mapping with that type tag. *)
Definition accepts (key_prefix typename : string) (entry : string * pyval) : bool :=
  prefix key_prefix (fst entry)
  && match snd entry with
     | PDict d => tagged typename d
     | _ => false
     end.

(** A session that holds one professor with three ratings, the second with a
    number as its comment. *)
Definition session_with_bad_comment : RateMyProfApi :=
  {| school_id := "440";
     professors := [(PInt 9, 0%nat)];
     objects :=
       [{| ratemyprof_id := PInt 9;
           name := "Ann Lee";
           first_name := PStr "Ann";
           last_name := PStr "Lee";
           num_of_ratings := PInt 3;
           overall_rating := PInt 0;
           department := PStr "";
           would_take_again_percent := PInt 0;
           difficulty := PInt 0;
           ratings := [[("id", PInt 1); ("comment", PStr great_class)];
                       [("id", PInt 2); ("comment", PInt 5)];
                       [("id", PInt 3); ("comment", PStr great_class)]] |}];
     school_name := PNone;
     school_city := PNone;
     school_state := PNone;
     requested := [] |}.

(** A session that holds one professor with three ratings, the second with a
    key that is no column of the file. *)
Definition session_with_extra_key : RateMyProfApi :=
  {| school_id := "440";
     professors := [(PInt 9, 0%nat)];
     objects :=
       [{| ratemyprof_id := PInt 9;
           name := "Ann Lee";
           first_name := PStr "Ann";
           last_name := PStr "Lee";
           num_of_ratings := PInt 3;
           overall_rating := PInt 0;
           department := PStr "";
           would_take_again_percent := PInt 0;
           difficulty := PInt 0;
           ratings := [[("id", PInt 1); ("comment", PStr great_class)];
                       [("id", PInt 2); ("comment", PStr great_class); ("professor", PInt 9)];
                       [("id", PInt 3); ("comment", PStr great_class)]] |}];
     school_name := PNone;
     school_city := PNone;
     school_state := PNone;
     requested := [] |}.

(** A search page on which two teacher records carry the same id. *)
Definition duplicate_id_store : store :=
  [(search_key, search_connection ["e1"; "e2"; "e3"]);
   ("e1", edge_to "t1");
   ("e2", edge_to "t2");
   ("e3", edge_to "t3");
   ("t1", teacher (PInt 5) "Old" "Entry" 3);
   ("t2", teacher (PInt 6) "Other" "Person" 3);
   ("t3", teacher (PFloat (S754_finite false 5 0)) "New" "Entry" 3)].

(** What the extraction finds on that page. *)
Definition duplicate_result : pydict Professor :=
  match _process_professor_search_data example_runtime duplicate_id_store with
  | Ok d => d
  | Raise _ => []
  end.

(** * Properties *)

(** ** Outcomes *)

Lemma bind_Ok {A B : Type} (m : outcome A) (k : A -> outcome B) (b : B) :
  bind m k = Ok b -> exists a, m = Ok a /\ k a = Ok b.
Proof.
  destruct m as [a | e]; simpl; intros H.
  - exists a. split; [reflexivity | exact H].
  - discriminate H.
Qed.


(** ** The record model *)

Section RecordModel.

Variable rt : runtime.

(** A count that is at least 1 is not below 1. *)
Lemma py_ge_int_not_lt (v : pyval) (z : Z) :
  py_ge_int v z = Ok true -> py_lt_int v z = Ok false.
Proof.
  unfold py_ge_int, py_lt_int.
  destruct (num_of v) as [n |]; [| discriminate].
  destruct (num_compare n (NFin z 0)) as [[ | | ] |]; intros H;
    try discriminate H; reflexivity.
Qed.

Lemma Professor_init_no_ratings (id fn ln n r : pyval) :
  py_lt_int n 1 = Ok true ->
  exists p, Professor_init rt id fn ln n r = Ok p /\ overall_rating p = PInt 0
            /\ ratemyprof_id p = id.
Proof.
  intros Hlt. unfold Professor_init. rewrite Hlt. simpl.
  eexists. split; [reflexivity |]. split; reflexivity.
Qed.

Lemma Professor_init_rated (id fn ln n r : pyval) :
  py_lt_int n 1 = Ok false ->
  Professor_init rt id fn ln n r =
    if truthy r
    then (f <- py_float rt r ;;
          Ok {| ratemyprof_id := id;
                name := (py_str rt fn ++ " " ++ py_str rt ln)%string;
                first_name := fn; last_name := ln; num_of_ratings := n;
                overall_rating := PFloat f;
                department := PStr ""; would_take_again_percent := PInt 0;
                difficulty := PInt 0; ratings := [] |})
    else Ok {| ratemyprof_id := id;
               name := (py_str rt fn ++ " " ++ py_str rt ln)%string;
               first_name := fn; last_name := ln; num_of_ratings := n;
               overall_rating := PInt 0;
               department := PStr ""; would_take_again_percent := PInt 0;
               difficulty := PInt 0; ratings := [] |}.
Proof.
  intros Hlt. unfold Professor_init. rewrite Hlt. simpl.
  destruct (truthy r); [| reflexivity].
  destruct (py_float rt r); reflexivity.
Qed.

(** The constructor keeps the id it is given and fills the later fields with
    their empty values. *)
Lemma Professor_init_fields (id fn ln n r : pyval) (p : Professor) :
  Professor_init rt id fn ln n r = Ok p ->
  ratemyprof_id p = id /\ first_name p = fn /\ last_name p = ln
  /\ num_of_ratings p = n
  /\ name p = (py_str rt fn ++ " " ++ py_str rt ln)%string
  /\ department p = PStr "" /\ would_take_again_percent p = PInt 0
  /\ difficulty p = PInt 0 /\ ratings p = [].
Proof.
  unfold Professor_init. intros H.
  apply bind_Ok in H. destruct H as [lt [_ H]].
  apply bind_Ok in H. destruct H as [rv [_ H]].
  injection H as <-. simpl. repeat split; reflexivity.
Qed.

(** C2.  With fewer than one rating the constructed Professor has overall
    rating 0 whatever rating value is passed; with at least one rating the
    passed value is coerced with [float], and a falsy one (0, [None], empty
    text) gives 0.  When [float] raises, so does the constructor. *)
Theorem Professor_init_overall_rating (id fn ln n r : pyval) :
  (py_lt_int n 1 = Ok true ->
     exists p, Professor_init rt id fn ln n r = Ok p /\ overall_rating p = PInt 0)
  /\ (py_ge_int n 1 = Ok true ->
        (truthy r = false ->
           exists p, Professor_init rt id fn ln n r = Ok p /\ overall_rating p = PInt 0)
        /\ (truthy r = true ->
              (forall f, py_float rt r = Ok f ->
                 exists p, Professor_init rt id fn ln n r = Ok p
                           /\ overall_rating p = PFloat f)
              /\ (forall e, py_float rt r = Raise e ->
                    Professor_init rt id fn ln n r = Raise e))).
Proof.
  split.
  - intros Hlt. destruct (Professor_init_no_ratings id fn ln n r Hlt) as [p [Hp [Hr _]]].
    exists p. split; assumption.
  - intros Hge. apply py_ge_int_not_lt in Hge.
    pose proof (Professor_init_rated id fn ln n r Hge) as Hinit.
    split.
    + intros Hr. rewrite Hr in Hinit. eexists. split; [exact Hinit | reflexivity].
    + intros Hr. rewrite Hr in Hinit. split.
      * intros f Hf. rewrite Hf in Hinit. simpl in Hinit.
        eexists. split; [exact Hinit | reflexivity].
      * intros e He. rewrite He in Hinit. exact Hinit.
Qed.

End RecordModel.

(** The constructor on the inputs the specification names: a negative rating
    and a truthy rating that is not a number, both with zero ratings; and a
    rated professor whose rating arrives as an integer. *)
Example Professor_init_examples :
  (exists p, Professor_init example_runtime (PInt 1) (PStr "A") (PStr "B") (PInt 0) (PInt (-3)) = Ok p
             /\ overall_rating p = PInt 0)
  /\ (exists p, Professor_init example_runtime (PInt 1) (PStr "A") (PStr "B") (PInt 0) (PList [PNone]) = Ok p
                /\ overall_rating p = PInt 0)
  /\ (exists p, Professor_init example_runtime (PInt 1) (PStr "A") (PStr "B") (PInt 2) (PInt 4) = Ok p
                /\ overall_rating p = PFloat (S754_finite false 4503599627370496 (-50))
                /\ name p = "A B")
  /\ Professor_init example_runtime (PInt 1) (PStr "A") (PStr "B") (PInt 2) (PList [PNone])
     = Raise TypeError.
Proof.
  repeat split; try (eexists; split; [reflexivity | repeat split; reflexivity]).
Qed.

(** ** Text search and the embedded-data pattern *)

Lemma strip_prefix_app (pat s rest : string) :
  strip_prefix pat s = Some rest <-> s = (pat ++ rest)%string.
Proof.
  revert s. induction pat as [| a pat IH]; intros s; simpl.
  - split; intros H; [injection H as <- | subst]; reflexivity.
  - destruct s as [| b s]; [split; discriminate |].
    destruct (Ascii.eqb a b) eqn:Eab.
    + apply Ascii.eqb_eq in Eab. subst b. rewrite IH.
      split; intros H; [subst; reflexivity | injection H as ->; reflexivity].
    + apply Ascii.eqb_neq in Eab. split; [discriminate |].
      intros H. injection H as H _. congruence.
Qed.

Lemma append_assoc (a b c : string) : ((a ++ b) ++ c = a ++ (b ++ c))%string.
Proof. induction a as [| x a IH]; simpl; [reflexivity | rewrite IH; reflexivity]. Qed.

Lemma append_length (a b : string) :
  String.length (a ++ b) = (String.length a + String.length b)%nat.
Proof. induction a as [| x a IH]; simpl; [reflexivity | rewrite IH; reflexivity]. Qed.

(** [find_sub] splits the text around an occurrence of the pattern. *)
Lemma find_sub_split (pat s before after : string) :
  find_sub pat s = Some (before, after) -> s = (before ++ pat ++ after)%string.
Proof.
  revert before. induction s as [| c s IH]; intros before; simpl.
  - destruct (strip_prefix pat "") as [r |] eqn:E; [| discriminate].
    intros H. injection H as <- <-. apply strip_prefix_app in E. exact E.
  - destruct (strip_prefix pat (String c s)) as [r |] eqn:E.
    + intros H. injection H as <- <-. apply strip_prefix_app in E. exact E.
    + destruct (find_sub pat s) as [[b a] |] eqn:F; [| discriminate].
      intros H. injection H as <- <-. simpl. rewrite (IH b eq_refl). reflexivity.
Qed.

(** [find_sub] fails only on a text in which the pattern does not occur. *)
Lemma find_sub_none (pat s : string) :
  find_sub pat s = None -> forall before after, s <> (before ++ pat ++ after)%string.
Proof.
  induction s as [| c s IH]; simpl.
  - destruct (strip_prefix pat "") as [r |] eqn:E; [discriminate |].
    intros _ before after H. destruct before as [| x before]; simpl in H.
    + apply strip_prefix_app in H. congruence.
    + discriminate H.
  - destruct (strip_prefix pat (String c s)) as [r |] eqn:E; [discriminate |].
    destruct (find_sub pat s) as [[b a] |] eqn:F; [discriminate |].
    intros _ before after H. destruct before as [| x before]; simpl in H.
    + apply strip_prefix_app in H. congruence.
    + injection H as _ H. exact (IH eq_refl before after H).
Qed.

(** The occurrence [find_sub] finds is the leftmost one. *)
Lemma find_sub_leftmost (pat s before after : string) :
  find_sub pat s = Some (before, after) ->
  forall before' after', s = (before' ++ pat ++ after')%string ->
    (String.length before <= String.length before')%nat.
Proof.
  revert before. induction s as [| c s IH]; intros before; simpl.
  - destruct (strip_prefix pat "") as [r |] eqn:E; [| discriminate].
    intros H. injection H as <- <-. intros. simpl. lia.
  - destruct (strip_prefix pat (String c s)) as [r |] eqn:E.
    + intros H. injection H as <- <-. intros. simpl. lia.
    + destruct (find_sub pat s) as [[b a] |] eqn:F; [| discriminate].
      intros H. injection H as <- <-. intros before' after' Hs.
      destruct before' as [| x before']; simpl in Hs.
      * apply strip_prefix_app in Hs. congruence.
      * injection Hs as _ Hs. simpl. specialize (IH b eq_refl before' after' Hs). lia.
Qed.

(** Two splits of one text: the longer left part extends the shorter. *)
Lemma append_eq_split (a b c d : string) :
  (a ++ b = c ++ d)%string -> (String.length a <= String.length c)%nat ->
  exists m, c = (a ++ m)%string /\ b = (m ++ d)%string.
Proof.
  revert c. induction a as [| x a IH]; intros c H Hlen; simpl in *.
  - exists c. split; [reflexivity | exact H].
  - destruct c as [| y c]; simpl in *; [lia |].
    injection H as -> H. destruct (IH c H ltac:(lia)) as [m [-> ->]].
    exists m. split; reflexivity.
Qed.

(** [find_between] fails exactly on a text that does not hold the opening
    and, later, the closing. *)
Lemma find_between_none (opening closing s : string) :
  find_between opening closing s = None <->
  (forall pre body post, s <> (pre ++ opening ++ body ++ closing ++ post)%string).
Proof.
  unfold find_between. split.
  - destruct (find_sub opening s) as [[a rest] |] eqn:F.
    + destruct (find_sub closing rest) as [[body' post'] |] eqn:G; [discriminate |].
      intros _ pre body post H.
      pose proof (find_sub_leftmost _ _ _ _ F pre (body ++ closing ++ post)%string H) as Hlen.
      rewrite (find_sub_split _ _ _ _ F) in H.
      destruct (append_eq_split _ _ _ _ H Hlen) as [m [_ Hm]].
      rewrite <- (append_assoc opening body), <- (append_assoc m) in Hm.
      assert (Hl : (String.length opening <= String.length (m ++ opening ++ body))%nat).
      { rewrite !append_length. lia. }
      destruct (append_eq_split _ _ _ _ Hm Hl) as [m' [_ Hm']].
      exact (find_sub_none _ _ G m' post Hm').
    + intros _ pre body post H.
      exact (find_sub_none _ _ F pre (body ++ closing ++ post)%string H).
  - intros H.
    destruct (find_sub opening s) as [[a rest] |] eqn:F; [| reflexivity].
    destruct (find_sub closing rest) as [[body post] |] eqn:G; [| reflexivity].
    exfalso. apply (H a body post).
    rewrite (find_sub_split _ _ _ _ F) at 1. rewrite (find_sub_split _ _ _ _ G) at 1.
    reflexivity.
Qed.

(** What [find_between] returns lies between an opening and a closing, and
    holds no closing that ends before its own end. *)
Lemma find_between_some (opening closing s body : string) :
  find_between opening closing s = Some body ->
  exists pre post, s = (pre ++ opening ++ body ++ closing ++ post)%string.
Proof.
  unfold find_between.
  destruct (find_sub opening s) as [[a rest] |] eqn:F; [| discriminate].
  destruct (find_sub closing rest) as [[b post] |] eqn:G; [| discriminate].
  intros H. injection H as <-. exists a, post.
  rewrite (find_sub_split _ _ _ _ F) at 1. rewrite (find_sub_split _ _ _ _ G) at 1.
  reflexivity.
Qed.

(** The pattern finds no match exactly when the text does not hold the
    assignment's opening, [window.__RELAY_STORE__ = {], and later a closing
    brace followed by a semicolon. *)
Lemma relay_store_match_none (html : string) :
  relay_store_match html = None <->
  (forall pre body post,
     html <> (pre ++ "window.__RELAY_STORE__ = {" ++ body ++ "};" ++ post)%string).
Proof.
  rewrite <- find_between_none. unfold relay_store_match.
  destruct (find_between "window.__RELAY_STORE__ = {" "};" html); split; congruence.
Qed.

(** What the pattern captures when it matches: the text between the
    leftmost opening and the first closing after it. *)
Lemma relay_store_match_some (html payload : string) :
  relay_store_match html = Some payload ->
  exists pre body post,
    html = (pre ++ "window.__RELAY_STORE__ = {" ++ body ++ "};" ++ post)%string
    /\ payload = ("{" ++ body ++ "}")%string
    /\ (forall pre' rest',
          html = (pre' ++ "window.__RELAY_STORE__ = {" ++ rest')%string ->
          (String.length pre <= String.length pre')%nat)
    /\ (forall body' post',
          (body ++ "};" ++ post = body' ++ "};" ++ post')%string ->
          (String.length body <= String.length body')%nat).
Proof.
  unfold relay_store_match, find_between.
  destruct (find_sub "window.__RELAY_STORE__ = {" html) as [[pre rest] |] eqn:F;
    [| discriminate].
  destruct (find_sub "};" rest) as [[body post] |] eqn:G; [| discriminate].
  intros H. injection H as <-. exists pre, body, post.
  split; [| split; [reflexivity | split]].
  - rewrite (find_sub_split _ _ _ _ F) at 1. rewrite (find_sub_split _ _ _ _ G) at 1.
    reflexivity.
  - intros pre' rest' H. exact (find_sub_leftmost _ _ _ _ F pre' rest' H).
  - intros body' post' H. apply (find_sub_leftmost _ _ _ _ G body' post').
    rewrite <- H. exact (find_sub_split _ _ _ _ G).
Qed.

(** ** Reading the store out of a page *)

Section RelayData.

Variable rt : runtime.

Lemma extract_relay_data_no_match (html_content : string) :
  relay_store_match html_content = None -> _extract_relay_data rt html_content = Ok [].
Proof. unfold _extract_relay_data. intros ->. reflexivity. Qed.

Lemma extract_relay_data_rejected (html_content payload : string) :
  relay_store_match html_content = Some payload ->
  json_loads rt payload = Raise JSONDecodeError ->
  _extract_relay_data rt html_content = Ok [].
Proof. unfold _extract_relay_data. intros -> ->. reflexivity. Qed.

Lemma extract_relay_data_decoded (html_content payload : string) (relay_data : store) :
  relay_store_match html_content = Some payload ->
  json_loads rt payload = Ok relay_data ->
  _extract_relay_data rt html_content = Ok relay_data.
Proof. unfold _extract_relay_data. intros -> ->. reflexivity. Qed.

(** C8.  [_extract_relay_data] returns the empty store when the page holds no
    match of the pattern, that is, no [window.__RELAY_STORE__ = {] with a
    closing brace and semicolon after it.  When the page holds one, the
    pattern matches: the payload is the text in braces from the leftmost
    opening to the first closing after it, and the result is what
    [json.loads] decodes it to, or the empty store when [json.loads] rejects
    it with [JSONDecodeError].  No [JSONDecodeError] leaves the function. *)
Theorem extract_relay_data_fails_soft (html_content : string) :
  (relay_store_match html_content = None ->
     _extract_relay_data rt html_content = Ok [])
  /\ ((forall pre body post,
         html_content <> (pre ++ "window.__RELAY_STORE__ = {" ++ body ++ "};" ++ post)%string) ->
      _extract_relay_data rt html_content = Ok [])
  /\ (forall pre body post,
        html_content = (pre ++ "window.__RELAY_STORE__ = {" ++ body ++ "};" ++ post)%string ->
        exists pre0 body0 post0,
          html_content
            = (pre0 ++ "window.__RELAY_STORE__ = {" ++ body0 ++ "};" ++ post0)%string
          /\ (forall pre' rest',
                html_content = (pre' ++ "window.__RELAY_STORE__ = {" ++ rest')%string ->
                (String.length pre0 <= String.length pre')%nat)
          /\ (forall body' post',
                (body0 ++ "};" ++ post0 = body' ++ "};" ++ post')%string ->
                (String.length body0 <= String.length body')%nat)
          /\ relay_store_match html_content = Some ("{" ++ body0 ++ "}")%string
          /\ _extract_relay_data rt html_content =
               match json_loads rt ("{" ++ body0 ++ "}")%string with
               | Ok relay_data => Ok relay_data
               | Raise JSONDecodeError => Ok []
               | Raise e => Raise e
               end)
  /\ (forall payload,
        relay_store_match html_content = Some payload ->
        json_loads rt payload = Raise JSONDecodeError ->
        _extract_relay_data rt html_content = Ok [])
  /\ (forall payload relay_data,
        relay_store_match html_content = Some payload ->
        json_loads rt payload = Ok relay_data ->
        _extract_relay_data rt html_content = Ok relay_data)
  /\ _extract_relay_data rt html_content <> Raise JSONDecodeError.
Proof.
  split; [| split; [| split; [| split; [| split]]]].
  - exact (extract_relay_data_no_match html_content).
  - intros H. apply extract_relay_data_no_match, relay_store_match_none. exact H.
  - intros pre body post Hpage.
    destruct (relay_store_match html_content) as [payload |] eqn:Hm.
    + destruct (relay_store_match_some _ _ Hm) as [pre0 [body0 [post0 [H1 [-> [H3 H4]]]]]].
      exists pre0, body0, post0.
      split; [exact H1 | split; [exact H3 | split; [exact H4 | split; [reflexivity |]]]].
      unfold _extract_relay_data. rewrite Hm. reflexivity.
    + exfalso. exact (proj1 (relay_store_match_none html_content) Hm pre body post Hpage).
  - exact (extract_relay_data_rejected html_content).
  - exact (extract_relay_data_decoded html_content).
  - unfold _extract_relay_data.
    destruct (relay_store_match html_content) as [payload |]; [| discriminate].
    destruct (json_loads rt payload) as [d | e]; [discriminate |].
    destruct e; discriminate.
Qed.

(** The only exceptions that leave [_extract_relay_data] are the ones
    [json.loads] raises besides [JSONDecodeError]. *)
Lemma extract_relay_data_raise (html_content : string) (e : exn) :
  _extract_relay_data rt html_content = Raise e ->
  e <> JSONDecodeError
  /\ exists payload, relay_store_match html_content = Some payload
                     /\ json_loads rt payload = Raise e.
Proof.
  unfold _extract_relay_data.
  destruct (relay_store_match html_content) as [payload |]; [| discriminate].
  destruct (json_loads rt payload) as [d | e'] eqn:Hj; [discriminate |].
  destruct e'; intros H; try discriminate H; injection H as <-;
    (split; [discriminate | exists payload; split; [reflexivity | exact Hj]]).
Qed.

End RelayData.

(** The pattern on three pages: an assignment, no assignment, and an
    assignment whose payload [json.loads] rejects. *)
Example extract_relay_data_examples :
  relay_store_match (page "amy") = Some "{amy}"
  /\ _extract_relay_data example_runtime (page "amy") = Ok amy_store
  /\ _extract_relay_data example_runtime "<html>no data here</html>" = Ok []
  /\ _extract_relay_data example_runtime (page "not json") = Ok [].
Proof. repeat split. Qed.

(** The payload is what the pattern captures: it ends at the first closing
    brace that a semicolon follows, also when that is inside a text of the
    JSON object. *)
Example relay_store_match_stops_early :
  relay_store_match
    ("window.__RELAY_STORE__ = {" ++ quoted "css" ++ ":" ++ quoted "a{b:c};" ++ "};")
  = Some ("{" ++ quoted "css" ++ ":" ++ String "034" "a{b:c}")%string.
Proof. reflexivity. Qed.

(** ** The id a Professor is built with *)

(** The constructor keeps the id it is given, so the Professor built from a
    teacher record carries the record's [legacyId], the value the program
    uses as the key. *)
Lemma professor_of_record_id (rt : runtime) (relay_data : store) (prof_data : pyval)
    (p : Professor) :
  professor_of_record rt relay_data prof_data = Ok (Some p) ->
  py_get prof_data "legacyId" PNone = Ok (ratemyprof_id p).
Proof.
  unfold professor_of_record. intros H.
  destruct prof_data; simpl in H; try discriminate H.
  apply bind_Ok in H. destruct H as [sref [_ H]].
  apply bind_Ok in H. destruct H as [sdata [_ H]].
  destruct (truthy (jdict_get d "legacyId" PNone)); simpl in H; [| discriminate H].
  apply bind_Ok in H. destruct H as [q [Hq H]].
  injection H as <-.
  destruct (Professor_init_fields rt _ _ _ _ _ _ Hq) as [E _].
  simpl. rewrite E. reflexivity.
Qed.

(** ** Extraction from a well-linked store does not raise *)



Section WellLinked.

Variable rt : runtime.











End WellLinked.

(** ** The two extraction operations as loops over edge references *)

Lemma process_as_loop (rt : runtime) (relay_data : store) :
  _process_professor_search_data rt relay_data =
    (edge_refs <- search_edge_refs relay_data ;; process_edges rt relay_data edge_refs []).
Proof.
  unfold _process_professor_search_data, search_edge_refs.
  destruct (find_typed _ _ relay_data) as [conn | e]; simpl; [| reflexivity].
  destruct (truthy conn); simpl; [| reflexivity].
  destruct (py_contains "edges" conn) as [has | e]; simpl; [| reflexivity].
  destruct has; reflexivity.
Qed.

Lemma extract_ratings_as_loop (relay_data : store) (prof_data : pyval) :
  _extract_ratings relay_data prof_data =
    (edge_refs <- ratings_edge_refs relay_data prof_data ;;
     extract_rating_edges relay_data edge_refs []).
Proof.
  unfold _extract_ratings, ratings_edge_refs.
  destruct (py_get prof_data _ _) as [c | e]; simpl; [| reflexivity].
  destruct (py_get c _ _) as [r | e]; simpl; [| reflexivity].
  destruct (truthy r); simpl; [| reflexivity].
  destruct (store_get relay_data r PNone) as [rc | e]; simpl; [| reflexivity].
  destruct (truthy rc); simpl; [| reflexivity].
  destruct (py_contains "edges" rc) as [has | e]; simpl; [| reflexivity].
  destruct has; reflexivity.
Qed.

(** The rating loop appends, edge by edge, what each edge contributes. *)
Lemma extract_rating_edges_flat_map (relay_data : store) (edge_refs : list pyval)
    (acc rs : list rating) :
  extract_rating_edges relay_data edge_refs acc = Ok rs ->
  rs = (acc ++ flat_map (rating_of_edge relay_data) edge_refs)%list.
Proof.
  revert acc. induction edge_refs as [| edge_ref rest IH]; intros acc; simpl.
  - intros H. injection H as <-. rewrite app_nil_r. reflexivity.
  - unfold rating_of_edge at 1.
    destruct (resolve_edge "Rating" relay_data edge_ref) as [[data |] | e]; simpl;
      try discriminate.
    + destruct (rating_of_record data) as [r | e]; simpl; [| discriminate].
      intros H. rewrite (IH _ H), <- app_assoc. reflexivity.
    + exact (IH acc).
Qed.







(** ** Assignment into a mapping keyed by Python values *)

Section PyDict.

Context {V : Type}.

Lemma pydict_set_In (k : pyval) (v : V) (d : pydict V) (k' : pyval) (v' : V) :
  In (k', v') (pydict_set k v d) ->
  In (k', v') d \/ (v' = v /\ (k' = k \/ py_key_eq k' k = true)).
Proof.
  induction d as [| [k0 v0] d IH]; simpl.
  - intros [H | []]. injection H as <- <-. right. split; [reflexivity | left; reflexivity].
  - destruct (py_key_eq k0 k) eqn:E; simpl.
    + intros [H | H].
      * injection H as <- <-. right. split; [reflexivity | right; exact E].
      * left. right. exact H.
    + intros [H | H].
      * left. left. exact H.
      * destruct (IH H) as [H' | H']; [left; right; exact H' | right; exact H'].
Qed.

(** Assignment removes no key. *)
Lemma pydict_set_keeps_keys (k : pyval) (v : V) (d : pydict V) (k' : pyval) (v' : V) :
  In (k', v') d -> exists v'', In (k', v'') (pydict_set k v d).
Proof.
  induction d as [| [k0 v0] d IH]; simpl; [intros [] |].
  destruct (py_key_eq k0 k) eqn:E; simpl.
  - intros [H | H].
    + injection H as <- <-. exists v. left. reflexivity.
    + exists v'. right. exact H.
  - intros [H | H].
    + exists v'. left. exact H.
    + destruct (IH H) as [v'' H']. exists v''. right. exact H'.
Qed.

(** After an assignment the value sits under the key or under an equal one. *)
Lemma pydict_set_has (k : pyval) (v : V) (d : pydict V) :
  exists k', In (k', v) (pydict_set k v d) /\ (k' = k \/ py_key_eq k' k = true).
Proof.
  induction d as [| [k0 v0] d IH]; simpl.
  - exists k. split; [left; reflexivity | left; reflexivity].
  - destruct (py_key_eq k0 k) eqn:E.
    + exists k0. split; [left; reflexivity | right; exact E].
    + destruct IH as [k' [Hin Hk]]. exists k'. split; [right; exact Hin | exact Hk].
Qed.

Lemma pydict_set_distinct (k : pyval) (v : V) (d : pydict V) :
  distinct_keys d -> distinct_keys (pydict_set k v d).
Proof.
  induction d as [| [k0 v0] d IH]; simpl.
  - intros _. split; [intros k' v' [] | exact I].
  - intros [Hk0 Hd]. destruct (py_key_eq k0 k) eqn:E; simpl.
    + split; assumption.
    + split; [| exact (IH Hd)].
      intros k' v' Hin. destruct (pydict_set_In _ _ _ _ _ Hin) as [H | [_ [-> | H]]].
      * exact (Hk0 k' v' H).
      * exact E.
      * (* an equal key further down would have been a key of [d] *)
        clear IH Hd. induction d as [| [k1 v1] d IHd]; simpl in Hin.
        -- destruct Hin as [Hin | []]. injection Hin as -> _. exact E.
        -- destruct (py_key_eq k1 k) eqn:E1; simpl in Hin.
           ++ destruct Hin as [Hin | Hin].
              ** injection Hin as <- _. exact (Hk0 k1 v1 (or_introl eq_refl)).
              ** exact (Hk0 k' v' (or_intror Hin)).
           ++ destruct Hin as [Hin | Hin].
              ** injection Hin as <- _. exact (Hk0 k1 v1 (or_introl eq_refl)).
              ** apply IHd; [| exact Hin].
                 intros k2 v2 H2. exact (Hk0 k2 v2 (or_intror H2)).
Qed.

(** Assigning a key that equals no key of the mapping appends it. *)
Lemma pydict_set_fresh (k : pyval) (v : V) (d : pydict V) :
  (forall k' v', In (k', v') d -> py_key_eq k' k = false) ->
  pydict_set k v d = (d ++ [(k, v)])%list.
Proof.
  induction d as [| [k0 v0] d IH]; simpl; intros H; [reflexivity |].
  rewrite (H k0 v0 (or_introl eq_refl)). rewrite IH; [reflexivity |].
  intros k' v' Hin. exact (H k' v' (or_intror Hin)).
Qed.

Lemma distinct_keys_app (d : pydict V) (k : pyval) (v : V) (rest : pydict V) :
  distinct_keys (d ++ (k, v) :: rest)%list ->
  (forall k' v', In (k', v') d -> py_key_eq k' k = false).
Proof.
  induction d as [| [k0 v0] d IH]; simpl; [intros _ k' v' [] |].
  intros [Hk0 Hd] k' v' [Hin | Hin].
  - injection Hin as <- <-. apply (Hk0 k v). apply in_or_app. right. left. reflexivity.
  - exact (IH Hd k' v' Hin).
Qed.

(** Updating the empty mapping with a mapping of distinct keys copies it. *)
Lemma pydict_update_distinct (acc d : pydict V) :
  distinct_keys (acc ++ d)%list -> pydict_update acc d = (acc ++ d)%list.
Proof.
  unfold pydict_update. revert acc.
  induction d as [| [k v] d IH]; intros acc Hd; simpl.
  - rewrite app_nil_r. reflexivity.
  - rewrite (pydict_set_fresh k v acc (distinct_keys_app acc k v d Hd)).
    rewrite IH; rewrite <- app_assoc; [reflexivity | exact Hd].
Qed.

End PyDict.

(** ** From teacher records to the professor mapping *)

Section SearchExtraction.

Variable rt : runtime.

(** A record that yields a Professor has a truthy [legacyId], which becomes
    the Professor's id; the other fields are the record's, or their
    defaults. *)
Lemma professor_of_record_some (relay_data : store) (prof_data : pyval) (p : Professor) :
  professor_of_record rt relay_data prof_data = Ok (Some p) ->
  exists d, prof_data = PDict d
    /\ truthy (jdict_get d "legacyId" PNone) = true
    /\ ratemyprof_id p = jdict_get d "legacyId" PNone
    /\ first_name p = jdict_get d "firstName" (PStr "")
    /\ last_name p = jdict_get d "lastName" (PStr "")
    /\ num_of_ratings p = jdict_get d "numRatings" (PInt 0)
    /\ department p = jdict_get d "department" (PStr "")
    /\ would_take_again_percent p = jdict_get d "wouldTakeAgainPercent" (PInt 0)
    /\ difficulty p = jdict_get d "avgDifficulty" (PInt 0)
    /\ ratings p = [].
Proof.
  unfold professor_of_record. intros H.
  destruct prof_data; simpl in H; try discriminate H.
  exists d. split; [reflexivity |].
  apply bind_Ok in H. destruct H as [sref [_ H]].
  apply bind_Ok in H. destruct H as [sdata [_ H]].
  destruct (truthy (jdict_get d "legacyId" PNone)); simpl in H; [| discriminate H].
  split; [reflexivity |].
  apply bind_Ok in H. destruct H as [q [Hq H]].
  injection H as <-.
  destruct (Professor_init_fields rt _ _ _ _ _ _ Hq) as [E1 [E2 [E3 [E4 [_ [_ [_ [_ E5]]]]]]]].
  simpl. rewrite E1, E2, E3, E4, E5. repeat split; reflexivity.
Qed.

(** A record that is skipped has a falsy [legacyId]. *)
Lemma professor_of_record_none (relay_data : store) (prof_data : pyval) :
  professor_of_record rt relay_data prof_data = Ok None ->
  exists d, prof_data = PDict d /\ truthy (jdict_get d "legacyId" PNone) = false.
Proof.
  unfold professor_of_record. intros H.
  destruct prof_data; simpl in H; try discriminate H.
  exists d. split; [reflexivity |].
  apply bind_Ok in H. destruct H as [sref [_ H]].
  apply bind_Ok in H. destruct H as [sdata [_ H]].
  destruct (truthy (jdict_get d "legacyId" PNone)); simpl in H; [| reflexivity].
  apply bind_Ok in H. destruct H as [q [_ H]]. discriminate H.
Qed.

(** One step of the loop, when it does not raise: the mapping is unchanged
    (no record, or a skipped record) or holds the new Professor under its
    id. *)
Lemma process_edges_step (relay_data : store) (edge_ref : pyval) (rest : list pyval)
    (acc result : pydict Professor) :
  process_edges rt relay_data (edge_ref :: rest) acc = Ok result ->
  (process_edges rt relay_data rest acc = Ok result
   /\ (forall prof_data p, resolve_edge "Teacher" relay_data edge_ref = Ok (Some prof_data) ->
         professor_of_record rt relay_data prof_data <> Ok (Some p)))
  \/ (exists prof_data p,
        resolve_edge "Teacher" relay_data edge_ref = Ok (Some prof_data)
        /\ professor_of_record rt relay_data prof_data = Ok (Some p)
        /\ is_hashable (ratemyprof_id p) = true
        /\ process_edges rt relay_data rest (pydict_set (ratemyprof_id p) p acc) = Ok result).
Proof.
  simpl. intros H.
  destruct (resolve_edge "Teacher" relay_data edge_ref) as [[prof_data |] | e];
    simpl in H; try discriminate H.
  - destruct (professor_of_record rt relay_data prof_data) as [[p |] | e] eqn:Hp;
      simpl in H; try discriminate H.
    + right. exists prof_data, p.
      rewrite (professor_of_record_id rt _ _ _ Hp) in H. simpl in H.
      unfold pydict_setitem in H.
      destruct (is_hashable (ratemyprof_id p)); simpl in H; [| discriminate H].
      repeat split; try reflexivity; assumption.
    + left. split; [exact H |]. intros pd q E. injection E as <-. rewrite Hp. discriminate.
  - left. split; [exact H |]. intros pd q E. discriminate E.
Qed.

(** The loop keeps a mapping keyed by its professors' own ids. *)
Lemma process_edges_keyed (relay_data : store) (edge_refs : list pyval)
    (acc result : pydict Professor) :
  keyed_by_own_id acc ->
  process_edges rt relay_data edge_refs acc = Ok result ->
  keyed_by_own_id result.
Proof.
  revert acc. induction edge_refs as [| edge_ref rest IH]; intros acc Hacc H.
  - simpl in H. injection H as <-. exact Hacc.
  - apply process_edges_step in H.
    destruct H as [[H _] | [prof_data [p [_ [_ [_ H]]]]]]; [exact (IH acc Hacc H) |].
    refine (IH _ _ H). clear IH H.
    intros k q Hin. destruct (pydict_set_In _ _ _ _ _ Hin) as [Hold | [-> Hk]].
    + exact (Hacc k q Hold).
    + exact Hk.
Qed.

Lemma process_edges_distinct (relay_data : store) (edge_refs : list pyval)
    (acc result : pydict Professor) :
  distinct_keys acc ->
  process_edges rt relay_data edge_refs acc = Ok result ->
  distinct_keys result.
Proof.
  revert acc. induction edge_refs as [| edge_ref rest IH]; intros acc Hacc H.
  - simpl in H. injection H as <-. exact Hacc.
  - apply process_edges_step in H.
    destruct H as [[H _] | [prof_data [p [_ [_ [_ H]]]]]]; [exact (IH acc Hacc H) |].
    exact (IH _ (pydict_set_distinct _ _ _ Hacc) H).
Qed.

(** Every Professor of the result was in the mapping before or comes from a
    teacher record that one of the edges resolves to. *)
Lemma process_edges_origin (relay_data : store) (edge_refs : list pyval)
    (acc result : pydict Professor) (k : pyval) (p : Professor) :
  process_edges rt relay_data edge_refs acc = Ok result ->
  In (k, p) result ->
  (exists k0, In (k0, p) acc)
  \/ (exists edge_ref prof_data,
        In edge_ref edge_refs
        /\ resolve_edge "Teacher" relay_data edge_ref = Ok (Some prof_data)
        /\ professor_of_record rt relay_data prof_data = Ok (Some p)).
Proof.
  revert acc. induction edge_refs as [| edge_ref rest IH]; intros acc H Hin.
  - simpl in H. injection H as <-. left. exists k. exact Hin.
  - apply process_edges_step in H.
    destruct H as [[H _] | [prof_data [q [Hres [Hq [_ H]]]]]].
    + destruct (IH acc H Hin) as [Hold | [r [pd [Hr Hrest]]]]; [left; exact Hold |].
      right. exists r, pd. split; [right; exact Hr | exact Hrest].
    + destruct (IH _ H Hin) as [[k0 Hold] | [r [pd [Hr Hrest]]]].
      * destruct (pydict_set_In _ _ _ _ _ Hold) as [Hacc | [-> _]].
        -- left. exists k0. exact Hacc.
        -- right. exists edge_ref, prof_data. split; [left; reflexivity | split; assumption].
      * right. exists r, pd. split; [right; exact Hr | exact Hrest].
Qed.

Lemma process_edges_keeps_keys (relay_data : store) (edge_refs : list pyval)
    (acc result : pydict Professor) (k : pyval) (p : Professor) :
  process_edges rt relay_data edge_refs acc = Ok result ->
  In (k, p) acc -> exists p', In (k, p') result.
Proof.
  revert acc p. induction edge_refs as [| edge_ref rest IH]; intros acc p H Hin.
  - simpl in H. injection H as <-. exists p. exact Hin.
  - apply process_edges_step in H.
    destruct H as [[H _] | [prof_data [q [_ [_ [_ H]]]]]]; [exact (IH acc p H Hin) |].
    destruct (pydict_set_keeps_keys (ratemyprof_id q) q acc k p Hin) as [p' Hin'].
    exact (IH _ p' H Hin').
Qed.

(** Every teacher record that an edge resolves to and that yields a
    Professor has an entry under its id in the result. *)
Lemma process_edges_complete (relay_data : store) (edge_refs : list pyval)
    (acc result : pydict Professor) (edge_ref prof_data : pyval) (p : Professor) :
  process_edges rt relay_data edge_refs acc = Ok result ->
  In edge_ref edge_refs ->
  resolve_edge "Teacher" relay_data edge_ref = Ok (Some prof_data) ->
  professor_of_record rt relay_data prof_data = Ok (Some p) ->
  exists k p', In (k, p') result /\ key_matches k (ratemyprof_id p).
Proof.
  revert acc. induction edge_refs as [| r rest IH]; intros acc H Hin Hres Hp; [destruct Hin |].
  apply process_edges_step in H. destruct Hin as [-> | Hin].
  - destruct H as [[_ Hno] | [pd [q [Hres' [Hq [_ H]]]]]].
    + exfalso. exact (Hno prof_data p Hres Hp).
    + rewrite Hres in Hres'. injection Hres' as <-. rewrite Hp in Hq. injection Hq as <-.
      destruct (pydict_set_has (ratemyprof_id p) p acc) as [k [Hk Hm]].
      destruct (process_edges_keeps_keys _ _ _ _ _ _ H Hk) as [p' Hin'].
      exists k, p'. split; [exact Hin' | exact Hm].
  - destruct H as [[H _] | [pd [q [_ [_ [_ H]]]]]]; exact (IH _ H Hin Hres Hp).
Qed.

End SearchExtraction.

Section LegacyIdGate.

Variable rt : runtime.

(** What an edge resolves to is a record of the store, a mapping with the
    type tag asked for. *)
Lemma resolve_edge_some (typename : string) (relay_data : store) (edge_ref data : pyval) :
  resolve_edge typename relay_data edge_ref = Ok (Some data) ->
  exists key d, jdict_lookup key relay_data = Some data
                /\ data = PDict d /\ tagged typename d = true.
Proof.
  unfold resolve_edge. intros H.
  apply bind_Ok in H. destruct H as [edge [_ H]].
  destruct (truthy edge); simpl in H; [| discriminate H].
  apply bind_Ok in H. destruct H as [has [_ H]].
  destruct has; simpl in H; [| discriminate H].
  apply bind_Ok in H. destruct H as [node [_ H]].
  apply bind_Ok in H. destruct H as [node_ref [_ H]].
  destruct (truthy node_ref) eqn:Tn; simpl in H; [| discriminate H].
  apply bind_Ok in H. destruct H as [data' [Hget H]].
  destruct (truthy data') eqn:Td; simpl in H; [| discriminate H].
  apply bind_Ok in H. destruct H as [has' [Hin H]].
  destruct has'; simpl in H; [| discriminate H].
  apply bind_Ok in H. destruct H as [t [Ht H]].
  destruct (py_eq_str t typename) eqn:Et; simpl in H; [| discriminate H].
  injection H as <-.
  destruct node_ref; simpl in Hget; try discriminate Hget;
    try (injection Hget as <-; discriminate Td).
  unfold jdict_get in Hget. destruct (jdict_lookup s relay_data) as [v |] eqn:El.
  - injection Hget as <-. exists s.
    destruct v; simpl in Ht; try discriminate Ht.
    exists d. split; [exact El | split; [reflexivity |]].
    unfold tagged. destruct (jdict_lookup "__typename" d); [| discriminate Ht].
    injection Ht as ->. exact Et.
  - injection Hget as <-. discriminate Td.
Qed.

(** When the loop does not raise, no record its edges resolve to made the
    record step raise. *)
Lemma process_edges_records (relay_data : store) (edge_refs : list pyval)
    (acc result : pydict Professor) (edge_ref prof_data : pyval) :
  process_edges rt relay_data edge_refs acc = Ok result ->
  In edge_ref edge_refs ->
  resolve_edge "Teacher" relay_data edge_ref = Ok (Some prof_data) ->
  exists made, professor_of_record rt relay_data prof_data = Ok made.
Proof.
  revert acc. induction edge_refs as [| r rest IH]; intros acc H Hin Hres; [destruct Hin |].
  destruct Hin as [-> | Hin].
  - simpl in H. rewrite Hres in H. simpl in H.
    destruct (professor_of_record rt relay_data prof_data) as [made | e];
      [exists made; reflexivity | discriminate H].
  - apply process_edges_step in H.
    destruct H as [[H _] | [pd [q [_ [_ [_ H]]]]]]; exact (IH _ H Hin Hres).
Qed.

(** C3, as the code has it.  When the extraction returns, every entry of the
    result comes from a teacher record that an edge of the search connection
    resolves to, has that record's [legacyId], a truthy value, as its id, and
    sits under a key that stands for this id; and of the teacher records the
    edges resolve to, one with a truthy [legacyId] has an entry under that
    id, while one whose [legacyId] is falsy (absent, null, 0, false, empty)
    is skipped. *)
Theorem search_extraction_gates_on_legacy_id (relay_data : store)
    (result : pydict Professor) :
  _process_professor_search_data rt relay_data = Ok result ->
  exists edge_refs,
    search_edge_refs relay_data = Ok edge_refs
    /\ (forall k p, In (k, p) result ->
          key_matches k (ratemyprof_id p)
          /\ truthy (ratemyprof_id p) = true
          /\ exists edge_ref d,
               In edge_ref edge_refs
               /\ resolve_edge "Teacher" relay_data edge_ref = Ok (Some (PDict d))
               /\ professor_of_record rt relay_data (PDict d) = Ok (Some p)
               /\ ratemyprof_id p = jdict_get d "legacyId" PNone)
    /\ (forall edge_ref d,
          In edge_ref edge_refs ->
          resolve_edge "Teacher" relay_data edge_ref = Ok (Some (PDict d)) ->
          if truthy (jdict_get d "legacyId" PNone)
          then exists k p, In (k, p) result
                           /\ key_matches k (jdict_get d "legacyId" PNone)
          else professor_of_record rt relay_data (PDict d) = Ok None).
Proof.
  rewrite process_as_loop. intros H.
  apply bind_Ok in H. destruct H as [edge_refs [Hrefs Hloop]].
  exists edge_refs. split; [exact Hrefs |]. split.
  - intros k p Hin. split.
    + refine (process_edges_keyed rt _ _ _ _ _ Hloop k p Hin). intros k0 p0 [].
    + destruct (process_edges_origin rt _ _ _ _ k p Hloop Hin)
        as [[k0 []] | [edge_ref [prof_data [Hin' [Hres Hp]]]]].
      destruct (professor_of_record_some rt _ _ _ Hp) as [d [-> [Ht [Hid _]]]].
      split; [rewrite Hid; exact Ht |].
      exists edge_ref, d. repeat split; assumption.
  - intros edge_ref d Hin Hres.
    destruct (process_edges_records _ _ _ _ _ _ Hloop Hin Hres) as [made Hmade].
    destruct (truthy (jdict_get d "legacyId" PNone)) eqn:Tid.
    + destruct made as [p |].
      * destruct (process_edges_complete rt _ _ _ _ _ _ _ Hloop Hin Hres Hmade)
          as [k [p' [Hk Hm]]].
        destruct (professor_of_record_some rt _ _ _ Hmade) as [d' [E [_ [Hid _]]]].
        injection E as <-. rewrite Hid in Hm. exists k, p'. split; assumption.
      * destruct (professor_of_record_none rt _ _ Hmade) as [d' [E Hf]].
        injection E as <-. congruence.
    + destruct made as [p |]; [| exact Hmade].
      destruct (professor_of_record_some rt _ _ _ Hmade) as [d' [E [Ht _]]].
      injection E as <-. congruence.
Qed.

End LegacyIdGate.

(** ** The session: lookup by id and the mapping's invariant *)

Section Session.

Variable rt : runtime.
Variable net : network.

Lemma py_key_eq_hashable (k' k : pyval) : py_key_eq k' k = true -> is_hashable k = true.
Proof.
  destruct k; try reflexivity; destruct k'; simpl; try discriminate;
    try (destruct f; discriminate).
Qed.

Lemma pydict_lookup_hashable {V : Type} (k : pyval) (d : pydict V) (v : V) :
  pydict_lookup k d = Some v -> is_hashable k = true.
Proof.
  induction d as [| [k' v'] d IH]; simpl; [discriminate |].
  destruct (py_key_eq k' k) eqn:E; [| exact IH].
  intros _. exact (py_key_eq_hashable k' k E).
Qed.

(** C5.  For an id the mapping holds, [get_professor_by_id] returns the
    address stored under it and leaves the session as it was: no request is
    made, and neither the mapping nor the objects change.  Asked again, it
    gives the same object. *)
Theorem get_professor_by_id_cached (professor_id : pyval) (self : RateMyProfApi)
    (address : nat) :
  pydict_lookup professor_id (professors self) = Some address ->
  get_professor_by_id rt net professor_id self = (Ok (Some address), self)
  /\ get_professor_by_id rt net professor_id
       (snd (get_professor_by_id rt net professor_id self)) = (Ok (Some address), self).
Proof.
  intros H.
  assert (E : get_professor_by_id rt net professor_id self = (Ok (Some address), self)).
  { unfold get_professor_by_id.
    rewrite (pydict_lookup_hashable _ _ _ H), H. reflexivity. }
  split; [exact E |]. rewrite E. simpl. exact E.
Qed.

(** What entering a Professor from a detail page does to the session. *)
Lemma professor_from_detail_some (relay_data : store) (self self' : RateMyProfApi)
    (address : nat) :
  professor_from_detail rt relay_data self = Ok (Some (address, self')) ->
  exists prof_data made rs,
    find_typed "VGVhY2hlci0" "Teacher" relay_data = Ok prof_data
    /\ professor_of_record rt relay_data prof_data = Ok (Some made)
    /\ _extract_ratings relay_data prof_data = Ok rs
    /\ is_hashable (ratemyprof_id made) = true
    /\ address = length (objects self)
    /\ self' = set_professors self
                 (pydict_set (ratemyprof_id made) address (professors self))
                 (objects self ++ [set_ratings made rs]).
Proof.
  unfold professor_from_detail. intros H.
  apply bind_Ok in H. destruct H as [prof_data [Hfind H]].
  destruct (truthy prof_data); simpl in H; [| discriminate H].
  apply bind_Ok in H. destruct H as [[made |] [Hmade H]]; [| discriminate H].
  apply bind_Ok in H. destruct H as [rs [Hrs H]].
  rewrite (professor_of_record_id rt _ _ _ Hmade) in H. simpl in H.
  apply bind_Ok in H. destruct H as [s2 [Hstore H]].
  injection H as <- <-.
  unfold store_professor, pydict_setitem in Hstore. simpl in Hstore.
  destruct (is_hashable (ratemyprof_id made)) eqn:Hh; simpl in Hstore; [| discriminate Hstore].
  injection Hstore as <-.
  exists prof_data, made, rs. repeat split; try assumption; reflexivity.
Qed.

(** The call returned without an address and with mapping and objects as
    they were. *)
Ltac unchanged :=
  let H := fresh in
  intros H; injection H as <- <-; left; repeat split; try reflexivity; discriminate.

(** [get_professor_by_id] either leaves mapping and objects as they were or
    enters one new object under its own id. *)
Lemma get_professor_by_id_cases (professor_id : pyval) (self self' : RateMyProfApi)
    (res : outcome (option nat)) :
  get_professor_by_id rt net professor_id self = (res, self') ->
  (professors self' = professors self /\ objects self' = objects self
   /\ (forall address, res = Ok (Some address) ->
         pydict_lookup professor_id (professors self) = Some address /\ self' = self))
  \/ (exists p,
        pydict_lookup professor_id (professors self) = None
        /\ res = Ok (Some (length (objects self)))
        /\ is_hashable (ratemyprof_id p) = true
        /\ professors self' =
             pydict_set (ratemyprof_id p) (length (objects self)) (professors self)
        /\ objects self' = (objects self ++ [p])%list
        /\ requested self' =
             (requested self ++ [base_url ++ "/professor/" ++ py_str rt professor_id]%string)%list).
Proof.
  unfold get_professor_by_id.
  destruct (is_hashable professor_id); simpl.
  2:{ unchanged. }
  destruct (pydict_lookup professor_id (professors self)) as [a |] eqn:El.
  { intros H. injection H as <- <-. left. repeat split; try reflexivity.
    - injection H as <-. reflexivity. }
  unfold fetch.
  destruct (negb (status_code (net (length (requested self)) _) =? 200)).
  { unchanged. }
  destruct (_extract_relay_data rt _) as [[| kv relay_data] | e].
  1,3: unchanged.
  destruct (professor_from_detail rt (kv :: relay_data) _) as [[[a s2] |] | e] eqn:Hd.
  2,3: unchanged.
  intros H. injection H as <- <-.
  destruct (professor_from_detail_some _ _ _ _ Hd)
    as [prof_data [made [rs [_ [_ [_ [Hh [-> ->]]]]]]]].
  right. exists (set_ratings made rs). simpl. repeat split; try reflexivity. exact Hh.
Qed.

(** What [get_professor_by_id] does when it enters a professor: the page was
    fetched, and the object is built from the page's teacher record. *)
Lemma get_professor_by_id_new (professor_id : pyval) (self s' : RateMyProfApi)
    (address : nat) :
  pydict_lookup professor_id (professors self) = None ->
  get_professor_by_id rt net professor_id self = (Ok (Some address), s') ->
  exists relay_data prof_data made rs,
    _extract_relay_data rt
      (text (net (length (requested self)) (professor_url rt professor_id))) = Ok relay_data
    /\ find_typed "VGVhY2hlci0" "Teacher" relay_data = Ok prof_data
    /\ professor_of_record rt relay_data prof_data = Ok (Some made)
    /\ _extract_ratings relay_data prof_data = Ok rs
    /\ address = length (objects self)
    /\ professors s' = pydict_set (ratemyprof_id made) address (professors self)
    /\ objects s' = (objects self ++ [set_ratings made rs])%list.
Proof.
  intros Hl. unfold get_professor_by_id, professor_url.
  destruct (negb (is_hashable professor_id)); [discriminate |]. rewrite Hl.
  unfold fetch.
  destruct (negb (status_code _ =? 200)); [discriminate |].
  destruct (_extract_relay_data rt _) as [[| kv rd] | e]; try discriminate.
  destruct (professor_from_detail rt (kv :: rd) _) as [[[a s2] |] | e] eqn:Hd;
    try discriminate.
  intros H. injection H as <- <-.
  destruct (professor_from_detail_some _ _ _ _ Hd)
    as [pd [made [rs [Hfind [Hmade [Hrs [_ [Ha ->]]]]]]]].
  simpl in Ha. exists (kv :: rd), pd, made, rs.
  repeat split; try assumption.
Qed.

Lemma mapping_ok_frame (self self' : RateMyProfApi) :
  professors self' = professors self -> objects self' = objects self ->
  mapping_ok self -> mapping_ok self'.
Proof. unfold mapping_ok. intros -> ->. exact (fun H => H). Qed.

(** Entering a new object under its own id keeps the invariant. *)
Lemma mapping_ok_store (self self' : RateMyProfApi) (p : Professor) :
  professors self' = pydict_set (ratemyprof_id p) (length (objects self)) (professors self) ->
  objects self' = (objects self ++ [p])%list ->
  mapping_ok self -> mapping_ok self'.
Proof.
  unfold mapping_ok. intros -> -> Hok k a Hin.
  destruct (pydict_set_In _ _ _ _ _ Hin) as [Hold | [-> Hk]].
  - destruct (Hok k a Hold) as [q [Hq Hm]]. exists q. split; [| exact Hm].
    rewrite nth_error_app1; [exact Hq |]. apply nth_error_Some. congruence.
  - exists p. split; [| exact Hk].
    rewrite nth_error_app2, Nat.sub_diag; [reflexivity | lia].
Qed.

Lemma get_professor_by_id_keeps_invariant (professor_id : pyval) (self : RateMyProfApi) :
  mapping_ok self -> mapping_ok (snd (get_professor_by_id rt net professor_id self)).
Proof.
  intros Hok.
  destruct (get_professor_by_id rt net professor_id self) as [res s'] eqn:E. simpl.
  destruct (get_professor_by_id_cases _ _ _ _ E) as [[Hp [Ho _]] | [p [_ [_ [_ [Hp [Ho _]]]]]]].
  - exact (mapping_ok_frame _ _ Hp Ho Hok).
  - exact (mapping_ok_store _ _ p Hp Ho Hok).
Qed.

(** The addresses [assign_professors] hands out. *)
Lemma combine_seq_In {A B : Type} (d : list (A * B)) (n : nat) (k : A) (a : nat) :
  In (k, a) (combine (map fst d) (seq n (length d))) ->
  exists i v, a = (n + i)%nat /\ nth_error d i = Some (k, v).
Proof.
  revert n. induction d as [| [k0 v0] d IH]; intros n; simpl; [intros [] |].
  intros [H | H].
  - injection H as <- <-. exists 0%nat, v0. split; [lia | reflexivity].
  - destruct (IH (S n) H) as [i [v [-> Hi]]]. exists (S i), v. split; [lia | exact Hi].
Qed.

Lemma assign_professors_ok (self : RateMyProfApi) (d : pydict Professor) :
  keyed_by_own_id d -> mapping_ok (assign_professors self d).
Proof.
  unfold mapping_ok, assign_professors. simpl. intros Hd k a Hin.
  destruct (combine_seq_In _ _ _ _ Hin) as [i [p [-> Hi]]].
  exists p. split.
  - rewrite nth_error_app2 by lia.
    replace (length (objects self) + i - length (objects self))%nat with i by lia.
    rewrite nth_error_map, Hi. reflexivity.
  - apply Hd. exact (nth_error_In _ _ Hi).
Qed.

(** Search extraction returns a mapping keyed by its professors' own ids,
    with distinct keys. *)
Lemma process_keyed (relay_data : store) (result : pydict Professor) :
  _process_professor_search_data rt relay_data = Ok result ->
  keyed_by_own_id result /\ distinct_keys result.
Proof.
  rewrite process_as_loop. intros H.
  apply bind_Ok in H. destruct H as [refs [_ H]]. split.
  - refine (process_edges_keyed rt _ _ _ _ _ H). intros k p [].
  - exact (process_edges_distinct rt relay_data refs [] result I H).
Qed.

Lemma scrape_professors_keyed (testing : bool) (self : RateMyProfApi) (d : pydict Professor) :
  fst (scrape_professors rt net testing self) = Ok d -> keyed_by_own_id d.
Proof.
  unfold scrape_professors, fetch.
  destruct (negb (status_code (net (length (requested self)) _) =? 200)); simpl.
  { intros H. injection H as <-. intros k p []. }
  destruct (_extract_relay_data rt _) as [[| kv relay_data] | e]; simpl.
  - intros H. injection H as <-. intros k p [].
  - intros H. apply bind_Ok in H. destruct H as [found [Hf H]]. injection H as <-.
    destruct (process_keyed _ _ Hf) as [Hk Hd].
    rewrite (pydict_update_distinct [] found Hd). exact Hk.
  - discriminate.
Qed.

Lemma RateMyProfApi_init_invariant (sid : string) (testing : bool) :
  mapping_ok (snd (RateMyProfApi_init rt net sid testing)).
Proof.
  unfold RateMyProfApi_init.
  set (s0 := {| school_id := sid; professors := []; objects := []; school_name := PNone;
                school_city := PNone; school_state := PNone; requested := [] |}).
  assert (Hempty : forall s, professors s = [] -> mapping_ok s).
  { intros s E k a Hin. rewrite E in Hin. destruct Hin. }
  assert (Hschool : professors (snd (_get_school_info rt net s0)) = []).
  { unfold _get_school_info, fetch. simpl.
    destruct (negb (status_code (net 0%nat _) =? 200)); [reflexivity |].
    destruct (_extract_relay_data rt _) as [[| kv rd] | e]; try reflexivity.
    destruct (find_typed "U2Nob29s" "School" (kv :: rd)) as [v | e]; [| reflexivity].
    destruct v; try reflexivity. }
  destruct (_get_school_info rt net s0) as [[[] | e] s1]; simpl in *.
  2:{ exact (Hempty _ Hschool). }
  destruct (negb testing || match professors s1 with [] => true | _ => false end).
  2:{ exact (Hempty _ Hschool). }
  destruct (scrape_professors rt net testing s1) as [[d | e] s2] eqn:Es; simpl.
  - apply assign_professors_ok.
    apply (scrape_professors_keyed testing s1). rewrite Es. reflexivity.
  - apply Hempty.
    unfold scrape_professors, fetch in Es.
    destruct (negb (status_code (net (length (requested s1)) _) =? 200));
      [injection Es as _ <-; exact Hschool |].
    destruct (_extract_relay_data rt _) as [[| kv rd] | e'];
      injection Es as _ <-; exact Hschool.
Qed.

End Session.

(** ** Sorting by name *)

Lemma name_le_total (p q : Professor) : name_le p q \/ name_le q p.
Proof. exact (String.leb_total (name p) (name q)). Qed.

Lemma insert_by_name_perm (p : Professor) (l : list Professor) :
  Permutation (insert_by_name p l) (p :: l).
Proof.
  induction l as [| q l IH]; simpl; [reflexivity |].
  destruct (String.leb (name p) (name q)); [reflexivity |].
  rewrite IH. apply perm_swap.
Qed.

Lemma sort_by_name_perm (l : list Professor) : Permutation (sort_by_name l) l.
Proof.
  induction l as [| p l IH]; simpl; [reflexivity |].
  rewrite insert_by_name_perm, IH. reflexivity.
Qed.

Lemma insert_by_name_sorted (p : Professor) (l : list Professor) :
  Sorted name_le l -> Sorted name_le (insert_by_name p l).
Proof.
  induction l as [| q l IH]; simpl; intros Hs.
  - constructor; constructor.
  - destruct (String.leb (name p) (name q)) eqn:E.
    + constructor; [exact Hs | constructor; exact E].
    + inversion Hs as [| ? ? Hl Hhd]; subst.
      constructor; [exact (IH Hl) |].
      assert (Hqp : name_le q p).
      { destruct (name_le_total p q) as [H | H]; [unfold name_le in H; congruence | exact H]. }
      destruct l as [| r l]; simpl.
      * constructor. exact Hqp.
      * destruct (String.leb (name p) (name r)); constructor; [exact Hqp |].
        inversion Hhd; assumption.
Qed.

Lemma sort_by_name_sorted (l : list Professor) : Sorted name_le (sort_by_name l).
Proof.
  induction l as [| p l IH]; simpl; [constructor |].
  exact (insert_by_name_sorted p _ IH).
Qed.

(** The sort is stable: professors of one name keep their order. *)
Lemma insert_by_name_filter (n : string) (p : Professor) (l : list Professor) :
  filter (fun q => (name q =? n)%string) (insert_by_name p l) =
  filter (fun q => (name q =? n)%string) (p :: l).
Proof.
  induction l as [| q l IH]; simpl; [reflexivity |].
  destruct (String.leb (name p) (name q)) eqn:E; [reflexivity |].
  simpl. rewrite IH. simpl.
  destruct (name p =? n)%string eqn:Ep; [| reflexivity].
  destruct (name q =? n)%string eqn:Eq; [| reflexivity].
  apply String.eqb_eq in Ep, Eq. rewrite Ep, Eq in E.
  destruct (String.leb_total n n); congruence.
Qed.

Lemma sort_by_name_stable (n : string) (l : list Professor) :
  filter (fun q => (name q =? n)%string) (sort_by_name l) =
  filter (fun q => (name q =? n)%string) l.
Proof.
  induction l as [| p l IH]; simpl; [reflexivity |].
  rewrite insert_by_name_filter. simpl. rewrite IH. reflexivity.
Qed.

Section Search.

Variable rt : runtime.
Variable net : network.

(** What [search_professor] returns and does to the session, by cases. *)
Lemma search_professor_cases (query : string) (self : RateMyProfApi) :
  let resp := net (length (requested self)) (search_url query) in
  let out := search_professor rt net query self in
  professors (snd out) = professors self
  /\ objects (snd out) = objects self
  /\ requested (snd out) = (requested self ++ [search_url query])%list
  /\ fst out =
       if negb (status_code resp =? 200) then Ok []
       else (relay_data <- _extract_relay_data rt (text resp) ;;
             found <- _process_professor_search_data rt relay_data ;;
             Ok (sort_by_name (pydict_values found))).
Proof.
  unfold search_professor, fetch. simpl.
  destruct (negb (status_code (net (length (requested self)) _) =? 200)); simpl.
  { repeat split; reflexivity. }
  destruct (_extract_relay_data rt _) as [[| kv relay_data] | e]; simpl;
    repeat split; reflexivity.
Qed.

(** C7.  [search_professor] returns the empty list when the response is not
    200, when the page holds no match of the pattern and when [json.loads]
    rejects the payload; whatever list it returns is in ascending order of
    name; and when the page's store is extracted, the list is the extracted
    professors, each once, sorted stably. *)
Theorem search_professor_sorted_by_name (query : string) (self : RateMyProfApi) :
  let resp := net (length (requested self)) (search_url query) in
  let result := fst (search_professor rt net query self) in
  (status_code resp <> 200 -> result = Ok [])
  /\ (relay_store_match (text resp) = None -> result = Ok [])
  /\ (forall payload,
        relay_store_match (text resp) = Some payload ->
        json_loads rt payload = Raise JSONDecodeError -> result = Ok [])
  /\ (forall l, result = Ok l -> Sorted name_le l)
  /\ (status_code resp = 200 ->
      forall relay_data found,
        _extract_relay_data rt (text resp) = Ok relay_data ->
        _process_professor_search_data rt relay_data = Ok found ->
        result = Ok (sort_by_name (pydict_values found))
        /\ Permutation (sort_by_name (pydict_values found)) (pydict_values found)
        /\ (forall n, filter (fun q => (name q =? n)%string) (sort_by_name (pydict_values found))
                      = filter (fun q => (name q =? n)%string) (pydict_values found))).
Proof.
  intros resp result.
  destruct (search_professor_cases query self) as [_ [_ [_ Hres]]].
  fold resp in Hres. fold result in Hres.
  assert (Hempty : _extract_relay_data rt (text resp) = Ok [] -> result = Ok []).
  { intros E. rewrite Hres, E. destruct (negb (status_code resp =? 200)); reflexivity. }
  split; [| split; [| split; [| split]]].
  - intros Hs. rewrite Hres. apply Z.eqb_neq in Hs. rewrite Hs. reflexivity.
  - intros Hm. apply Hempty. exact (extract_relay_data_no_match rt _ Hm).
  - intros payload Hm Hj. apply Hempty. exact (extract_relay_data_rejected rt _ _ Hm Hj).
  - intros l Hl. rewrite Hres in Hl.
    destruct (negb (status_code resp =? 200)).
    + injection Hl as <-. constructor.
    + apply bind_Ok in Hl. destruct Hl as [rd [_ Hl]].
      apply bind_Ok in Hl. destruct Hl as [found [_ Hl]].
      injection Hl as <-. apply sort_by_name_sorted.
  - intros Hs relay_data found Hrd Hfound. split; [| split].
    + rewrite Hres. apply Z.eqb_eq in Hs. rewrite Hs, Hrd. simpl. rewrite Hfound. reflexivity.
    + apply sort_by_name_perm.
    + intros n. apply sort_by_name_stable.
Qed.

End Search.

(** The specification's example: "Amy Zed" is listed before "Amy Adams" on
    the page, and the search returns "Amy Adams" first. *)
Example search_professor_amy :
  option_map (map name) (match _process_professor_search_data example_runtime amy_store with
                         | Ok found => Some (pydict_values found)
                         | Raise _ => None
                         end) = Some ["Amy Zed"; "Amy Adams"]
  /\ match fst (search_professor example_runtime amy_network "Amy" new_session) with
     | Ok l => map name l = ["Amy Adams"; "Amy Zed"]
     | Raise _ => False
     end.
Proof. split; reflexivity. Qed.

(** ** Lookup by name *)

Section ByName.

Variable rt : runtime.
Variable net : network.



(** Whatever the names are, no result means no professor. *)
Lemma get_professor_by_name_no_results (query_name : string) (self self1 : RateMyProfApi) :
  search_professor rt net query_name self = (Ok [], self1) ->
  get_professor_by_name rt net query_name self = (Ok None, self1).
Proof. unfold get_professor_by_name. intros ->. reflexivity. Qed.

End ByName.

(** The specification's example: for the query "John Smith" and the results
    Jon Smith, John Smith, the second is chosen. *)
Example choose_candidate_john_smith :
  match _process_professor_search_data example_runtime smith_store with
  | Ok found =>
      map name (pydict_values found) = ["Jon Smith"; "John Smith"; "Al Smith"]
      /\ option_map name (choose_candidate example_runtime "John Smith" (pydict_values found))
         = Some "John Smith"
      /\ match find_exact_match example_runtime "john" "smith" (pydict_values found) with
         | Ok (Some prof) => name prof = "John Smith"
         | _ => False
         end
      /\ option_map name (choose_candidate example_runtime "JOHN  q.  SMITH" (pydict_values found))
         = Some "John Smith"
      /\ option_map name (choose_candidate example_runtime "Smith" (pydict_values found))
         = Some "Jon Smith"
      /\ option_map name (choose_candidate example_runtime "Jane Smith" (pydict_values found))
         = Some "Jon Smith"
  | Raise _ => False
  end.
Proof. vm_compute. repeat split. Qed.

(** ** Writing ratings *)

(** The two replacements of the code amount to the specification's
    normalisation. *)
Lemma replace_newlines_normalize (s : string) :
  replace_char CR " " (replace_char LF " " s) = normalize_newlines s.
Proof.
  induction s as [| c s IH]; simpl; [reflexivity |].
  destruct (Ascii.eqb c LF) eqn:El; simpl.
  - rewrite IH, orb_true_r. reflexivity.
  - rewrite IH, orb_false_r. destruct (Ascii.eqb c CR); reflexivity.
Qed.

Lemma normalize_newlines_length (s : string) :
  String.length (normalize_newlines s) = String.length s.
Proof. induction s as [| c s IH]; simpl; [reflexivity | rewrite IH; reflexivity]. Qed.

(** Character by character: a carriage return or line feed becomes a space,
    any other character stays. *)
Lemma normalize_newlines_get (s : string) (i : nat) :
  get i (normalize_newlines s) =
    option_map (fun c => if orb (Ascii.eqb c CR) (Ascii.eqb c LF) then " "%char else c)
               (get i s).
Proof.
  revert i. induction s as [| c s IH]; intros i; simpl; [reflexivity |].
  destruct i; [reflexivity | exact (IH i)].
Qed.

(** No carriage return and no line feed is left. *)
Lemma normalize_newlines_clean (s : string) (c : ascii) :
  In c (list_ascii_of_string (normalize_newlines s)) ->
  Ascii.eqb c CR = false /\ Ascii.eqb c LF = false.
Proof.
  induction s as [| x s IH]; simpl; [intros [] |].
  intros [<- | H]; [| exact (IH H)].
  destruct (Ascii.eqb x CR) eqn:Ec; simpl; [split; reflexivity |].
  destruct (Ascii.eqb x LF) eqn:El; simpl; [split; reflexivity |].
  split; assumption.
Qed.

Lemma jdict_lookup_set (k : string) (v : pyval) (d : jdict) :
  jdict_lookup k (jdict_set k v d) = Some v.
Proof.
  induction d as [| [k' v'] d IH]; simpl.
  - rewrite String.eqb_refl. reflexivity.
  - destruct (k' =? k)%string eqn:E; simpl; rewrite E; [reflexivity | exact IH].
Qed.

Lemma jdict_set_same (k : string) (v : pyval) (d : jdict) :
  jdict_lookup k d = Some v -> jdict_set k v d = d.
Proof.
  induction d as [| [k' v'] d IH]; simpl; [discriminate |].
  destruct (k' =? k)%string.
  - intros H. injection H as ->. reflexivity.
  - intros H. rewrite (IH H). reflexivity.
Qed.

(** The clean-up of the code writes the row the specification asks for. *)
Lemma clean_comment_normalized (r r' : rating) :
  clean_comment r = Ok r' -> r' = normalized_row r.
Proof.
  unfold clean_comment, normalized_row.
  destruct (jdict_lookup "comment" r) as [c |] eqn:El.
  - destruct (truthy c) eqn:Tc.
    + destruct c; try discriminate. intros H. injection H as <-.
      rewrite replace_newlines_normalize. reflexivity.
    + intros H. injection H as <-.
      destruct c; try reflexivity.
      destruct s; [| discriminate Tc]. simpl.
      symmetry. exact (jdict_set_same _ _ _ El).
  - intros H. injection H as <-. reflexivity.
Qed.

(** A comment that is text is cleaned without raising. *)
Lemma clean_comment_text (r : rating) (s : string) :
  jdict_lookup "comment" r = Some (PStr s) -> clean_comment r = Ok (normalized_row r).
Proof.
  intros El. destruct (clean_comment r) as [r' | e] eqn:E.
  - rewrite (clean_comment_normalized _ _ E). reflexivity.
  - unfold clean_comment in E. rewrite El in E. destruct (truthy (PStr s)); discriminate E.
Qed.

(** The text comment of a normalised row holds no carriage return and no
    line feed. *)
Lemma normalized_row_clean (r : rating) (s : string) (c : ascii) :
  jdict_lookup "comment" (normalized_row r) = Some (PStr s) ->
  In c (list_ascii_of_string s) ->
  Ascii.eqb c CR = false /\ Ascii.eqb c LF = false.
Proof.
  unfold normalized_row.
  destruct (jdict_lookup "comment" r) as [[ | | | | s0 | | ] |] eqn:El;
    try (intros H; rewrite El in H; discriminate H).
  rewrite jdict_lookup_set. intros H. injection H as <-.
  apply normalize_newlines_clean.
Qed.

Lemma jdict_set_keys (k : string) (v c : pyval) (d : jdict) :
  jdict_lookup k d = Some c -> map fst (jdict_set k v d) = map fst d.
Proof.
  induction d as [| [k' v'] d IH]; simpl; [discriminate |].
  destruct (k' =? k)%string; simpl; [reflexivity |].
  intros H. rewrite (IH H). reflexivity.
Qed.

(** Normalising the comment changes no key. *)
Lemma normalized_row_keys (r : rating) : map fst (normalized_row r) = map fst r.
Proof.
  unfold normalized_row.
  destruct (jdict_lookup "comment" r) as [[ | | | | s | | ] |] eqn:El; try reflexivity.
  exact (jdict_set_keys _ _ _ _ El).
Qed.

Lemma jdict_lookup_set_other (k k' : string) (v : pyval) (d : jdict) :
  k' <> k -> jdict_lookup k' (jdict_set k v d) = jdict_lookup k' d.
Proof.
  intros Hk. induction d as [| [k0 v0] d IH]; simpl.
  - destruct (k =? k')%string eqn:E; [| reflexivity].
    apply String.eqb_eq in E. congruence.
  - destruct (k0 =? k)%string eqn:E; simpl.
    + apply String.eqb_eq in E. subst k0.
      destruct (k =? k')%string eqn:E'; [| reflexivity].
      apply String.eqb_eq in E'. congruence.
    + rewrite IH. reflexivity.
Qed.

(** Normalising changes nothing but the comment. *)
Lemma normalized_row_other (r : rating) (k : string) :
  k <> "comment" -> jdict_lookup k (normalized_row r) = jdict_lookup k r.
Proof.
  intros Hk. unfold normalized_row.
  destruct (jdict_lookup "comment" r) as [[ | | | | s | | ] |]; try reflexivity.
  exact (jdict_lookup_set_other "comment" k _ r Hk).
Qed.

Lemma normalized_row_no_text (r : rating) :
  (forall s, jdict_lookup "comment" r <> Some (PStr s)) -> normalized_row r = r.
Proof.
  intros H. unfold normalized_row.
  destruct (jdict_lookup "comment" r) as [[ | | | | s | | ] |]; try reflexivity.
  exfalso. exact (H s eq_refl).
Qed.

(** What the comment of a normalised row is. *)
Lemma normalized_row_comment (r : rating) (s : string) :
  jdict_lookup "comment" r = Some (PStr s) ->
  jdict_lookup "comment" (normalized_row r) = Some (PStr (normalize_newlines s)).
Proof. unfold normalized_row. intros ->. apply jdict_lookup_set. Qed.

(** The clean-up succeeds exactly on a comment that is absent, falsy or
    text, and raises [AttributeError] on any other. *)
Lemma clean_comment_cleanable (r : rating) :
  clean_comment r =
    if comment_cleanable r then Ok (normalized_row r) else Raise AttributeError.
Proof.
  unfold comment_cleanable.
  destruct (jdict_lookup "comment" r) as [c |] eqn:El.
  - destruct c as [| b | z | f | s | l | d];
      try (unfold clean_comment, normalized_row; rewrite El;
           destruct (truthy _); reflexivity).
    exact (clean_comment_text r s El).
  - unfold clean_comment, normalized_row. rewrite El. reflexivity.
Qed.

Lemma writerow_check_columns (r : rating) :
  writerow_check ratings_csv_columns (normalized_row r) =
    if columns_ok r then Ok tt else Raise ValueError.
Proof. unfold writerow_check, columns_ok. rewrite normalized_row_keys. reflexivity. Qed.

(** One turn of the loop: a rating whose comment cannot be cleaned stops it
    with [AttributeError], untouched; a rating with a key outside the
    columns stops it with [ValueError], its comment already replaced; any
    other rating is written with its comment normalised. *)
Lemma write_rating_rows_step (r : rating) (rest : list rating) :
  write_rating_rows (r :: rest) =
    if comment_cleanable r then
      if columns_ok r then
        (normalized_row r :: fst (fst (write_rating_rows rest)),
         normalized_row r :: snd (fst (write_rating_rows rest)),
         snd (write_rating_rows rest))
      else ([], normalized_row r :: rest, Raise ValueError)
    else ([], r :: rest, Raise AttributeError).
Proof.
  cbn [write_rating_rows]. rewrite clean_comment_cleanable.
  destruct (comment_cleanable r); [| reflexivity].
  rewrite writerow_check_columns.
  destruct (columns_ok r); [| reflexivity].
  destruct (write_rating_rows rest) as [[rows kept] res]. reflexivity.
Qed.

(** The rows written: the ratings before the first that cannot be written,
    each with its comment normalised. *)
Lemma write_rating_rows_rows (rs : list rating) :
  fst (fst (write_rating_rows rs)) = map normalized_row (take_while writable rs).
Proof.
  induction rs as [| r rs IH]; [reflexivity |].
  rewrite write_rating_rows_step. cbn [take_while]. unfold writable at 1.
  destruct (comment_cleanable r); [| reflexivity].
  destruct (columns_ok r); [| reflexivity].
  cbn [fst andb map]. rewrite IH. reflexivity.
Qed.

(** When every rating can be written, every rating is written, and the loop
    ends without raising and leaves the ratings as it wrote them. *)
Lemma write_rating_rows_all (rs : list rating) :
  forallb writable rs = true ->
  write_rating_rows rs = (map normalized_row rs, map normalized_row rs, Ok tt).
Proof.
  induction rs as [| r rs IH]; [reflexivity |].
  cbn [forallb]. intros H. apply andb_prop in H. destruct H as [Hr Hrs].
  unfold writable in Hr. apply andb_prop in Hr. destruct Hr as [Hc Hk].
  rewrite write_rating_rows_step, Hc, Hk, (IH Hrs). reflexivity.
Qed.

(** Where the loop stops when it raises. *)
Lemma write_rating_rows_stops (rs rows kept : list rating) (e : exn) :
  write_rating_rows rs = (rows, kept, Raise e) ->
  exists before r after,
    rs = (before ++ r :: after)%list
    /\ forallb writable before = true
    /\ rows = map normalized_row before
    /\ ((comment_cleanable r = false /\ e = AttributeError
         /\ kept = (map normalized_row before ++ r :: after)%list)
        \/ (comment_cleanable r = true /\ columns_ok r = false /\ e = ValueError
            /\ kept = (map normalized_row before ++ normalized_row r :: after)%list)).
Proof.
  revert rows kept. induction rs as [| r rs IH]; intros rows kept; [discriminate |].
  rewrite write_rating_rows_step.
  destruct (comment_cleanable r) eqn:Hc.
  - destruct (columns_ok r) eqn:Hk.
    + destruct (write_rating_rows rs) as [[rows' kept'] res'] eqn:E. cbn [fst snd].
      intros H. injection H as <- <- ->.
      destruct (IH _ _ eq_refl) as [before [r0 [after [-> [Hb [-> Hcase]]]]]].
      exists (r :: before), r0, after.
      split; [reflexivity | split; [| split; [reflexivity |]]].
      * cbn [forallb]. unfold writable at 1. rewrite Hc, Hk, Hb. reflexivity.
      * destruct Hcase as [[H1 [H2 ->]] | [H1 [H2 [H3 ->]]]];
          [left | right]; repeat split; assumption.
    + intros H. injection H as <- <- <-. exists [], r, rs.
      split; [reflexivity | split; [reflexivity | split; [reflexivity |]]].
      right. repeat split; try assumption; reflexivity.
  - intros H. injection H as <- <- <-. exists [], r, rs.
    split; [reflexivity | split; [reflexivity | split; [reflexivity |]]].
    left. repeat split; try assumption; reflexivity.
Qed.

(** Every rating the loop leaves in the object was there, as it is or with
    its comment normalised; every row written is a rating with its comment
    normalised. *)
Lemma write_rating_rows_spec (rs rows kept : list rating) (res : outcome unit) :
  write_rating_rows rs = (rows, kept, res) ->
  rows = map normalized_row (take_while writable rs)
  /\ length kept = length rs
  /\ (forall x, In x kept -> In x rs \/ exists r, In r rs /\ x = normalized_row r)
  /\ (forall x, In x rows -> exists r, In r rs /\ x = normalized_row r).
Proof.
  intros H. pose proof (write_rating_rows_rows rs) as Hrows. rewrite H in Hrows.
  cbn [fst] in Hrows. split; [exact Hrows |].
  split; [| split].
  - clear Hrows. revert rows kept res H. induction rs as [| r rs IH]; intros rows kept res H.
    + injection H as <- <- <-. reflexivity.
    + rewrite write_rating_rows_step in H.
      destruct (comment_cleanable r); [| injection H as <- <- <-; reflexivity].
      destruct (columns_ok r); [| injection H as <- <- <-; reflexivity].
      destruct (write_rating_rows rs) as [[rows' kept'] res'].
      injection H as <- <- <-. cbn [fst snd length].
      rewrite (IH _ _ _ eq_refl). reflexivity.
  - clear Hrows. revert rows kept res H. induction rs as [| r rs IH]; intros rows kept res H.
    + injection H as <- <- <-. intros x [].
    + rewrite write_rating_rows_step in H.
      assert (Hnorm : forall x, In x (normalized_row r :: rs) ->
                In x (r :: rs) \/ exists r0, In r0 (r :: rs) /\ x = normalized_row r0).
      { intros x [<- | Hx]; [right; exists r; split; [left |]; reflexivity |].
        left. right. exact Hx. }
      destruct (comment_cleanable r);
        [| injection H as <- <- <-; intros x Hx; left; exact Hx].
      destruct (columns_ok r); [| injection H as <- <- <-; exact Hnorm].
      destruct (write_rating_rows rs) as [[rows' kept'] res'].
      injection H as <- <- <-. cbn [fst snd].
      intros x [<- | Hx]; [right; exists r; split; [left |]; reflexivity |].
      destruct (IH _ _ _ eq_refl x Hx) as [Hin | [r0 [Hin ->]]].
      * left. right. exact Hin.
      * right. exists r0. split; [right; exact Hin | reflexivity].
  - intros x Hx. rewrite Hrows in Hx. apply in_map_iff in Hx.
    destruct Hx as [r [<- Hr]]. exists r. split; [| reflexivity].
    clear -Hr. induction rs as [| r0 rs IH]; [destruct Hr |].
    cbn [take_while] in Hr. destruct (writable r0); [| destruct Hr].
    destruct Hr as [<- | Hr]; [left; reflexivity | right; exact (IH Hr)].
Qed.

Section Csv.

Variable rt : runtime.
Variable net : network.

(** C9.  [write_ratings_to_csv] writes the ratings of the professor it looks
    up, in order, up to the first that cannot be written, each with every
    carriage return and every line feed of its comment text replaced by one
    space; when every rating can be written (its comment is absent, falsy or
    text and its keys are columns of the file), every rating is written so
    and the call does not raise.  When the lookup gives no professor, nothing
    is written.  A normalised rating differs from the rating in the text of
    its comment only; the normalised comment has the length of the original
    and differs from it only where that holds a carriage return or a line
    feed, where it holds a space; no written comment text holds either
    character. *)
Theorem written_comments_are_normalized (professor_id : pyval) (self : RateMyProfApi) :
  let got := get_professor_by_id rt net professor_id self in
  let out := write_ratings_to_csv rt net professor_id self in
  let rows := fst (fst out) in
  match fst got with
  | Ok (Some address) =>
      match nth_error (objects (snd got)) address with
      | Some professor =>
          rows = map normalized_row (take_while writable (ratings professor))
          /\ (forallb writable (ratings professor) = true ->
              rows = map normalized_row (ratings professor) /\ snd (fst out) = Ok tt)
      | None => rows = []
      end
  | _ => rows = []
  end
  /\ (forall r s,
        jdict_lookup "comment" r = Some (PStr s) ->
        jdict_lookup "comment" (normalized_row r) = Some (PStr (normalize_newlines s))
        /\ String.length (normalize_newlines s) = String.length s
        /\ forall i, get i (normalize_newlines s) =
                     option_map (fun c => if orb (Ascii.eqb c CR) (Ascii.eqb c LF)
                                          then " "%char else c)
                                (get i s))
  /\ (forall r,
        map fst (normalized_row r) = map fst r
        /\ (forall k, k <> "comment" ->
                      jdict_lookup k (normalized_row r) = jdict_lookup k r)
        /\ ((forall s, jdict_lookup "comment" r <> Some (PStr s)) -> normalized_row r = r))
  /\ (forall row s c,
        In row rows -> jdict_lookup "comment" row = Some (PStr s) ->
        In c (list_ascii_of_string s) ->
        Ascii.eqb c CR = false /\ Ascii.eqb c LF = false)
  /\ (forall s, replace_char CR " " (replace_char LF " " s) = normalize_newlines s).
Proof.
  intros got out rows.
  assert (Hin : forall row, In row rows -> exists r, row = normalized_row r).
  { subst rows out. unfold write_ratings_to_csv.
    destruct (get_professor_by_id rt net professor_id self) as [[[a |] | e] s1];
      cbv beta iota delta [fst snd]; try (intros row []).
    destruct (nth_error (objects s1) a) as [professor |]; [| intros row []].
    destruct (ratings professor) as [| r rs]; [intros row [] |].
    destruct (write_rating_rows (r :: rs)) as [[rows kept] res] eqn:Ew.
    cbv beta iota delta [fst snd]. intros row Hrow.
    destruct (write_rating_rows_spec _ _ _ _ Ew) as [_ [_ [_ H]]].
    destruct (H row Hrow) as [r0 [_ ->]]. exists r0. reflexivity. }
  split; [| split; [| split; [| split; [| exact replace_newlines_normalize]]]].
  - subst rows out got. unfold write_ratings_to_csv.
    destruct (get_professor_by_id rt net professor_id self) as [[[a |] | e] s1];
      cbv beta iota delta [fst snd]; try reflexivity.
    destruct (nth_error (objects s1) a) as [professor |]; [| reflexivity].
    destruct (ratings professor) as [| r rs] eqn:Er.
    { cbv beta iota delta [fst snd]. split; [reflexivity |]. intros _. split; reflexivity. }
    rewrite <- Er.
    pose proof (write_rating_rows_rows (ratings professor)) as Hrows.
    pose proof (write_rating_rows_all (ratings professor)) as Hall.
    destruct (write_rating_rows (ratings professor)) as [[rows kept] res].
    cbv beta iota delta [fst snd] in *.
    split; [exact Hrows |]. intros Hw. specialize (Hall Hw).
    injection Hall as -> _ ->. split; reflexivity.
  - intros r s Hl. split; [exact (normalized_row_comment r s Hl) |].
    split; [exact (normalize_newlines_length s) | exact (normalize_newlines_get s)].
  - intros r. split; [exact (normalized_row_keys r) |].
    split; [exact (normalized_row_other r) | exact (normalized_row_no_text r)].
  - intros row s c Hrow Hl Hc.
    destruct (Hin row Hrow) as [r ->].
    exact (normalized_row_clean r s c Hl Hc).
Qed.

End Csv.

(** The specification's example: "Great class", carriage return, line feed,
    "would take again" is written with two spaces in between, and the stored
    rating is changed with it. *)
Example write_ratings_to_csv_great_class :
  replace_char CR " " (replace_char LF " " great_class) = "Great class  would take again"
  /\ (let '(rows, res, self') :=
        write_ratings_to_csv example_runtime example_network (PInt 9) session_with_comments in
      map (jdict_lookup "comment") rows
        = [Some (PStr "Great class  would take again"); Some (PStr "fine")]
      /\ res = Ok tt
      /\ option_map (fun p => map (jdict_lookup "comment") (ratings p)) (nth_error (objects self') 0)
         = Some [Some (PStr "Great class  would take again"); Some (PStr "fine")]
      /\ requested self' = []).
Proof. repeat split. Qed.

(** ** The invariant of the professor mapping under every operation *)

Lemma heap_update_nth (h : list Professor) (address : nat) (p q : Professor) (a : nat) :
  nth_error h address = Some q ->
  nth_error (heap_update h address p) a =
    if Nat.eqb a address then Some p else nth_error h a.
Proof.
  revert address a. induction h as [| x h IH]; intros address a; [destruct address; discriminate |].
  destruct address as [| n]; simpl.
  - intros _. destruct a; reflexivity.
  - intros H. destruct a as [| a]; simpl; [reflexivity | exact (IH n a H)].
Qed.

Section Invariant.

Variable rt : runtime.
Variable net : network.

(** An address [get_professor_by_id] returns refers to an object. *)
Lemma get_professor_by_id_address (professor_id : pyval) (self : RateMyProfApi) (address : nat) :
  mapping_ok self ->
  fst (get_professor_by_id rt net professor_id self) = Ok (Some address) ->
  exists p, nth_error (objects (snd (get_professor_by_id rt net professor_id self))) address
            = Some p.
Proof.
  intros Hok Hres.
  destruct (get_professor_by_id rt net professor_id self) as [res s'] eqn:E.
  simpl in *. subst res.
  destruct (get_professor_by_id_cases rt net _ _ _ _ E)
    as [[_ [_ Hhit]] | [p [_ [Ha [_ [_ [Ho _]]]]]]].
  - destruct (Hhit address eq_refl) as [Hl ->].
    assert (Hin : exists k, In (k, address) (professors self)).
    { clear -Hl. induction (professors self) as [| [k a] d IH]; simpl in Hl; [discriminate |].
      destruct (py_key_eq k professor_id).
      - injection Hl as ->. exists k. left. reflexivity.
      - destruct (IH Hl) as [k' H]. exists k'. right. exact H. }
    destruct Hin as [k Hin]. destruct (Hok k address Hin) as [p [Hp _]].
    exists p. exact Hp.
  - injection Ha as ->. exists p. rewrite Ho.
    rewrite nth_error_app2, Nat.sub_diag; [reflexivity | lia].
Qed.

Lemma search_professor_keeps_invariant (query : string) (self : RateMyProfApi) :
  mapping_ok self -> mapping_ok (snd (search_professor rt net query self)).
Proof.
  destruct (search_professor_cases rt net query self) as [Hp [Ho _]].
  exact (mapping_ok_frame _ _ Hp Ho).
Qed.

Lemma get_professor_by_name_keeps_invariant (query_name : string) (self : RateMyProfApi) :
  mapping_ok self -> mapping_ok (snd (get_professor_by_name rt net query_name self)).
Proof.
  intros Hok. unfold get_professor_by_name.
  pose proof (search_professor_keeps_invariant query_name self Hok) as H1.
  destruct (search_professor rt net query_name self) as [[[| p0 ps] | e] s1];
    simpl in H1; try exact H1.
  destruct (2 <=? length (str_split rt (str_lower rt query_name)))%nat.
  - destruct (find_exact_match rt _ _ (p0 :: ps)) as [[prof |] | e]; simpl; try exact H1;
      apply get_professor_by_id_keeps_invariant; exact H1.
  - apply get_professor_by_id_keeps_invariant. exact H1.
Qed.

Lemma write_ratings_to_csv_keeps_invariant (professor_id : pyval) (self : RateMyProfApi) :
  mapping_ok self -> mapping_ok (snd (write_ratings_to_csv rt net professor_id self)).
Proof.
  intros Hok. unfold write_ratings_to_csv.
  pose proof (get_professor_by_id_keeps_invariant rt net professor_id self Hok) as H1.
  destruct (get_professor_by_id rt net professor_id self) as [[[a |] | e] s1];
    cbv beta iota delta [fst snd] in *; try exact H1.
  destruct (nth_error (objects s1) a) as [professor |] eqn:En; [| exact H1].
  destruct (ratings professor) as [| r rs]; [exact H1 |].
  destruct (write_rating_rows (r :: rs)) as [[rows kept] res].
  cbv beta iota delta [fst snd].
  intros k a' Hin. simpl in Hin. destruct (H1 k a' Hin) as [q [Hq Hm]]. simpl.
  rewrite (heap_update_nth _ _ _ _ _ En).
  destruct (Nat.eqb a' a) eqn:Ea.
  - apply Nat.eqb_eq in Ea. subst a'. rewrite En in Hq. injection Hq as <-.
    eexists. split; [reflexivity | exact Hm].
  - exists q. split; assumption.
Qed.

(** Every entry of the extraction's result comes from a teacher record the
    loop resolved: the Professor carries the record's [legacyId], and the
    key stands for it. *)
Lemma process_entry_origin (relay_data : store) (result : pydict Professor)
    (k : pyval) (p : Professor) :
  _process_professor_search_data rt relay_data = Ok result ->
  In (k, p) result ->
  exists edge_ref d,
    resolve_edge "Teacher" relay_data edge_ref = Ok (Some (PDict d))
    /\ truthy (jdict_get d "legacyId" PNone) = true
    /\ ratemyprof_id p = jdict_get d "legacyId" PNone
    /\ key_matches k (jdict_get d "legacyId" PNone).
Proof.
  intros H Hin. pose proof (proj1 (process_keyed rt _ _ H)) as Hkey.
  rewrite process_as_loop in H. apply bind_Ok in H. destruct H as [refs [_ H]].
  destruct (process_edges_origin rt _ _ _ _ _ _ H Hin)
    as [[k0 []] | [edge_ref [prof_data [_ [Hres Hp]]]]].
  destruct (professor_of_record_some rt _ _ _ Hp) as [d [-> [Ht [Hid _]]]].
  exists edge_ref, d. rewrite <- Hid.
  split; [exact Hres | split; [rewrite Hid; exact Ht | split; [reflexivity |]]].
  exact (Hkey k p Hin).
Qed.

(** C10.  Search extraction returns a mapping in which every key stands for
    the id of the Professor under it, and that id is the [legacyId] of the
    teacher record the Professor was built from; so is the mapping a new
    session starts with; [get_professor_by_id] keeps it so, and so do the
    other operations of a session; when [get_professor_by_id] fetches a
    detail page, the new object carries the [legacyId] of the page's teacher
    record and goes under that id, whatever id was asked for. *)
Theorem professor_mapping_invariant :
  (forall relay_data result,
     _process_professor_search_data rt relay_data = Ok result ->
     keyed_by_own_id result
     /\ forall k p, In (k, p) result ->
          exists edge_ref d,
            resolve_edge "Teacher" relay_data edge_ref = Ok (Some (PDict d))
            /\ truthy (jdict_get d "legacyId" PNone) = true
            /\ ratemyprof_id p = jdict_get d "legacyId" PNone
            /\ key_matches k (jdict_get d "legacyId" PNone))
  /\ (forall sid testing, mapping_ok (snd (RateMyProfApi_init rt net sid testing)))
  /\ (forall professor_id self,
        mapping_ok self -> mapping_ok (snd (get_professor_by_id rt net professor_id self)))
  /\ (forall query self,
        mapping_ok self -> mapping_ok (snd (search_professor rt net query self)))
  /\ (forall query_name self,
        mapping_ok self -> mapping_ok (snd (get_professor_by_name rt net query_name self)))
  /\ (forall professor_id self,
        mapping_ok self -> mapping_ok (snd (write_ratings_to_csv rt net professor_id self)))
  /\ (forall professor_id self address,
        pydict_lookup professor_id (professors self) = None ->
        fst (get_professor_by_id rt net professor_id self) = Ok (Some address) ->
        exists p k relay_data d,
          nth_error (objects (snd (get_professor_by_id rt net professor_id self))) address = Some p
          /\ In (k, address) (professors (snd (get_professor_by_id rt net professor_id self)))
          /\ key_matches k (ratemyprof_id p)
          /\ _extract_relay_data rt
               (text (net (length (requested self)) (professor_url rt professor_id)))
             = Ok relay_data
          /\ find_typed "VGVhY2hlci0" "Teacher" relay_data = Ok (PDict d)
          /\ truthy (jdict_get d "legacyId" PNone) = true
          /\ ratemyprof_id p = jdict_get d "legacyId" PNone
          /\ key_matches k (jdict_get d "legacyId" PNone)).
Proof.
  split; [| split; [| split; [| split; [| split; [| split]]]]].
  - intros relay_data result H. split; [exact (proj1 (process_keyed rt _ _ H)) |].
    intros k p Hin. exact (process_entry_origin relay_data result k p H Hin).
  - exact (RateMyProfApi_init_invariant rt net).
  - exact (get_professor_by_id_keeps_invariant rt net).
  - exact search_professor_keeps_invariant.
  - exact get_professor_by_name_keeps_invariant.
  - exact write_ratings_to_csv_keeps_invariant.
  - intros professor_id self address Hmiss Hres.
    destruct (get_professor_by_id rt net professor_id self) as [res s'] eqn:E.
    simpl in *. subst res.
    destruct (get_professor_by_id_new rt net _ _ _ _ Hmiss E)
      as [rd [pd [made [rs [Hrd [Hfind [Hmade [_ [Ha [Hp Ho]]]]]]]]]].
    destruct (professor_of_record_some rt _ _ _ Hmade) as [d [-> [Ht [Hid _]]]].
    destruct (pydict_set_has (ratemyprof_id made) address (professors self))
      as [k [Hin Hk]].
    exists (set_ratings made rs), k, rd, d. rewrite Hp, Ho.
    change (ratemyprof_id (set_ratings made rs)) with (ratemyprof_id made).
    rewrite <- Hid.
    repeat split; try assumption.
    + subst address. rewrite nth_error_app2, Nat.sub_diag; [reflexivity | lia].
    + rewrite Hid. exact Ht.
Qed.

End Invariant.

(** * The properties on the worked inputs *)



(** Each condition of a well-linked store is there for a reason: on a store
    that breaks one, the extraction raises. *)
Example broken_stores_raise :
  map (fun relay_data => store_ok example_runtime relay_data) broken_stores
  = [false; false; false; false; false; false; false; false]
  /\ map (fun relay_data => _process_professor_search_data example_runtime relay_data)
         broken_stores
     = [Raise TypeError; Raise AttributeError; Raise TypeError; Raise TypeError;
        Raise TypeError; Raise TypeError; Raise TypeError; Raise TypeError].
Proof. split; reflexivity. Qed.

(** What the extraction makes of the store full of missing links: the one
    sound professor. *)
Example sparse_store_result :
  match _process_professor_search_data example_runtime sparse_store with
  | Ok result => map (fun kp => (fst kp, name (snd kp))) result = [(PInt 55, "Eve ")]
  | Raise _ => False
  end.
Proof. reflexivity. Qed.

(** C3, as stated, fails: the edge resolves to a teacher record whose
    [legacyId] is 0, which is not null, and the record is skipped. *)
Lemma legacy_id_zero_is_skipped :
  resolve_edge "Teacher" zero_id_store (PStr "e1") = Ok (Some (teacher (PInt 0) "Ann" "Lee" 3))
  /\ py_get (teacher (PInt 0) "Ann" "Lee" 3) "legacyId" PNone = Ok (PInt 0)
  /\ _process_professor_search_data example_runtime zero_id_store = Ok [].
Proof. repeat split. Qed.

(** The theorem for C3 on the Amy page. *)
Lemma search_extraction_gates_on_legacy_id_witness :
  _process_professor_search_data example_runtime amy_store = Ok amy_result
  /\ exists edge_refs,
       search_edge_refs amy_store = Ok edge_refs
       /\ (forall k p, In (k, p) amy_result ->
             key_matches k (ratemyprof_id p)
             /\ truthy (ratemyprof_id p) = true
             /\ exists edge_ref d,
                  In edge_ref edge_refs
                  /\ resolve_edge "Teacher" amy_store edge_ref = Ok (Some (PDict d))
                  /\ professor_of_record example_runtime amy_store (PDict d) = Ok (Some p)
                  /\ ratemyprof_id p = jdict_get d "legacyId" PNone)
       /\ (forall edge_ref d,
             In edge_ref edge_refs ->
             resolve_edge "Teacher" amy_store edge_ref = Ok (Some (PDict d)) ->
             if truthy (jdict_get d "legacyId" PNone)
             then exists k p, In (k, p) amy_result
                              /\ key_matches k (jdict_get d "legacyId" PNone)
             else professor_of_record example_runtime amy_store (PDict d) = Ok None).
Proof.
  split; [reflexivity |].
  exact (search_extraction_gates_on_legacy_id example_runtime amy_store amy_result eq_refl).
Defined.



(** The theorem for C5 on the session that holds teacher 9: asked for 9.0,
    which as a key is equal to 9, the lookup returns the stored object and
    the session is as before. *)
Lemma get_professor_by_id_cached_witness :
  pydict_lookup (PFloat (S754_finite false 9 0)) (professors session_with_9) = Some 0%nat
  /\ get_professor_by_id example_runtime example_network (PFloat (S754_finite false 9 0))
       session_with_9 = (Ok (Some 0%nat), session_with_9)
  /\ get_professor_by_id example_runtime example_network (PFloat (S754_finite false 9 0))
       (snd (get_professor_by_id example_runtime example_network
               (PFloat (S754_finite false 9 0)) session_with_9))
     = (Ok (Some 0%nat), session_with_9).
Proof.
  split; [reflexivity |].
  exact (get_professor_by_id_cached example_runtime example_network
           (PFloat (S754_finite false 9 0)) session_with_9 0%nat eq_refl).
Defined.



(** A query of one token reads no name: on the page of the professor without
    a first name, "Smith" falls back to the first result, teacher 41, and
    asks for its page. *)
Example get_professor_by_name_one_token :
  get_professor_by_name example_runtime null_name_network "Smith" new_session
     = (Ok None,
        snd (get_professor_by_name example_runtime null_name_network "Smith" new_session))
  /\ requested (snd (get_professor_by_name example_runtime null_name_network "Smith"
                       new_session))
     = ["https://www.ratemyprofessors.com/search/professors/?q=Smith";
        "https://www.ratemyprofessors.com/professor/41"].
Proof. repeat split. Qed.

(** C10 on a detail page that carries another id than the one asked for:
    asked for 7, the page describes teacher 9, and the object is entered
    under 9. *)
Example get_professor_by_id_other_id :
  let out := get_professor_by_id example_runtime example_network (PInt 7) new_session in
  fst out = Ok (Some 0%nat)
  /\ professors (snd out) = [(PInt 9, 0%nat)]
  /\ option_map ratemyprof_id (nth_error (objects (snd out)) 0) = Some (PInt 9)
  /\ requested (snd out) = ["https://www.ratemyprofessors.com/professor/7"].
Proof. repeat split. Qed.

(** * Further properties of the code *)

(** ** Keys of the professor mapping

    Equality of keys is symmetric and transitive; it is reflexive on every
    hashable value but NaN. *)

Lemma dyadic_eq_scaled (n1 e1 n2 e2 m : Z) :
  m <= e1 -> m <= e2 ->
  (n1 * 2 ^ (e1 - Z.min e1 e2) = n2 * 2 ^ (e2 - Z.min e1 e2)
   <-> n1 * 2 ^ (e1 - m) = n2 * 2 ^ (e2 - m)).
Proof.
  intros H1 H2.
  assert (Hpos : 0 < 2 ^ (Z.min e1 e2 - m)) by (apply Z.pow_pos_nonneg; lia).
  replace (e1 - m) with ((e1 - Z.min e1 e2) + (Z.min e1 e2 - m)) by lia.
  replace (e2 - m) with ((e2 - Z.min e1 e2) + (Z.min e1 e2 - m)) by lia.
  rewrite !Z.pow_add_r by lia. rewrite !Z.mul_assoc.
  split; intros H.
  - rewrite H. reflexivity.
  - apply Z.mul_cancel_r in H; [exact H | lia].
Qed.

Lemma num_compare_eq_sym (x y : num) :
  num_compare x y = Some Eq -> num_compare y x = Some Eq.
Proof.
  destruct x as [| s1 | n1 e1], y as [| s2 | n2 e2]; simpl; try discriminate.
  - destruct s1, s2; try discriminate; reflexivity.
  - destruct s1; discriminate.
  - destruct s2; discriminate.
  - intros H. injection H as H. apply Z.compare_eq_iff in H.
    f_equal. apply Z.compare_eq_iff. rewrite (Z.min_comm e2 e1). symmetry. exact H.
Qed.

Lemma num_compare_eq_trans (x y z : num) :
  num_compare x y = Some Eq -> num_compare y z = Some Eq -> num_compare x z = Some Eq.
Proof.
  destruct x as [| s1 | n1 e1], y as [| s2 | n2 e2], z as [| s3 | n3 e3]; simpl;
    try discriminate;
    try (destruct s1; discriminate); try (destruct s2; discriminate);
    try (destruct s3; discriminate).
  - destruct s1, s2, s3; try discriminate; reflexivity.
  - intros H12 H23. injection H12 as H12. injection H23 as H23.
    apply Z.compare_eq_iff in H12, H23. f_equal. apply Z.compare_eq_iff.
    set (m := Z.min e1 (Z.min e2 e3)).
    apply (dyadic_eq_scaled n1 e1 n2 e2 m) in H12; [| lia | lia].
    apply (dyadic_eq_scaled n2 e2 n3 e3 m) in H23; [| lia | lia].
    apply (dyadic_eq_scaled n1 e1 n3 e3 m); [lia | lia |]. congruence.
Qed.

(** Equality of two numbers as keys. *)
Lemma py_key_eq_numbers (a b : pyval) (x y : num) :
  num_of a = Some x -> num_of b = Some y ->
  py_key_eq a b = match num_compare x y with Some Eq => true | _ => false end.
Proof.
  intros Ha Hb. unfold py_key_eq.
  destruct a; try discriminate Ha; destruct b; try discriminate Hb;
    rewrite Ha, Hb; reflexivity.
Qed.

(** Equal keys are both [None], the same text, or two equal numbers. *)
Lemma py_key_eq_true (a b : pyval) :
  py_key_eq a b = true ->
  (a = PNone /\ b = PNone)
  \/ (exists s, a = PStr s /\ b = PStr s)
  \/ (exists x y, num_of a = Some x /\ num_of b = Some y /\ num_compare x y = Some Eq).
Proof.
  intros H.
  destruct (num_of a) as [x |] eqn:Ea.
  - destruct (num_of b) as [y |] eqn:Eb.
    + right. right. exists x, y. rewrite (py_key_eq_numbers a b x y Ea Eb) in H.
      destruct (num_compare x y) as [[ | | ] |]; try discriminate H.
      repeat split; reflexivity.
    + exfalso. unfold py_key_eq in H.
      destruct a; try discriminate Ea; destruct b; try discriminate H;
        rewrite Ea, Eb in H; discriminate H.
  - unfold py_key_eq in H.
    destruct a as [| | | f | | |]; try discriminate Ea; try (destruct f; discriminate Ea);
      destruct b as [| | | g | | |]; try discriminate H;
      try (destruct (num_of (PFloat g)); discriminate H).
    + left. split; reflexivity.
    + right. left. apply String.eqb_eq in H. subst. eexists. split; reflexivity.
Qed.

Lemma py_key_eq_sym (a b : pyval) : py_key_eq a b = true -> py_key_eq b a = true.
Proof.
  intros H.
  destruct (py_key_eq_true a b H) as [[-> ->] | [[s [-> ->]] | [x [y [Ha [Hb Hc]]]]]].
  - reflexivity.
  - simpl. apply String.eqb_refl.
  - rewrite (py_key_eq_numbers b a y x Hb Ha), (num_compare_eq_sym x y Hc). reflexivity.
Qed.

Lemma py_key_eq_trans (a b c : pyval) :
  py_key_eq a b = true -> py_key_eq b c = true -> py_key_eq a c = true.
Proof.
  intros Hab Hbc.
  destruct (py_key_eq_true a b Hab) as [[-> ->] | [[s [-> ->]] | [x [y [Ha [Hb Hc]]]]]];
    try exact Hbc.
  destruct (py_key_eq_true b c Hbc) as [[-> _] | [[s [-> _]] | [y' [z [Hb' [Hz Hc']]]]]];
    try discriminate Hb.
  rewrite Hb in Hb'. injection Hb' as <-.
  rewrite (py_key_eq_numbers a c x z Ha Hz), (num_compare_eq_trans x y z Hc Hc'). reflexivity.
Qed.

(** A key that is equal to some key is equal to itself. *)
Lemma py_key_eq_refl_of (a b : pyval) : py_key_eq a b = true -> py_key_eq a a = true.
Proof. intros H. exact (py_key_eq_trans a b a H (py_key_eq_sym a b H)). Qed.

(** Every hashable value but NaN is equal to itself as a key. *)
Lemma py_key_eq_refl (a : pyval) :
  is_hashable a = true -> a <> PFloat S754_nan -> py_key_eq a a = true.
Proof.
  intros Hh Hn. destruct a; try discriminate Hh; simpl; try reflexivity.
  - destruct b; reflexivity.
  - rewrite Z.compare_refl. reflexivity.
  - destruct f as [s | s | | s m e]; simpl; try reflexivity.
    + destruct s; reflexivity.
    + contradiction Hn. reflexivity.
    + rewrite Z.compare_refl. reflexivity.
  - apply String.eqb_refl.
Qed.

(** Equal keys find the same entry. *)
Lemma py_key_eq_compat (k k1 k2 : pyval) :
  py_key_eq k1 k2 = true -> py_key_eq k k1 = py_key_eq k k2.
Proof.
  intros H.
  destruct (py_key_eq k k1) eqn:E1, (py_key_eq k k2) eqn:E2; try reflexivity.
  - rewrite (py_key_eq_trans k k1 k2 E1 H) in E2. discriminate E2.
  - rewrite (py_key_eq_trans k k2 k1 E2 (py_key_eq_sym _ _ H)) in E1. discriminate E1.
Qed.

Section PyDictLaws.

Context {V : Type}.

Lemma pydict_lookup_compat (k1 k2 : pyval) (d : pydict V) :
  py_key_eq k1 k2 = true -> pydict_lookup k1 d = pydict_lookup k2 d.
Proof.
  intros H. induction d as [| [k v] d IH]; simpl; [reflexivity |].
  rewrite (py_key_eq_compat k k1 k2 H), IH. reflexivity.
Qed.

Lemma pydict_lookup_set_same (k : pyval) (v : V) (d : pydict V) :
  py_key_eq k k = true -> pydict_lookup k (pydict_set k v d) = Some v.
Proof.
  intros Hk. induction d as [| [k0 v0] d IH]; simpl.
  - rewrite Hk. reflexivity.
  - destruct (py_key_eq k0 k) eqn:E; simpl; rewrite E; [reflexivity | exact IH].
Qed.

Lemma pydict_lookup_set_other (k k' : pyval) (v : V) (d : pydict V) :
  py_key_eq k k' = false -> pydict_lookup k' (pydict_set k v d) = pydict_lookup k' d.
Proof.
  intros Hk. induction d as [| [k0 v0] d IH]; simpl.
  - rewrite Hk. reflexivity.
  - destruct (py_key_eq k0 k) eqn:E; simpl.
    + destruct (py_key_eq k0 k') eqn:E'; [| reflexivity].
      rewrite (py_key_eq_trans k k0 k' (py_key_eq_sym _ _ E) E') in Hk. discriminate Hk.
    + rewrite IH. reflexivity.
Qed.

(** Insert and look up.  After [d[k] = v], a key equal to [k] finds [v], and
    any other key finds what it found before; the assignment raises exactly
    for an unhashable key. *)
Lemma pydict_setitem_lookup (k k' : pyval) (v : V) (d : pydict V) :
  (is_hashable k = false -> pydict_setitem k v d = Raise TypeError)
  /\ (is_hashable k = true ->
      pydict_setitem k v d = Ok (pydict_set k v d)
      /\ (py_key_eq k k' = true -> pydict_lookup k' (pydict_set k v d) = Some v)
      /\ (py_key_eq k k' = false ->
          pydict_lookup k' (pydict_set k v d) = pydict_lookup k' d)).
Proof.
  unfold pydict_setitem. split; intros Hh; rewrite Hh; [reflexivity |].
  split; [reflexivity | split].
  - intros Hk.
    rewrite <- (pydict_lookup_compat k k' _ Hk).
    exact (pydict_lookup_set_same k v d (py_key_eq_refl_of k k' Hk)).
  - exact (pydict_lookup_set_other k k' v d).
Qed.

End PyDictLaws.

(** ** Search extraction: one entry for each id *)

Lemma distinct_keys_lookup {V : Type} (d : pydict V) (k : pyval) (v : V) :
  distinct_keys d -> In (k, v) d -> py_key_eq k k = true -> pydict_lookup k d = Some v.
Proof.
  induction d as [| [k0 v0] d IH]; simpl; [intros _ [] |].
  intros [Hk0 Hd] [Hin | Hin] Hk.
  - injection Hin as -> ->. rewrite Hk. reflexivity.
  - rewrite (Hk0 k v Hin). exact (IH Hd Hin Hk).
Qed.

Section Duplicates.

Variable rt : runtime.

Lemma process_edges_app (relay_data : store) (l1 l2 : list pyval) (acc : pydict Professor) :
  process_edges rt relay_data (l1 ++ l2) acc =
    (mid <- process_edges rt relay_data l1 acc ;; process_edges rt relay_data l2 mid).
Proof.
  revert acc. induction l1 as [| r l1 IH]; intros acc; simpl; [reflexivity |].
  destruct (resolve_edge "Teacher" relay_data r) as [[pd |] | e]; simpl; try reflexivity;
    [| exact (IH acc)].
  destruct (professor_of_record rt relay_data pd) as [[p |] | e] eqn:Hp; simpl;
    try reflexivity; [| exact (IH acc)].
  rewrite (professor_of_record_id rt _ _ _ Hp). simpl.
  destruct (pydict_setitem (ratemyprof_id p) p acc) as [acc' | e]; simpl;
    [exact (IH acc') | reflexivity].
Qed.

(** An entry stays what it is while the loop enters no professor with an
    equal id. *)
Lemma process_edges_keeps_entry (relay_data : store) (edge_refs : list pyval)
    (acc result : pydict Professor) (k : pyval) (p : Professor) :
  process_edges rt relay_data edge_refs acc = Ok result ->
  pydict_lookup k acc = Some p ->
  (forall edge_ref prof_data p',
     In edge_ref edge_refs ->
     resolve_edge "Teacher" relay_data edge_ref = Ok (Some prof_data) ->
     professor_of_record rt relay_data prof_data = Ok (Some p') ->
     py_key_eq (ratemyprof_id p') k = false) ->
  pydict_lookup k result = Some p.
Proof.
  revert acc. induction edge_refs as [| r rest IH]; intros acc H Hl Hother.
  - simpl in H. injection H as <-. exact Hl.
  - apply process_edges_step in H.
    destruct H as [[H _] | [pd [q [Hres [Hq [_ H]]]]]].
    + apply (IH acc H Hl). intros r' pd' p' Hin. apply Hother. right. exact Hin.
    + apply (IH _ H).
      * rewrite (pydict_lookup_set_other _ _ _ _ (Hother r pd q (or_introl eq_refl) Hres Hq)).
        exact Hl.
      * intros r' pd' p' Hin. apply Hother. right. exact Hin.
Qed.

(** X1.  The last record wins.  When several teacher records of a page carry
    equal ids, the result holds, under that id, the Professor of the last of
    them in the order of the edges. *)
Theorem process_last_record_wins (relay_data : store) (result : pydict Professor)
    (before after : list pyval) (edge_ref prof_data : pyval) (p : Professor) :
  _process_professor_search_data rt relay_data = Ok result ->
  search_edge_refs relay_data = Ok (before ++ edge_ref :: after)%list ->
  resolve_edge "Teacher" relay_data edge_ref = Ok (Some prof_data) ->
  professor_of_record rt relay_data prof_data = Ok (Some p) ->
  py_key_eq (ratemyprof_id p) (ratemyprof_id p) = true ->
  (forall edge_ref' prof_data' p',
     In edge_ref' after ->
     resolve_edge "Teacher" relay_data edge_ref' = Ok (Some prof_data') ->
     professor_of_record rt relay_data prof_data' = Ok (Some p') ->
     py_key_eq (ratemyprof_id p') (ratemyprof_id p) = false) ->
  pydict_lookup (ratemyprof_id p) result = Some p.
Proof.
  rewrite process_as_loop. intros H Hrefs Hres Hp Hid Hafter.
  rewrite Hrefs in H. simpl in H. rewrite process_edges_app in H.
  apply bind_Ok in H. destruct H as [mid [_ H]].
  apply process_edges_step in H.
  destruct H as [[_ Hno] | [pd [q [Hres' [Hq [_ H]]]]]].
  - exfalso. exact (Hno prof_data p Hres Hp).
  - rewrite Hres in Hres'. injection Hres' as <-. rewrite Hp in Hq. injection Hq as <-.
    apply (process_edges_keeps_entry _ _ _ _ _ _ H); [| exact Hafter].
    exact (pydict_lookup_set_same _ _ _ Hid).
Qed.

(** X2.  Lookup by a professor's own id.  The result of the extraction holds no
    two equal keys, at most one entry for each edge, and every Professor in
    it is what a lookup by its own id finds. *)
Theorem process_lookup_by_own_id (relay_data : store) (result : pydict Professor) :
  _process_professor_search_data rt relay_data = Ok result ->
  distinct_keys result
  /\ (exists edge_refs, search_edge_refs relay_data = Ok edge_refs
                        /\ (length result <= length edge_refs)%nat)
  /\ (forall k p, In (k, p) result ->
        py_key_eq (ratemyprof_id p) (ratemyprof_id p) = true ->
        pydict_lookup (ratemyprof_id p) result = Some p).
Proof.
  intros H. pose proof H as Hloop. rewrite process_as_loop in Hloop.
  apply bind_Ok in Hloop. destruct Hloop as [refs [Hrefs Hloop]].
  assert (Hd : distinct_keys result) by exact (process_edges_distinct rt _ _ [] _ I Hloop).
  split; [exact Hd | split].
  - exists refs. split; [exact Hrefs |].
    assert (Hlen : forall l acc res, process_edges rt relay_data l acc = Ok res ->
                     (length res <= length acc + length l)%nat).
    { clear. induction l as [| r l IH]; intros acc res H.
      - simpl in H. injection H as <-. simpl. lia.
      - apply process_edges_step in H.
        destruct H as [[H _] | [pd [q [_ [_ [_ H]]]]]].
        + specialize (IH _ _ H). simpl. lia.
        + specialize (IH _ _ H).
          assert (Hs : (length (pydict_set (ratemyprof_id q) q acc) <= S (length acc))%nat).
          { clear. induction acc as [| [k v] acc IHa]; simpl; [lia |].
            destruct (py_key_eq k (ratemyprof_id q)); simpl; lia. }
          simpl. lia. }
    exact (Hlen refs [] result Hloop).
  - intros k p Hin Hid.
    assert (Hkey : keyed_by_own_id result).
    { refine (process_edges_keyed rt _ _ _ _ _ Hloop). intros k0 p0 []. }
    assert (Hk : py_key_eq k (ratemyprof_id p) = true).
    { destruct (Hkey k p Hin) as [-> | Hk]; [exact Hid | exact Hk]. }
    rewrite <- (pydict_lookup_compat k (ratemyprof_id p) result Hk).
    exact (distinct_keys_lookup result k p Hd Hin (py_key_eq_refl_of _ _ Hk)).
Qed.

End Duplicates.

(** ** What a session operation changes *)

Lemma pydict_lookup_In {V : Type} (k : pyval) (d : pydict V) (v : V) :
  pydict_lookup k d = Some v -> exists k', In (k', v) d /\ py_key_eq k' k = true.
Proof.
  induction d as [| [k0 v0] d IH]; simpl; [discriminate |].
  destruct (py_key_eq k0 k) eqn:E.
  - intros H. injection H as ->. exists k0. split; [left; reflexivity | exact E].
  - intros H. destruct (IH H) as [k' [Hin Hk]]. exists k'. split; [right; exact Hin | exact Hk].
Qed.

Section SessionEffects.

Variable rt : runtime.
Variable net : network.

(** X3.  When [get_professor_by_id] gives no professor.  An unhashable id raises
    [TypeError] before anything is requested.  For an id the mapping does not
    hold, a response other than 200 and a page without a store give [None]
    after one request.  Whenever the result is not a professor, mapping and
    objects are as before: a failure is not remembered. *)
Theorem get_professor_by_id_without_result (professor_id : pyval) (self : RateMyProfApi) :
  let out := get_professor_by_id rt net professor_id self in
  let resp := net (length (requested self)) (professor_url rt professor_id) in
  (is_hashable professor_id = false -> out = (Raise TypeError, self))
  /\ (is_hashable professor_id = true ->
      pydict_lookup professor_id (professors self) = None ->
      status_code resp <> 200 \/ _extract_relay_data rt (text resp) = Ok [] ->
      out = (Ok None, snd (fetch net (professor_url rt professor_id) self)))
  /\ (match fst out with
      | Ok (Some _) => True
      | _ => professors (snd out) = professors self /\ objects (snd out) = objects self
      end).
Proof.
  intros out resp. split; [| split].
  - intros Hh. subst out. unfold get_professor_by_id. rewrite Hh. reflexivity.
  - intros Hh Hl Hfail. subst out resp. unfold professor_url in *.
    unfold get_professor_by_id, fetch. rewrite Hh, Hl.
    cbv beta iota delta [negb snd].
    destruct (status_code _ =? 200) eqn:Es; [| reflexivity].
    destruct Hfail as [Hs | He].
    + apply Z.eqb_eq in Es. contradiction.
    + rewrite He. reflexivity.
  - destruct out as [res s'] eqn:E. subst out.
    destruct (get_professor_by_id_cases rt net _ _ _ _ E)
      as [[Hp [Ho _]] | [p [_ [-> _]]]]; simpl.
    + destruct res as [[a |] | e]; [exact I | split; assumption | split; assumption].
    + exact I.
Qed.

Lemma get_professor_by_id_grows (professor_id : pyval) (self : RateMyProfApi) :
  let out := get_professor_by_id rt net professor_id self in
  (exists new_objects,
     objects (snd out) = (objects self ++ new_objects)%list /\ (length new_objects <= 1)%nat)
  /\ (exists new_requests,
        requested (snd out) = (requested self ++ new_requests)%list
        /\ (length new_requests <= 1)%nat)
  /\ (forall k address, In (k, address) (professors self) ->
        exists address', In (k, address') (professors (snd out))).
Proof.
  intros out.
  assert (Hreq : exists new_requests,
            requested (snd out) = (requested self ++ new_requests)%list
            /\ (length new_requests <= 1)%nat).
  { subst out. unfold get_professor_by_id.
    destruct (negb (is_hashable professor_id)); [exists []; rewrite app_nil_r; split; [reflexivity | simpl; lia] |].
    destruct (pydict_lookup professor_id (professors self));
      [exists []; rewrite app_nil_r; split; [reflexivity | simpl; lia] |].
    unfold fetch.
    destruct (negb (status_code _ =? 200)); [eexists [_]; split; [reflexivity | simpl; lia] |].
    destruct (_extract_relay_data rt _) as [[| kv rd] | e];
      try (eexists [_]; split; [reflexivity | simpl; lia]).
    destruct (professor_from_detail rt (kv :: rd) _) as [[[a s2] |] | e] eqn:Hd;
      try (eexists [_]; split; [reflexivity | simpl; lia]).
    destruct (professor_from_detail_some rt _ _ _ _ Hd) as [pd [made [rs [_ [_ [_ [_ [_ ->]]]]]]]].
    eexists [_]. split; [reflexivity | simpl; lia]. }
  destruct out as [res s'] eqn:E. subst out.
  destruct (get_professor_by_id_cases rt net _ _ _ _ E)
    as [[Hp [Ho _]] | [p [_ [_ [_ [Hp [Ho _]]]]]]]; simpl in *.
  - split; [exists []; rewrite app_nil_r; split; [exact Ho | simpl; lia] |].
    split; [exact Hreq |].
    intros k a Hin. exists a. rewrite Hp. exact Hin.
  - split; [exists [p]; split; [exact Ho | simpl; lia] |].
    split; [exact Hreq |].
    intros k a Hin. rewrite Hp. exact (pydict_set_keeps_keys _ _ _ _ _ Hin).
Qed.

(** X4.  [get_professor_by_id] only adds.  It makes at most one request, appends
    at most one object and leaves the objects there as they are, and every
    key of the mapping stays a key. *)
Theorem get_professor_by_id_only_adds (professor_id : pyval) (self : RateMyProfApi) :
  let out := get_professor_by_id rt net professor_id self in
  (exists new_objects,
     objects (snd out) = (objects self ++ new_objects)%list /\ (length new_objects <= 1)%nat)
  /\ (exists new_requests,
        requested (snd out) = (requested self ++ new_requests)%list
        /\ (length new_requests <= 1)%nat)
  /\ (forall k address, In (k, address) (professors self) ->
        exists address', In (k, address') (professors (snd out))).
Proof. exact (get_professor_by_id_grows professor_id self). Qed.

(** X5.  A professor can be got again under its own id.  In a session whose
    mapping is keyed by the professors' ids, the professor
    [get_professor_by_id] returns, whether it was stored or fetched, is found
    again under its own [ratemyprof_id] (unless that is NaN), without a
    request. *)
Theorem get_professor_by_id_again (professor_id : pyval) (self : RateMyProfApi)
    (address : nat) (p : Professor) :
  mapping_ok self ->
  fst (get_professor_by_id rt net professor_id self) = Ok (Some address) ->
  nth_error (objects (snd (get_professor_by_id rt net professor_id self))) address = Some p ->
  py_key_eq (ratemyprof_id p) (ratemyprof_id p) = true ->
  get_professor_by_id rt net (ratemyprof_id p)
    (snd (get_professor_by_id rt net professor_id self))
  = (Ok (Some address), snd (get_professor_by_id rt net professor_id self)).
Proof.
  intros Hok Hres Hp Hid.
  destruct (get_professor_by_id rt net professor_id self) as [res s'] eqn:E.
  simpl in *. subst res.
  assert (Hl : pydict_lookup (ratemyprof_id p) (professors s') = Some address).
  { destruct (get_professor_by_id_cases rt net _ _ _ _ E)
      as [[_ [_ Hhit]] | [q [_ [Ha [_ [Hprofs [Ho _]]]]]]].
    - destruct (Hhit address eq_refl) as [Hl ->].
      destruct (pydict_lookup_In _ _ _ Hl) as [k [Hin Hk]].
      destruct (Hok k address Hin) as [q [Hq Hm]].
      rewrite Hp in Hq. injection Hq as <-.
      assert (Hkp : py_key_eq k (ratemyprof_id p) = true).
      { destruct Hm as [-> | Hm]; [exact Hid | exact Hm]. }
      rewrite <- (pydict_lookup_compat k (ratemyprof_id p) _ Hkp).
      rewrite (pydict_lookup_compat k professor_id _ Hk). exact Hl.
    - injection Ha as ->. rewrite Ho in Hp.
      rewrite nth_error_app2, Nat.sub_diag in Hp by lia. injection Hp as <-.
      rewrite Hprofs. exact (pydict_lookup_set_same _ _ _ Hid). }
  unfold get_professor_by_id. rewrite (pydict_lookup_hashable _ _ _ Hl), Hl. reflexivity.
Qed.

(** X6.  What a fetched professor holds.  When [get_professor_by_id] fetches, the
    new object is built from the first teacher record of the page (the first
    entry whose key starts with [VGVhY2hlci0] and that is tagged Teacher),
    whatever id was asked for, and its ratings are those [_extract_ratings]
    finds for that record on that page. *)
Theorem get_professor_by_id_fetched (professor_id : pyval) (self : RateMyProfApi)
    (address : nat) :
  pydict_lookup professor_id (professors self) = None ->
  fst (get_professor_by_id rt net professor_id self) = Ok (Some address) ->
  let resp := net (length (requested self)) (professor_url rt professor_id) in
  exists relay_data prof_data made rs,
    status_code resp = 200
    /\ _extract_relay_data rt (text resp) = Ok relay_data
    /\ find_typed "VGVhY2hlci0" "Teacher" relay_data = Ok prof_data
    /\ professor_of_record rt relay_data prof_data = Ok (Some made)
    /\ _extract_ratings relay_data prof_data = Ok rs
    /\ address = length (objects self)
    /\ nth_error (objects (snd (get_professor_by_id rt net professor_id self))) address
       = Some (set_ratings made rs).
Proof.
  intros Hl Hres resp. subst resp. revert Hres. unfold get_professor_by_id, professor_url.
  destruct (negb (is_hashable professor_id)); [discriminate |]. rewrite Hl.
  unfold fetch.
  destruct (status_code _ =? 200) eqn:Es; cbv beta iota delta [negb]; [| discriminate].
  destruct (_extract_relay_data rt _) as [[| kv rd] | e]; try discriminate.
  destruct (professor_from_detail rt (kv :: rd) _) as [[[a s2] |] | e] eqn:Hd;
    try discriminate.
  simpl. intros H. injection H as <-.
  destruct (professor_from_detail_some rt _ _ _ _ Hd)
    as [pd [made [rs [Hfind [Hmade [Hrs [_ [Ha ->]]]]]]]].
  simpl in Ha. exists (kv :: rd), pd, made, rs.
  apply Z.eqb_eq in Es. repeat split; try assumption.
  simpl. subst a. rewrite nth_error_app2, Nat.sub_diag; [reflexivity | lia].
Qed.

End SessionEffects.

(** ** Searching *)

Lemma replace_space_clean (s : string) (c : ascii) :
  In c (list_ascii_of_string (replace_char " " "%20" s)) -> c <> " "%char.
Proof.
  induction s as [| x s IH]; simpl; [intros [] |].
  destruct (Ascii.eqb x " ") eqn:E; simpl.
  - intros [<- | [<- | [<- | H]]]; try discriminate. exact (IH H).
  - intros [<- | H]; [apply Ascii.eqb_neq; exact E | exact (IH H)].
Qed.

Lemma replace_space_none (s : string) :
  (forall c, In c (list_ascii_of_string s) -> c <> " "%char) ->
  replace_char " " "%20" s = s.
Proof.
  induction s as [| x s IH]; simpl; [reflexivity |]. intros H.
  destruct (Ascii.eqb x " ") eqn:E.
  - apply Ascii.eqb_eq in E. exfalso. exact (H x (or_introl eq_refl) E).
  - rewrite IH; [reflexivity |]. intros c Hc. apply H. right. exact Hc.
Qed.

Lemma list_ascii_of_string_app (a b : string) :
  list_ascii_of_string (a ++ b) = (list_ascii_of_string a ++ list_ascii_of_string b)%list.
Proof. induction a as [| x a IH]; simpl; [reflexivity | rewrite IH; reflexivity]. Qed.

Lemma replace_char_app (old : ascii) (new a b : string) :
  replace_char old new (a ++ b) = (replace_char old new a ++ replace_char old new b)%string.
Proof.
  induction a as [| x a IH]; simpl; [reflexivity |].
  destruct (Ascii.eqb x old); rewrite IH; [| reflexivity].
  rewrite append_assoc. reflexivity.
Qed.

(** Replacing the spaces of pieces joined by spaces joins them by [%20]. *)
Lemma replace_space_join (pieces : list string) :
  Forall no_space pieces ->
  replace_char " " "%20" (join " " pieces) = join "%20" pieces.
Proof.
  induction 1 as [| piece rest Hp Hrest IH]; [reflexivity |].
  destruct rest as [| q rest]; [exact (replace_space_none piece Hp) |].
  change (join " " (piece :: q :: rest)) with (piece ++ " " ++ join " " (q :: rest))%string.
  change (join "%20" (piece :: q :: rest))
    with (piece ++ "%20" ++ join "%20" (q :: rest))%string.
  rewrite replace_char_app, (replace_space_none piece Hp).
  rewrite (replace_char_app " " "%20" " "), IH. reflexivity.
Qed.

(** Every text is its pieces between spaces, joined by spaces. *)
Lemma split_at_spaces (s : string) :
  exists pieces, pieces <> [] /\ Forall no_space pieces /\ s = join " " pieces.
Proof.
  induction s as [| c s [pieces [Hne [Hall Hs]]]].
  - exists [""]. split; [discriminate | split; [| reflexivity]].
    constructor; [intros c [] | constructor].
  - destruct pieces as [| piece rest]; [contradiction |].
    destruct (Ascii.eqb c " ") eqn:E.
    + apply Ascii.eqb_eq in E. subst c. exists ("" :: piece :: rest).
      split; [discriminate | split].
      * constructor; [intros c [] | exact Hall].
      * rewrite Hs. reflexivity.
    + exists (String c piece :: rest). split; [discriminate | split].
      * inversion Hall as [| ? ? Hp Hrest]; subst. constructor; [| exact Hrest].
        intros x [<- | Hx]; [| exact (Hp x Hx)].
        intros ->. rewrite Ascii.eqb_refl in E. discriminate E.
      * rewrite Hs. destruct rest; reflexivity.
Qed.

(** X7.  The search URL.  The query, taken as its pieces between spaces, goes
    into the URL with [%20] where each space was and its pieces as they are:
    every space of the query is written as [%20], so the URL holds no space,
    and nothing else is escaped: a query without spaces goes into the URL as
    it is. *)
Theorem search_url_escapes_spaces_only (query : string) :
  (forall pieces,
     Forall no_space pieces -> query = join " " pieces ->
     search_url query = (base_url ++ "/search/professors/?q=" ++ join "%20" pieces)%string)
  /\ (exists pieces, Forall no_space pieces /\ query = join " " pieces)
  /\ (forall c, In c (list_ascii_of_string (search_url query)) -> c <> " "%char)
  /\ ((forall c, In c (list_ascii_of_string query) -> c <> " "%char) ->
      search_url query = (base_url ++ "/search/professors/?q=" ++ query)%string).
Proof.
  unfold search_url. split; [| split; [| split]].
  - intros pieces Hall ->. rewrite (replace_space_join pieces Hall). reflexivity.
  - destruct (split_at_spaces query) as [pieces [_ [Hall Hs]]]. exists pieces.
    split; assumption.
  - intros c Hc. rewrite !list_ascii_of_string_app in Hc.
    apply in_app_or in Hc. destruct Hc as [Hc | Hc].
    { intros ->. revert Hc. vm_compute. intuition discriminate. }
    apply in_app_or in Hc. destruct Hc as [Hc | Hc].
    { intros ->. revert Hc. vm_compute. intuition discriminate. }
    exact (replace_space_clean query c Hc).
  - intros H. rewrite (replace_space_none query H). reflexivity.
Qed.

(** The query "John Smith" is asked for as [John%20Smith]. *)
Example search_url_john_smith :
  search_url "John Smith" = "https://www.ratemyprofessors.com/search/professors/?q=John%20Smith"
  /\ search_url " a  b" = "https://www.ratemyprofessors.com/search/professors/?q=%20a%20%20b".
Proof. split; reflexivity. Qed.

Section SearchEffects.

Variable rt : runtime.
Variable net : network.

(** Every Professor of the search extraction carries a truthy, hashable id
    and no ratings, and its detail fields are those of its record. *)
Lemma process_professors_bare (relay_data : store) (result : pydict Professor)
    (k : pyval) (p : Professor) :
  _process_professor_search_data rt relay_data = Ok result -> In (k, p) result ->
  ratings p = [] /\ truthy (ratemyprof_id p) = true /\ is_hashable (ratemyprof_id p) = true.
Proof.
  rewrite process_as_loop. intros H Hin.
  apply bind_Ok in H. destruct H as [refs [_ H]].
  assert (Hall : forall l acc res,
            process_edges rt relay_data l acc = Ok res ->
            (forall k0 p0, In (k0, p0) acc ->
               ratings p0 = [] /\ truthy (ratemyprof_id p0) = true
               /\ is_hashable (ratemyprof_id p0) = true) ->
            forall k0 p0, In (k0, p0) res ->
              ratings p0 = [] /\ truthy (ratemyprof_id p0) = true
              /\ is_hashable (ratemyprof_id p0) = true).
  { clear. induction l as [| r l IH]; intros acc res H Hacc.
    - simpl in H. injection H as <-. exact Hacc.
    - apply process_edges_step in H.
      destruct H as [[H _] | [pd [q [_ [Hq [Hh H]]]]]]; [exact (IH _ _ H Hacc) |].
      apply (IH _ _ H). intros k0 p0 Hin.
      destruct (pydict_set_In _ _ _ _ _ Hin) as [Hold | [-> _]]; [exact (Hacc k0 p0 Hold) |].
      destruct (professor_of_record_some rt _ _ _ Hq)
        as [d [_ [Ht [Hid [_ [_ [_ [_ [_ [_ Hr]]]]]]]]]].
      split; [exact Hr | split; [rewrite Hid; exact Ht | exact Hh]]. }
  exact (Hall refs [] result H (fun k0 p0 (F : In (k0, p0) []) => match F with end) k p Hin).
Qed.

Lemma search_professor_session (query : string) (self : RateMyProfApi) :
  snd (search_professor rt net query self) = snd (fetch net (search_url query) self).
Proof.
  unfold search_professor, fetch.
  destruct (negb (status_code _ =? 200)); [reflexivity |].
  destruct (_extract_relay_data rt _) as [[| kv rd] | e]; reflexivity.
Qed.

(** X8.  A search is not remembered.  [search_professor] makes one request and
    leaves the rest of the session as it is: its professors are not entered
    into the mapping.  Each professor returned carries a truthy id and no
    ratings. *)
Theorem search_professor_leaves_session (query : string) (self : RateMyProfApi) :
  let out := search_professor rt net query self in
  snd out = snd (fetch net (search_url query) self)
  /\ (forall l, fst out = Ok l ->
        Forall (fun p => ratings p = [] /\ truthy (ratemyprof_id p) = true) l).
Proof.
  intros out. split.
  - exact (search_professor_session query self).
  - intros l Hl. subst out.
    destruct (search_professor_cases rt net query self) as [_ [_ [_ Hres]]].
    cbv zeta in Hres. rewrite Hres in Hl. clear Hres.
    destruct (negb (status_code _ =? 200)); [injection Hl as <-; constructor |].
    apply bind_Ok in Hl. destruct Hl as [rd [_ Hl]].
    apply bind_Ok in Hl. destruct Hl as [found [Hfound Hl]]. injection Hl as <-.
    apply Forall_forall. intros p Hp.
    apply (Permutation_in _ (sort_by_name_perm _)) in Hp.
    unfold pydict_values in Hp. apply in_map_iff in Hp. destruct Hp as [[k q] [<- Hin]].
    destruct (process_professors_bare _ _ _ _ Hfound Hin) as [Hr [Ht _]].
    split; assumption.
Qed.

(** X9.  [get_professor_by_name] is a search followed by at most one lookup by
    id.  It requests the search page first and then at most one professor
    page; it appends at most one object, and every key of the mapping stays a
    key.  When the search gives no professor it returns [None] after the one
    search request. *)
Theorem get_professor_by_name_requests (query_name : string) (self : RateMyProfApi) :
  let out := get_professor_by_name rt net query_name self in
  (exists more,
     requested (snd out) = (requested self ++ search_url query_name :: more)%list
     /\ (length more <= 1)%nat)
  /\ (exists new_objects,
        objects (snd out) = (objects self ++ new_objects)%list
        /\ (length new_objects <= 1)%nat)
  /\ (forall k address, In (k, address) (professors self) ->
        exists address', In (k, address') (professors (snd out)))
  /\ (fst (search_professor rt net query_name self) = Ok [] ->
      out = (Ok None, snd (fetch net (search_url query_name) self))).
Proof.
  intros out. subst out. unfold get_professor_by_name.
  destruct (search_professor_cases rt net query_name self) as [Hp [Ho [Hr _]]].
  pose proof (search_professor_session query_name self) as Hs.
  destruct (search_professor rt net query_name self) as [res s1] eqn:E.
  simpl in Hp, Ho, Hr, Hs.
  assert (Hstay : (exists more,
             requested s1 = (requested self ++ search_url query_name :: more)%list
             /\ (length more <= 1)%nat)
          /\ (exists new_objects,
                objects s1 = (objects self ++ new_objects)%list
                /\ (length new_objects <= 1)%nat)
          /\ (forall k address, In (k, address) (professors self) ->
                exists address', In (k, address') (professors s1))).
  { split; [exists []; split; [exact Hr | simpl; lia] |].
    split; [exists []; rewrite app_nil_r; split; [exact Ho | simpl; lia] |].
    intros k a Hin. exists a. rewrite Hp. exact Hin. }
  assert (Hby_id : forall id,
            (exists more,
               requested (snd (get_professor_by_id rt net id s1))
               = (requested self ++ search_url query_name :: more)%list
               /\ (length more <= 1)%nat)
            /\ (exists new_objects,
                  objects (snd (get_professor_by_id rt net id s1))
                  = (objects self ++ new_objects)%list
                  /\ (length new_objects <= 1)%nat)
            /\ (forall k address, In (k, address) (professors self) ->
                  exists address',
                    In (k, address') (professors (snd (get_professor_by_id rt net id s1))))).
  { intros id.
    destruct (get_professor_by_id_grows rt net id s1) as [[no [Hno Hnl]] [[nr [Hnr Hrl]] Hk]].
    split; [exists nr; rewrite Hnr, Hr, <- app_assoc; split; [reflexivity | exact Hrl] |].
    split; [exists no; rewrite Hno, Ho; split; [reflexivity | exact Hnl] |].
    intros k a Hin. rewrite <- Hp in Hin. exact (Hk k a Hin). }
  destruct res as [[| p0 ps] | e]; cbv beta iota delta [fst snd].
  - destruct Hstay as [H1 [H2 H3]]. repeat split; try assumption.
    intros _. rewrite Hs. reflexivity.
  - assert (Hne : Ok (p0 :: ps) = Ok [] -> False) by discriminate.
    destruct (2 <=? length (str_split rt (str_lower rt query_name)))%nat.
    + match goal with
      | |- context [find_exact_match rt ?a ?b ?c] =>
          destruct (find_exact_match rt a b c) as [[prof |] | e]
      end; cbv beta iota delta [fst snd].
      * destruct (Hby_id (ratemyprof_id prof)) as [H1 [H2 H3]].
        repeat split; try assumption. intros H. destruct (Hne H).
      * destruct (Hby_id (ratemyprof_id p0)) as [H1 [H2 H3]].
        repeat split; try assumption. intros H. destruct (Hne H).
      * destruct Hstay as [H1 [H2 H3]]. repeat split; try assumption.
        intros H. destruct (Hne H).
    + destruct (Hby_id (ratemyprof_id p0)) as [H1 [H2 H3]].
      repeat split; try assumption. intros H. destruct (Hne H).
  - destruct Hstay as [H1 [H2 H3]]. repeat split; try assumption. discriminate.
Qed.

End SearchEffects.

(** ** Starting a session *)

Lemma process_empty_store (rt : runtime) : _process_professor_search_data rt [] = Ok [].
Proof. reflexivity. Qed.

(** What the loop of [find_typed] can give: a mapping or [None], and no
    exception but [TypeError]. *)
Lemma find_typed_value (key_prefix typename : string) (items : store) :
  match find_typed key_prefix typename items with
  | Ok v => v = PNone \/ exists d, v = PDict d
  | Raise e => e = TypeError
  end.
Proof.
  induction items as [| [key value] rest IH]; simpl; [left; reflexivity |].
  destruct (prefix key_prefix key); [| exact IH].
  destruct value as [| b | z | f | t | l | d]; simpl; try reflexivity.
  - destruct (is_substring "__typename" t); simpl; [reflexivity | exact IH].
  - destruct (existsb (fun x => py_eq_str x "__typename") l); simpl; [reflexivity | exact IH].
  - destruct (jdict_lookup "__typename" d) as [t |]; simpl; [| exact IH].
    destruct (py_eq_str t typename); [right; exists d; reflexivity | exact IH].
Qed.

Section Start.

Variable rt : runtime.
Variable net : network.

(** What [_get_school_info] leaves alone: it makes one request and touches
    nothing but the three school fields. *)
Lemma get_school_info_frame (self : RateMyProfApi) :
  let out := _get_school_info rt net self in
  school_id (snd out) = school_id self
  /\ professors (snd out) = professors self
  /\ objects (snd out) = objects self
  /\ requested (snd out) = (requested self ++ [school_url (school_id self)])%list.
Proof.
  unfold _get_school_info, fetch, school_url.
  destruct (negb (status_code _ =? 200)); [repeat split |].
  destruct (_extract_relay_data rt _) as [[| kv rd] | e]; try (repeat split; fail).
  destruct (find_typed "U2Nob29s" "School" (kv :: rd)) as [v | e]; [| repeat split].
  destruct v; repeat split.
Qed.

(** X10.  The school fields.  [_get_school_info] makes one request and touches
    neither mapping nor objects.  On a response other than 200 and on a page
    without a store the school fields stay as they were.  Otherwise it takes
    name, city and state from the first entry of the page's store whose key
    starts with [U2Nob29s] and that is tagged School, whatever school the
    session is for, with "Unknown School", "Unknown City" and
    "Unknown State" for a field the entry lacks; without such an entry the
    fields stay as they were.  Reading the fields never raises: the only
    exception of its own is the [TypeError] of the search for the entry. *)
Theorem get_school_info_fields (self : RateMyProfApi) :
  let out := _get_school_info rt net self in
  let resp := net (length (requested self)) (school_url (school_id self)) in
  let fetched := snd (fetch net (school_url (school_id self)) self) in
  (professors (snd out) = professors self
   /\ objects (snd out) = objects self
   /\ requested (snd out) = (requested self ++ [school_url (school_id self)])%list)
  /\ (status_code resp <> 200 \/ _extract_relay_data rt (text resp) = Ok [] ->
      out = (Ok tt, fetched))
  /\ (status_code resp = 200 ->
      forall relay_data,
        _extract_relay_data rt (text resp) = Ok relay_data ->
        match find_typed "U2Nob29s" "School" relay_data with
        | Ok (PDict d) =>
            out = (Ok tt,
                   set_school fetched
                     (jdict_get d "name" (PStr "Unknown School"))
                     (jdict_get d "city" (PStr "Unknown City"))
                     (jdict_get d "state" (PStr "Unknown State")))
        | Ok PNone => out = (Ok tt, fetched)
        | Ok _ => False
        | Raise e => e = TypeError /\ out = (Raise TypeError, fetched)
        end).
Proof.
  intros out resp fetched. subst out resp fetched. split; [| split].
  - destruct (get_school_info_frame self) as [_ [Hp [Ho Hr]]]. repeat split; assumption.
  - intros Hfail. unfold _get_school_info, fetch, school_url in *.
    destruct (status_code _ =? 200) eqn:Es; cbv beta iota delta [negb snd]; [| reflexivity].
    destruct Hfail as [Hs | He]; [apply Z.eqb_eq in Es; contradiction |].
    rewrite He. reflexivity.
  - intros Hs relay_data Hrd. apply Z.eqb_eq in Hs.
    pose proof (find_typed_value "U2Nob29s" "School" relay_data) as Hv.
    unfold _get_school_info, fetch, school_url in *. rewrite Hs, Hrd.
    cbv beta iota delta [negb snd].
    destruct relay_data as [| kv rd]; [reflexivity |].
    destruct (find_typed "U2Nob29s" "School" (kv :: rd)) as [v | e].
    + destruct Hv as [-> | [d ->]]; reflexivity.
    + subst e. split; reflexivity.
Qed.

(** What [scrape_professors] returns and leaves behind. *)
Lemma scrape_professors_result (testing : bool) (self : RateMyProfApi) :
  let out := scrape_professors rt net testing self in
  let resp := net (length (requested self)) (scrape_url (school_id self)) in
  snd out = snd (fetch net (scrape_url (school_id self)) self)
  /\ fst out =
       if negb (status_code resp =? 200) then Ok []
       else (relay_data <- _extract_relay_data rt (text resp) ;;
             _process_professor_search_data rt relay_data).
Proof.
  unfold scrape_professors, fetch, scrape_url.
  destruct (negb (status_code _ =? 200)); [split; reflexivity |].
  destruct (_extract_relay_data rt _) as [[| kv rd] | e]; try (split; reflexivity).
  split; [reflexivity |]. simpl.
  destruct (_process_professor_search_data rt (kv :: rd)) as [found | e] eqn:Hf;
    [| reflexivity].
  simpl. destruct (process_keyed rt _ _ Hf) as [_ Hd].
  rewrite (pydict_update_distinct [] found Hd). reflexivity.
Qed.

(** X11.  [scrape_professors] is the extraction of one page.  It requests the
    school's search page once and stores nothing in the session; it returns
    what [_process_professor_search_data] finds in the page's store, in the
    same order, or the empty mapping on a response other than 200.  What it
    returns is keyed by the professors' own ids and holds no two equal
    keys. *)
Theorem scrape_professors_is_first_page (testing : bool) (self : RateMyProfApi) :
  let out := scrape_professors rt net testing self in
  let resp := net (length (requested self)) (scrape_url (school_id self)) in
  (professors (snd out) = professors self
   /\ objects (snd out) = objects self
   /\ requested (snd out) = (requested self ++ [scrape_url (school_id self)])%list)
  /\ fst out =
       (if negb (status_code resp =? 200) then Ok []
        else (relay_data <- _extract_relay_data rt (text resp) ;;
              _process_professor_search_data rt relay_data))
  /\ (forall found, fst out = Ok found -> keyed_by_own_id found /\ distinct_keys found).
Proof.
  intros out resp.
  destruct (scrape_professors_result testing self) as [Hs Hr].
  fold out in Hs, Hr. fold resp in Hr.
  split; [rewrite Hs; repeat split | split; [exact Hr |]].
  intros found Hf. rewrite Hr in Hf.
  destruct (negb (status_code resp =? 200)).
  - injection Hf as <-. split; [intros k p [] | exact I].
  - apply bind_Ok in Hf. destruct Hf as [rd [_ Hf]]. exact (process_keyed rt _ _ Hf).
Qed.

Lemma combine_seq_lookup (d : pydict Professor) (h : list Professor) :
  flat_map (fun entry : pyval * nat =>
              match nth_error (h ++ map snd d) (snd entry) with
              | Some professor => [professor_row professor]
              | None => []
              end)
           (combine (map fst d) (seq (length h) (length d)))
  = map professor_row (map snd d).
Proof.
  revert h. induction d as [| [k p] d IH]; intros h; simpl; [reflexivity |].
  rewrite nth_error_app2, Nat.sub_diag by lia. simpl. f_equal.
  specialize (IH (h ++ [p])%list).
  rewrite <- app_assoc, length_app in IH. simpl in IH.
  rewrite Nat.add_1_r in IH. exact IH.
Qed.

(** X12.  A new session.  The constructor requests the school page and then the
    search page, whatever [testing] is; when it returns, the session's
    objects are the professors extracted from the search page, in the page's
    order, the mapping refers to them by position, and the professors file
    written from it lists them in that order. *)
Theorem RateMyProfApi_init_scrapes_once (sid : string) (testing : bool) :
  let out := RateMyProfApi_init rt net sid testing in
  out = RateMyProfApi_init rt net sid (negb testing)
  /\ (fst out = Ok tt ->
      exists found,
        (let resp := net 1%nat (scrape_url sid) in
         if negb (status_code resp =? 200) then Ok []
         else (relay_data <- _extract_relay_data rt (text resp) ;;
               _process_professor_search_data rt relay_data)) = Ok found
        /\ requested (snd out) = [school_url sid; scrape_url sid]
        /\ objects (snd out) = pydict_values found
        /\ professors (snd out) = combine (map fst found) (seq 0 (length found))
        /\ write_professors_to_csv (snd out) = map professor_row (pydict_values found)).
Proof.
  intros out. subst out. unfold RateMyProfApi_init.
  set (s0 := {| school_id := sid; professors := []; objects := []; school_name := PNone;
                school_city := PNone; school_state := PNone; requested := [] |}).
  destruct (get_school_info_frame s0) as [Hsid [Hp [Ho Hr]]].
  destruct (_get_school_info rt net s0) as [[[] | e] s1]; simpl in Hsid, Hp, Ho, Hr.
  2:{ split; [reflexivity | discriminate]. }
  rewrite Hp. cbv beta iota. rewrite !orb_true_r.
  destruct (scrape_professors_result testing s1) as [Hs Hres].
  destruct (scrape_professors_result (negb testing) s1) as [Hs' Hres'].
  cbv zeta in Hs, Hres, Hs', Hres'.
  assert (Hsame : scrape_professors rt net (negb testing) s1 = scrape_professors rt net testing s1)
    by reflexivity.
  rewrite Hsame. split; [reflexivity |].
  destruct (scrape_professors rt net testing s1) as [[d | e] s2]; simpl in Hs, Hres;
    [| discriminate].
  intros _. exists d. subst s2.
  rewrite Hsid, Hr in Hres. simpl in Hres.
  split; [symmetry; exact Hres |].
  unfold assign_professors, fetch, write_professors_to_csv. simpl.
  rewrite Ho, Hr, Hsid. simpl.
  repeat split.
  exact (combine_seq_lookup d []).
Qed.

End Start.

(** ** Writing the files *)

Lemma normalize_newlines_idem (s : string) :
  normalize_newlines (normalize_newlines s) = normalize_newlines s.
Proof.
  induction s as [| c s IH]; simpl; [reflexivity |]. rewrite IH.
  destruct (Ascii.eqb c CR) eqn:Ec; simpl; [reflexivity |].
  destruct (Ascii.eqb c LF) eqn:El; simpl; [reflexivity |].
  rewrite Ec, El. reflexivity.
Qed.

Lemma jdict_set_set (k : string) (v w : pyval) (d : jdict) :
  jdict_set k v (jdict_set k w d) = jdict_set k v d.
Proof.
  induction d as [| [k' v'] d IH]; simpl.
  - rewrite String.eqb_refl. reflexivity.
  - destruct (k' =? k)%string eqn:E; simpl; rewrite E; [reflexivity | rewrite IH; reflexivity].
Qed.

Lemma normalized_row_idem (r : rating) : normalized_row (normalized_row r) = normalized_row r.
Proof.
  unfold normalized_row at 2 3.
  destruct (jdict_lookup "comment" r) as [[ | | | | s | | ] |] eqn:El;
    try (unfold normalized_row; rewrite El; reflexivity).
  unfold normalized_row. rewrite jdict_lookup_set, jdict_set_set, normalize_newlines_idem.
  reflexivity.
Qed.

Lemma comment_cleanable_normalized (r : rating) :
  comment_cleanable (normalized_row r) = comment_cleanable r.
Proof.
  unfold comment_cleanable.
  destruct (jdict_lookup "comment" r) as [[ | | | | s | | ] |] eqn:El;
    try (unfold normalized_row; rewrite El, El; reflexivity).
  rewrite (normalized_row_comment r s El). reflexivity.
Qed.

Lemma columns_ok_normalized (r : rating) : columns_ok (normalized_row r) = columns_ok r.
Proof. unfold columns_ok. rewrite normalized_row_keys. reflexivity. Qed.

(** A rating that cannot be cleaned: its comment is truthy and not text. *)
Lemma comment_not_cleanable (r : rating) :
  comment_cleanable r = false ->
  exists c, jdict_lookup "comment" r = Some c /\ truthy c = true /\ forall s, c <> PStr s.
Proof.
  unfold comment_cleanable.
  destruct (jdict_lookup "comment" r) as [c |]; [| discriminate].
  intros H. exists c. split; [reflexivity |].
  destruct c; try discriminate H; (split; [apply negb_false_iff; exact H | discriminate]).
Qed.

(** A rating the writer refuses: it has a key that is no column. *)
Lemma columns_not_ok (r : rating) :
  columns_ok r = false -> exists k, In k (map fst r) /\ ~ In k ratings_csv_columns.
Proof.
  unfold columns_ok. induction (map fst r) as [| k ks IH]; [discriminate |].
  cbn [forallb]. destruct (existsb (String.eqb k) ratings_csv_columns) eqn:Ek.
  - intros H. destruct (IH H) as [k' [Hin Hn]]. exists k'. split; [right; exact Hin | exact Hn].
  - intros _. exists k. split; [left; reflexivity |].
    intros Hin. assert (Ht : existsb (String.eqb k) ratings_csv_columns = true).
    { apply existsb_exists. exists k. split; [exact Hin | apply String.eqb_refl]. }
    congruence.
Qed.

(** Running the loop over the ratings it left behind writes the same rows,
    leaves the same ratings and ends the same way. *)
Lemma write_rating_rows_again (rs rows kept : list rating) (res : outcome unit) :
  write_rating_rows rs = (rows, kept, res) -> write_rating_rows kept = (rows, kept, res).
Proof.
  revert rows kept res. induction rs as [| r rs IH]; intros rows kept res.
  - intros H. injection H as <- <- <-. reflexivity.
  - rewrite write_rating_rows_step.
    destruct (comment_cleanable r) eqn:Hc.
    + destruct (columns_ok r) eqn:Hk.
      * destruct (write_rating_rows rs) as [[rows' kept'] res'] eqn:E. cbn [fst snd].
        intros H. injection H as <- <- <-.
        rewrite write_rating_rows_step, comment_cleanable_normalized, columns_ok_normalized,
          Hc, Hk, normalized_row_idem, (IH _ _ _ eq_refl).
        reflexivity.
      * intros H. injection H as <- <- <-.
        rewrite write_rating_rows_step, comment_cleanable_normalized, columns_ok_normalized,
          Hc, Hk, normalized_row_idem.
        reflexivity.
    + intros H. injection H as <- <- <-.
      rewrite write_rating_rows_step, Hc. reflexivity.
Qed.

Lemma heap_update_twice (h : list Professor) (address : nat) (p q : Professor) :
  heap_update (heap_update h address p) address q = heap_update h address q.
Proof.
  revert address. induction h as [| x h IH]; intros address; [reflexivity |].
  destruct address as [| n]; simpl; [reflexivity | rewrite IH; reflexivity].
Qed.

Lemma heap_update_length (h : list Professor) (address : nat) (p : Professor) :
  length (heap_update h address p) = length h.
Proof.
  revert address. induction h as [| x h IH]; intros address; [reflexivity |].
  destruct address as [| n]; simpl; [reflexivity | rewrite IH; reflexivity].
Qed.

Lemma heap_update_In (h : list Professor) (address : nat) (p q : Professor) :
  In q (heap_update h address p) -> q = p \/ In q h.
Proof.
  revert address. induction h as [| x h IH]; intros address; [intros [] |].
  destruct address as [| n]; simpl.
  - intros [<- | H]; [left; reflexivity | right; right; exact H].
  - intros [<- | H]; [right; left; reflexivity |].
    destruct (IH n H) as [-> | Hin]; [left; reflexivity | right; right; exact Hin].
Qed.

Lemma rating_of_record_columns (rating_data : pyval) (r : rating) :
  rating_of_record rating_data = Ok r -> has_ratings_columns r.
Proof.
  destruct rating_data; try discriminate.
  unfold rating_of_record, py_get, bind. intros H. injection H as <-. reflexivity.
Qed.

Lemma extract_ratings_columns (relay_data : store) (prof_data : pyval) (rs : list rating) :
  _extract_ratings relay_data prof_data = Ok rs ->
  forall r, In r rs -> has_ratings_columns r.
Proof.
  rewrite extract_ratings_as_loop. intros H.
  apply bind_Ok in H. destruct H as [refs [_ H]].
  rewrite (extract_rating_edges_flat_map _ _ _ _ H). simpl.
  intros r Hin. apply in_flat_map in Hin. destruct Hin as [ref [_ Hin]].
  unfold rating_of_edge in Hin.
  destruct (resolve_edge "Rating" relay_data ref) as [[data |] | e]; try destruct Hin.
  destruct (rating_of_record data) as [r0 | e] eqn:Er; [| destruct Hin].
  destruct Hin as [<- | []]. exact (rating_of_record_columns _ _ Er).
Qed.

Section Files.

Variable rt : runtime.
Variable net : network.

(** The objects of the session after [get_professor_by_id]: those before,
    and at most one more, built from a teacher record with the ratings
    [_extract_ratings] found for it. *)
Lemma get_professor_by_id_objects (professor_id : pyval) (self : RateMyProfApi) :
  let out := get_professor_by_id rt net professor_id self in
  objects (snd out) = objects self
  \/ exists relay_data prof_data made rs,
       _extract_ratings relay_data prof_data = Ok rs
       /\ professor_of_record rt relay_data prof_data = Ok (Some made)
       /\ objects (snd out) = (objects self ++ [set_ratings made rs])%list.
Proof.
  unfold get_professor_by_id.
  destruct (negb (is_hashable professor_id)); [left; reflexivity |].
  destruct (pydict_lookup professor_id (professors self)); [left; reflexivity |].
  unfold fetch.
  destruct (negb (status_code _ =? 200)); [left; reflexivity |].
  destruct (_extract_relay_data rt _) as [[| kv rd] | e]; try (left; reflexivity).
  destruct (professor_from_detail rt (kv :: rd) _) as [[[a s2] |] | e] eqn:Hd;
    try (left; reflexivity).
  destruct (professor_from_detail_some rt _ _ _ _ Hd)
    as [pd [made [rs [_ [Hmade [Hrs [_ [_ ->]]]]]]]].
  right. exists (kv :: rd), pd, made, rs. repeat split; assumption.
Qed.

Lemma get_professor_by_id_shaped (professor_id : pyval) (self : RateMyProfApi) :
  ratings_shaped self -> ratings_shaped (snd (get_professor_by_id rt net professor_id self)).
Proof.
  intros Hs p r Hp Hr.
  destruct (get_professor_by_id_objects professor_id self)
    as [Ho | [rd [pd [made [rs [Hrs [_ Ho]]]]]]]; cbv zeta in Ho; rewrite Ho in Hp.
  - exact (Hs p r Hp Hr).
  - apply in_app_or in Hp. destruct Hp as [Hp | [<- | []]]; [exact (Hs p r Hp Hr) |].
    exact (extract_ratings_columns _ _ _ Hrs r Hr).
Qed.

(** X13.  The columns of the ratings file.  Every rating [_extract_ratings] builds
    carries the eleven columns of the ratings file, each once and in the
    file's order, and the clean-up of the comment keeps them.  So a session
    whose ratings all come from [get_professor_by_id] stays one whose ratings
    carry these columns, under [get_professor_by_id] and under
    [write_ratings_to_csv], and every row [write_ratings_to_csv] hands to the
    writer has these columns and no other. *)
Theorem rating_rows_have_the_columns :
  (forall relay_data prof_data rs,
     _extract_ratings relay_data prof_data = Ok rs -> Forall has_ratings_columns rs)
  /\ (forall r r', clean_comment r = Ok r' -> map fst r' = map fst r)
  /\ (forall professor_id self,
        ratings_shaped self ->
        ratings_shaped (snd (get_professor_by_id rt net professor_id self)))
  /\ (forall professor_id self,
        ratings_shaped self ->
        Forall has_ratings_columns (fst (fst (write_ratings_to_csv rt net professor_id self)))
        /\ ratings_shaped (snd (write_ratings_to_csv rt net professor_id self))).
Proof.
  split; [| split; [| split]].
  - intros rd pd rs H. apply Forall_forall. exact (extract_ratings_columns rd pd rs H).
  - intros r r' H. rewrite (clean_comment_normalized _ _ H). apply normalized_row_keys.
  - exact get_professor_by_id_shaped.
  - intros professor_id self Hs.
    pose proof (get_professor_by_id_shaped professor_id self Hs) as Hs1.
    unfold write_ratings_to_csv.
    destruct (get_professor_by_id rt net professor_id self) as [[[a |] | e] s1];
      cbv beta iota delta [fst snd] in *; try (split; [constructor | exact Hs1]).
    destruct (nth_error (objects s1) a) as [professor |] eqn:En;
      [| split; [constructor | exact Hs1]].
    destruct (ratings professor) as [| r rs] eqn:Er; [split; [constructor | exact Hs1] |].
    destruct (write_rating_rows (r :: rs)) as [[rows kept] res] eqn:Ew.
    cbv beta iota delta [fst snd].
    destruct (write_rating_rows_spec _ _ _ _ Ew) as [_ [_ [Hkept Hrows]]].
    assert (Hold : forall x, In x (r :: rs) -> has_ratings_columns x).
    { intros x Hx. apply (Hs1 professor x); [exact (nth_error_In _ _ En) |].
      rewrite Er. exact Hx. }
    assert (Hnorm : forall x, In x (r :: rs) -> has_ratings_columns (normalized_row x)).
    { intros x Hx. unfold has_ratings_columns. rewrite normalized_row_keys.
      exact (Hold x Hx). }
    split.
    { apply Forall_forall. intros x Hx. destruct (Hrows x Hx) as [y [Hy ->]].
      exact (Hnorm y Hy). }
    intros p x Hp Hx. simpl in Hp.
    destruct (heap_update_In _ _ _ _ Hp) as [-> | Hin]; [| exact (Hs1 p x Hin Hx)].
    simpl in Hx. destruct (Hkept x Hx) as [Hin | [y [Hy ->]]];
      [exact (Hold x Hin) | exact (Hnorm y Hy)].
Qed.

(** X14.  Writing a ratings file twice.  For an id the mapping holds,
    [write_ratings_to_csv] requests nothing and leaves the mapping and every
    other object as they are; a second call then writes the same rows, ends
    the same way and leaves the session as the first call left it. *)
Theorem write_ratings_to_csv_twice (professor_id : pyval) (self : RateMyProfApi)
    (address : nat) :
  pydict_lookup professor_id (professors self) = Some address ->
  let out := write_ratings_to_csv rt net professor_id self in
  write_ratings_to_csv rt net professor_id (snd out) = out
  /\ professors (snd out) = professors self
  /\ requested (snd out) = requested self
  /\ length (objects (snd out)) = length (objects self)
  /\ (forall a, a <> address -> nth_error (objects (snd out)) a = nth_error (objects self) a).
Proof.
  intros Hl out.
  assert (Hget : forall s, professors s = professors self ->
            get_professor_by_id rt net professor_id s = (Ok (Some address), s)).
  { intros s Hp. unfold get_professor_by_id.
    rewrite (pydict_lookup_hashable _ _ _ Hl), Hp, Hl. reflexivity. }
  subst out. unfold write_ratings_to_csv at 2 3 4 5 6 7. rewrite (Hget self eq_refl).
  destruct (nth_error (objects self) address) as [professor |] eqn:En.
  2:{ cbv beta iota delta [snd]. unfold write_ratings_to_csv.
      rewrite (Hget self eq_refl), En. repeat split. }
  destruct (ratings professor) as [| r rs] eqn:Er.
  { cbv beta iota delta [snd]. unfold write_ratings_to_csv.
    rewrite (Hget self eq_refl), En, Er. repeat split. }
  destruct (write_rating_rows (r :: rs)) as [[rows kept] res] eqn:Ew.
  cbv beta iota delta [snd].
  set (p' := set_ratings professor kept).
  set (s' := set_professors self (professors self) (heap_update (objects self) address p')).
  split; [| split; [reflexivity | split; [reflexivity | split]]].
  - unfold write_ratings_to_csv. rewrite (Hget s' eq_refl).
    assert (En' : nth_error (objects s') address = Some p').
    { unfold s'. cbn [objects set_professors].
      rewrite (heap_update_nth _ _ p' _ address En), Nat.eqb_refl. reflexivity. }
    rewrite En'.
    change (ratings p') with kept.
    pose proof (proj1 (proj2 (write_rating_rows_spec _ _ _ _ Ew))) as Hlen.
    destruct kept as [| k0 kept0] eqn:Ek; [discriminate Hlen |].
    rewrite (write_rating_rows_again _ _ _ _ Ew).
    unfold s' at 2 3. simpl objects. simpl professors.
    rewrite heap_update_twice. reflexivity.
  - unfold s'. cbn [objects set_professors]. apply heap_update_length.
  - intros a Ha. unfold s'. cbn [objects set_professors].
    rewrite (heap_update_nth _ _ p' _ a En).
    destruct (Nat.eqb a address) eqn:E; [apply Nat.eqb_eq in E; contradiction | reflexivity].
Qed.

(** X15.  When writing a ratings file raises.  [write_ratings_to_csv] raises what
    [get_professor_by_id] raises, writing nothing; otherwise it raises at the
    first rating that cannot be written, after writing the ratings before it
    with their comments normalised, in the file and in the object.  That is
    [AttributeError] at a rating whose comment is truthy and not text, which
    is left as it was, or [ValueError] at a rating with a key that is no
    column of the file, whose comment has been replaced in the object
    already.  The ratings after it are not touched. *)
Theorem write_ratings_to_csv_raises (professor_id : pyval) (self : RateMyProfApi) (e : exn) :
  snd (fst (write_ratings_to_csv rt net professor_id self)) = Raise e ->
  let got := get_professor_by_id rt net professor_id self in
  let out := write_ratings_to_csv rt net professor_id self in
  (fst got = Raise e /\ out = ([], Raise e, snd got))
  \/ (exists address professor before r after,
        fst got = Ok (Some address)
        /\ nth_error (objects (snd got)) address = Some professor
        /\ ratings professor = (before ++ r :: after)%list
        /\ forallb writable before = true
        /\ fst (fst out) = map normalized_row before
        /\ ((e = AttributeError
             /\ (exists c, jdict_lookup "comment" r = Some c /\ truthy c = true
                           /\ forall s, c <> PStr s)
             /\ nth_error (objects (snd out)) address
                = Some (set_ratings professor (map normalized_row before ++ r :: after)))
            \/ (e = ValueError
                /\ comment_cleanable r = true
                /\ (exists k, In k (map fst r) /\ ~ In k ratings_csv_columns)
                /\ nth_error (objects (snd out)) address
                   = Some (set_ratings professor
                             (map normalized_row before ++ normalized_row r :: after))))).
Proof.
  intros H got out. subst got out. revert H. unfold write_ratings_to_csv.
  destruct (get_professor_by_id rt net professor_id self) as [[[a |] | e0] s1];
    cbv beta iota delta [fst snd]; try discriminate.
  2:{ intros H. injection H as <-. left. split; reflexivity. }
  destruct (nth_error (objects s1) a) as [professor |] eqn:En; [| discriminate].
  destruct (ratings professor) as [| r rs] eqn:Er; [discriminate |].
  destruct (write_rating_rows (r :: rs)) as [[rows kept] res] eqn:Ew.
  cbv beta iota delta [fst snd]. intros ->.
  destruct (write_rating_rows_stops _ _ _ _ Ew)
    as [before [r0 [after [Hrs [Hb [-> Hcase]]]]]].
  right. exists a, professor, before, r0, after.
  split; [reflexivity | split; [exact En | split; [rewrite Er; exact Hrs |]]].
  split; [exact Hb | split; [reflexivity |]].
  cbn [objects set_professors].
  rewrite (heap_update_nth _ _ _ _ a En), Nat.eqb_refl.
  destruct Hcase as [[Hc [-> ->]] | [Hc [Hk [-> ->]]]]; [left | right].
  - split; [reflexivity | split; [exact (comment_not_cleanable r0 Hc) | reflexivity]].
  - split; [reflexivity | split; [exact Hc | split; [exact (columns_not_ok r0 Hk) |]]].
    reflexivity.
Qed.

End Files.

Lemma professor_rows_of (objs : list Professor) (l : pydict nat) :
  (forall k address, In (k, address) l ->
     exists p, nth_error objs address = Some p /\ key_matches k (ratemyprof_id p)) ->
  let rows := flat_map (fun entry : pyval * nat =>
                          match nth_error objs (snd entry) with
                          | Some professor => [professor_row professor]
                          | None => []
                          end) l in
  length rows = length l
  /\ (forall i k address,
        nth_error l i = Some (k, address) ->
        exists p, nth_error objs address = Some p
                  /\ nth_error rows i = Some (professor_row p)
                  /\ key_matches k (ratemyprof_id p)).
Proof.
  induction l as [| [k0 a0] l IH]; intros H; cbv zeta.
  - split; [reflexivity |]. intros [| i] k a E; discriminate E.
  - destruct (H k0 a0 (or_introl eq_refl)) as [p0 [Hp0 Hm0]].
    destruct (IH (fun k a Hin => H k a (or_intror Hin))) as [Hlen Hnth].
    cbv zeta in Hlen, Hnth. simpl. rewrite Hp0. simpl. split; [rewrite Hlen; reflexivity |].
    intros [| i] k a E; simpl in E.
    + injection E as <- <-. exists p0. repeat split; assumption.
    + exact (Hnth i k a E).
Qed.

(** X16.  The professors file.  In a session whose mapping is keyed by the
    professors' ids, [write_professors_to_csv] writes one row for each entry
    of the mapping, in the mapping's order; the row of an entry holds the
    fields of the entry's professor under the nine columns of the file, and
    its id is the one the key stands for. *)
Theorem write_professors_to_csv_rows (self : RateMyProfApi) :
  mapping_ok self ->
  let rows := write_professors_to_csv self in
  length rows = length (professors self)
  /\ (forall i k address,
        nth_error (professors self) i = Some (k, address) ->
        exists p, nth_error (objects self) address = Some p
                  /\ nth_error rows i = Some (professor_row p)
                  /\ key_matches k (ratemyprof_id p))
  /\ (forall row, In row rows -> map fst row = professors_csv_columns).
Proof.
  intros Hok rows.
  destruct (professor_rows_of (objects self) (professors self) Hok) as [Hlen Hnth].
  split; [exact Hlen | split; [exact Hnth |]].
  intros row Hin. subst rows. unfold write_professors_to_csv in Hin.
  apply in_flat_map in Hin. destruct Hin as [entry [_ Hin]].
  destruct (nth_error (objects self) (snd entry)); [| destruct Hin].
  destruct Hin as [<- | []]. reflexivity.
Qed.

(** ** Finding a record by key prefix and type tag *)

(** X17.  The first match.  The loop the program writes for the school, the search
    connection and the teacher record returns the first entry, in the order
    of the store, whose key starts with the prefix and whose value is a
    mapping with the type tag; [None] when the store holds no such entry.  An
    entry before it whose key has the prefix and whose value is no mapping
    makes it raise [TypeError], unless the value is a text or a list that
    does not hold [__typename]. *)
Theorem find_typed_first_match (key_prefix typename : string) (items : store) :
  match find_typed key_prefix typename items with
  | Ok v =>
      (v = PNone /\ forall entry, In entry items -> accepts key_prefix typename entry = false)
      \/ (exists before key after,
            items = (before ++ (key, v) :: after)%list
            /\ accepts key_prefix typename (key, v) = true
            /\ forall entry, In entry before -> accepts key_prefix typename entry = false)
  | Raise e =>
      e = TypeError
      /\ exists before key value after,
           items = (before ++ (key, value) :: after)%list
           /\ prefix key_prefix key = true
           /\ (forall d, value <> PDict d)
           /\ forall entry, In entry before -> accepts key_prefix typename entry = false
  end.
Proof.
  induction items as [| [key value] rest IH]; simpl.
  - left. split; [reflexivity | intros entry []].
  - assert (Hskip : accepts key_prefix typename (key, value) = false ->
              match find_typed key_prefix typename rest with
              | Ok v =>
                  (v = PNone /\ forall entry, In entry ((key, value) :: rest) ->
                                  accepts key_prefix typename entry = false)
                  \/ (exists before key0 after,
                        (key, value) :: rest = (before ++ (key0, v) :: after)%list
                        /\ accepts key_prefix typename (key0, v) = true
                        /\ forall entry, In entry before ->
                             accepts key_prefix typename entry = false)
              | Raise e =>
                  e = TypeError
                  /\ exists before key0 value0 after,
                       (key, value) :: rest = (before ++ (key0, value0) :: after)%list
                       /\ prefix key_prefix key0 = true
                       /\ (forall d, value0 <> PDict d)
                       /\ forall entry, In entry before ->
                            accepts key_prefix typename entry = false
              end).
    { intros Hno. destruct (find_typed key_prefix typename rest) as [v | e].
      - destruct IH as [[-> Hall] | [before [k [after [-> [Hacc Hbefore]]]]]].
        + left. split; [reflexivity |]. intros entry [<- | Hin]; [exact Hno | exact (Hall _ Hin)].
        + right. exists ((key, value) :: before), k, after.
          split; [reflexivity | split; [exact Hacc |]].
          intros entry [<- | Hin]; [exact Hno | exact (Hbefore _ Hin)].
      - destruct IH as [-> [before [k [v [after [-> [Hk [Hv Hbefore]]]]]]]].
        split; [reflexivity |]. exists ((key, value) :: before), k, v, after.
        split; [reflexivity | split; [exact Hk | split; [exact Hv |]]].
        intros entry [<- | Hin]; [exact Hno | exact (Hbefore _ Hin)]. }
    unfold accepts in Hskip at 1. cbn [fst snd] in Hskip.
    destruct (prefix key_prefix key) eqn:Hp; [| exact (Hskip eq_refl)].
    assert (Hraise : (forall d, value <> PDict d) ->
              TypeError = TypeError
              /\ exists before key0 value0 after,
                   (key, value) :: rest = (before ++ (key0, value0) :: after)%list
                   /\ prefix key_prefix key0 = true
                   /\ (forall d, value0 <> PDict d)
                   /\ forall entry, In entry before ->
                        accepts key_prefix typename entry = false).
    { intros Hv. split; [reflexivity |]. exists [], key, value, rest.
      split; [reflexivity | split; [exact Hp | split; [exact Hv | intros entry []]]]. }
    destruct value as [| b | z | f | t | l | d]; simpl;
      try (apply Hraise; discriminate); cbn [andb] in Hskip.
    + destruct (is_substring "__typename" t); simpl;
        [apply Hraise; discriminate | exact (Hskip eq_refl)].
    + destruct (existsb (fun x => py_eq_str x "__typename") l); simpl;
        [apply Hraise; discriminate | exact (Hskip eq_refl)].
    + unfold tagged in Hskip.
      destruct (jdict_lookup "__typename" d) as [t |] eqn:Et; simpl; [| exact (Hskip eq_refl)].
      destruct (py_eq_str t typename) eqn:Ety; [| exact (Hskip eq_refl)].
      right. exists [], key, rest. split; [reflexivity |].
      split; [| intros entry []].
      unfold accepts, tagged. cbn [fst snd]. rewrite Hp, Et, Ety. reflexivity.
Qed.

(** ** The payload the pattern captures *)

(** X18.  Leftmost and shortest.  When the pattern of [_extract_relay_data]
    matches, the page is some text, the opening
    [window.__RELAY_STORE__ = {], a body, a closing brace with a semicolon,
    and the rest; the payload handed to [json.loads] is the body between
    braces; the opening is the leftmost one of the page, and the closing the
    first one after it. *)
Theorem relay_store_match_captures (html_content payload : string) :
  relay_store_match html_content = Some payload ->
  exists pre body post,
    html_content = (pre ++ "window.__RELAY_STORE__ = {" ++ body ++ "};" ++ post)%string
    /\ payload = ("{" ++ body ++ "}")%string
    /\ (forall pre' rest',
          html_content = (pre' ++ "window.__RELAY_STORE__ = {" ++ rest')%string ->
          (String.length pre <= String.length pre')%nat)
    /\ (forall body' post',
          (body ++ "};" ++ post = body' ++ "};" ++ post')%string ->
          (String.length body <= String.length body')%nat).
Proof.
  unfold relay_store_match, find_between.
  destruct (find_sub "window.__RELAY_STORE__ = {" html_content) as [[pre rest] |] eqn:F;
    [| discriminate].
  destruct (find_sub "};" rest) as [[body post] |] eqn:G; [| discriminate].
  intros H. injection H as <-. exists pre, body, post.
  split; [| split; [reflexivity | split]].
  - rewrite (find_sub_split _ _ _ _ F) at 1. rewrite (find_sub_split _ _ _ _ G) at 1.
    reflexivity.
  - intros pre' rest' H. exact (find_sub_leftmost _ _ _ _ F pre' rest' H).
  - intros body' post' H. apply (find_sub_leftmost _ _ _ _ G body' post').
    rewrite <- H. exact (find_sub_split _ _ _ _ G).
Qed.

(** ** The further properties on the worked inputs *)

(** On the page with the ids 5, 6 and 5.0, the entry under 5 is the
    Professor of the third record. *)
Lemma process_last_record_wins_witness :
  exists p,
    professor_of_record example_runtime duplicate_id_store
      (teacher (PFloat (S754_finite false 5 0)) "New" "Entry" 3) = Ok (Some p)
    /\ name p = "New Entry"
    /\ length duplicate_result = 2%nat
    /\ pydict_lookup (PInt 5) duplicate_result = Some p.
Proof.
  eexists. split; [reflexivity |]. split; [reflexivity |]. split; [reflexivity |].
  exact (process_last_record_wins example_runtime duplicate_id_store duplicate_result
           [PStr "e1"; PStr "e2"] [] (PStr "e3")
           (teacher (PFloat (S754_finite false 5 0)) "New" "Entry" 3) _
           eq_refl eq_refl eq_refl eq_refl eq_refl
           (fun _ _ _ H => match H with end)).
Defined.

Lemma process_lookup_by_own_id_witness :
  distinct_keys duplicate_result
  /\ (exists edge_refs, search_edge_refs duplicate_id_store = Ok edge_refs
                        /\ (length duplicate_result <= length edge_refs)%nat)
  /\ (forall k p, In (k, p) duplicate_result ->
        py_key_eq (ratemyprof_id p) (ratemyprof_id p) = true ->
        pydict_lookup (ratemyprof_id p) duplicate_result = Some p).
Proof.
  exact (process_lookup_by_own_id example_runtime duplicate_id_store duplicate_result eq_refl).
Defined.

(** Teacher 9, fetched into a new session, is found again under its id. *)
Lemma get_professor_by_id_again_witness :
  exists p,
    nth_error (objects session_with_9) 0 = Some p
    /\ ratemyprof_id p = PInt 9
    /\ get_professor_by_id example_runtime example_network (ratemyprof_id p) session_with_9
       = (Ok (Some 0%nat), session_with_9).
Proof.
  eexists. split; [reflexivity |]. split; [reflexivity |].
  exact (get_professor_by_id_again example_runtime example_network (PInt 9) new_session
           0%nat _ (fun _ _ H => match H with end) eq_refl eq_refl eq_refl).
Defined.

Lemma get_professor_by_id_fetched_witness :
  let resp := example_network 0%nat (professor_url example_runtime (PInt 9)) in
  exists relay_data prof_data made rs,
    status_code resp = 200
    /\ _extract_relay_data example_runtime (text resp) = Ok relay_data
    /\ find_typed "VGVhY2hlci0" "Teacher" relay_data = Ok prof_data
    /\ professor_of_record example_runtime relay_data prof_data = Ok (Some made)
    /\ _extract_ratings relay_data prof_data = Ok rs
    /\ 0%nat = length (objects new_session)
    /\ nth_error (objects session_with_9) 0 = Some (set_ratings made rs).
Proof.
  exact (get_professor_by_id_fetched example_runtime example_network (PInt 9) new_session
           0%nat eq_refl eq_refl).
Defined.

(** The ratings file of teacher 9, written twice. *)
Lemma write_ratings_to_csv_twice_witness :
  pydict_lookup (PInt 9) (professors session_with_comments) = Some 0%nat
  /\ (let out :=
        write_ratings_to_csv example_runtime example_network (PInt 9) session_with_comments in
      write_ratings_to_csv example_runtime example_network (PInt 9) (snd out) = out
      /\ professors (snd out) = professors session_with_comments
      /\ requested (snd out) = requested session_with_comments
      /\ length (objects (snd out)) = length (objects session_with_comments)
      /\ (forall a, a <> 0%nat ->
            nth_error (objects (snd out)) a = nth_error (objects session_with_comments) a)).
Proof.
  split; [reflexivity |].
  exact (write_ratings_to_csv_twice example_runtime example_network (PInt 9)
           session_with_comments 0%nat eq_refl).
Defined.

(** A number as the comment of the second of three ratings: the first row is
    written, then the call raises [AttributeError]. *)
Lemma write_ratings_to_csv_raises_witness :
  write_ratings_to_csv example_runtime example_network (PInt 9) session_with_bad_comment
  = ([[("id", PInt 1); ("comment", PStr "Great class  would take again")]],
     Raise AttributeError,
     snd (write_ratings_to_csv example_runtime example_network (PInt 9)
            session_with_bad_comment))
  /\ (let got :=
        get_professor_by_id example_runtime example_network (PInt 9) session_with_bad_comment in
      let out :=
        write_ratings_to_csv example_runtime example_network (PInt 9) session_with_bad_comment in
      (fst got = Raise AttributeError /\ out = ([], Raise AttributeError, snd got))
      \/ (exists address professor before r after,
            fst got = Ok (Some address)
            /\ nth_error (objects (snd got)) address = Some professor
            /\ ratings professor = (before ++ r :: after)%list
            /\ forallb writable before = true
            /\ fst (fst out) = map normalized_row before
            /\ ((AttributeError = AttributeError
                 /\ (exists c, jdict_lookup "comment" r = Some c /\ truthy c = true
                               /\ forall s, c <> PStr s)
                 /\ nth_error (objects (snd out)) address
                    = Some (set_ratings professor (map normalized_row before ++ r :: after)))
                \/ (AttributeError = ValueError
                    /\ comment_cleanable r = true
                    /\ (exists k, In k (map fst r) /\ ~ In k ratings_csv_columns)
                    /\ nth_error (objects (snd out)) address
                       = Some (set_ratings professor
                                 (map normalized_row before ++ normalized_row r :: after)))))).
Proof.
  split; [reflexivity |].
  exact (write_ratings_to_csv_raises example_runtime example_network (PInt 9)
           session_with_bad_comment AttributeError eq_refl).
Defined.

(** A key that is no column in the second of three ratings: the first row is
    written, then the writer raises [ValueError]; the comment of the second
    rating has been replaced in the object, the third rating is as it
    was. *)
Example write_ratings_to_csv_extra_key :
  let out :=
    write_ratings_to_csv example_runtime example_network (PInt 9) session_with_extra_key in
  fst out = ([[("id", PInt 1); ("comment", PStr "Great class  would take again")]],
             Raise ValueError)
  /\ option_map (fun p => map (jdict_lookup "comment") (ratings p))
       (nth_error (objects (snd out)) 0)
     = Some [Some (PStr "Great class  would take again");
             Some (PStr "Great class  would take again");
             Some (PStr great_class)].
Proof. split; reflexivity. Qed.

(** The professors file of the session that holds teacher 9. *)
Lemma write_professors_to_csv_rows_witness :
  let rows := write_professors_to_csv session_with_9 in
  length rows = length (professors session_with_9)
  /\ (forall i k address,
        nth_error (professors session_with_9) i = Some (k, address) ->
        exists p, nth_error (objects session_with_9) address = Some p
                  /\ nth_error rows i = Some (professor_row p)
                  /\ key_matches k (ratemyprof_id p))
  /\ (forall row, In row rows -> map fst row = professors_csv_columns).
Proof.
  apply (write_professors_to_csv_rows session_with_9).
  intros k address [H | []]. injection H as <- <-.
  eexists. split; [reflexivity | left; reflexivity].
Defined.

(** The Amy page: the payload is the text between the braces. *)
Lemma relay_store_match_captures_witness :
  relay_store_match (page "amy") = Some "{amy}"
  /\ exists pre body post,
       page "amy" = (pre ++ "window.__RELAY_STORE__ = {" ++ body ++ "};" ++ post)%string
       /\ "{amy}" = ("{" ++ body ++ "}")%string
       /\ (forall pre' rest',
             page "amy" = (pre' ++ "window.__RELAY_STORE__ = {" ++ rest')%string ->
             (String.length pre <= String.length pre')%nat)
       /\ (forall body' post',
             (body ++ "};" ++ post = body' ++ "};" ++ post')%string ->
             (String.length body <= String.length body')%nat).
Proof.
  split; [reflexivity |].
  exact (relay_store_match_captures (page "amy") "{amy}" eq_refl).
Defined.
